(** * ai-chat-app: the streaming chat agent, its cancellation protocol and
      its web-search tool, embedded from the TypeScript sources

    Sources embedded here:
    - [streamchatbackend/src/serverClient.ts]
    - [streamchatbackend/src/agents/openai/OpenAIAgent.ts]
    - [streamchatbackend/src/agents/openai/OpenAIResponseHandler.ts]

    Conventions of the embedding.
    - An [async] method is a computation in a state-and-exception monad
      [M S A := S -> Result A * S]: [Ok] is a fulfilled promise, [Throw] a
      rejected one (or a synchronous [throw]).
    - Calls into the collaborators (chat SDK, model API, [fetch]) are recorded,
      in program order, in the [trace] field of the state.  The chat SDK calls
      ([sendEvent], [partialUpdateMessage], [sendMessage], [on], [off],
      [disconnectUser]) are taken to fulfil; the model API and [fetch] may
      reject, their answers are inputs of the model.
    - [console.log] / [console.error] are not recorded; the conversion of a
      template literal's argument to a string is modelled where it can throw.
    - [Date.now()] readings are inputs.
    - The event loop is single-threaded: another handler can only run while
      a method is suspended on an [await].  The one interleaving modelled is
      an [ai_indicator.stop] event dispatched while the stream loop awaits its
      next chunk. *)

From Stdlib Require Import ZArith List String Ascii Bool Lia Arith.
From Stdlib Require Import DecimalString.
Import ListNotations.
Local Open Scope string_scope.
Local Open Scope list_scope.

Set Implicit Arguments.

(** ** JavaScript values the sources manipulate *)

Module Js.

(** What [JSON.parse] / [response.json()] produce and [JSON.stringify]
    consumes.  An object is the list of its own properties. *)
#[local] Unset Elimination Schemes.
Inductive json : Type :=
| JNull
| JBool (b : bool)
| JNum (n : Z)
| JStr (s : string)
| JArr (items : list json)
| JObj (fields : list (string * json)).
#[local] Set Elimination Schemes.

(** An [Error] object: its [name] and its [message] (which [??] treats as
    possibly missing). *)
Record JsError : Type := mkError {
  err_name : string;
  err_message : option string
}.

Definition AbortError : JsError := mkError "AbortError" (Some "Request was aborted.").
Definition SyntaxError : JsError := mkError "SyntaxError" (Some "Unexpected token in JSON").
Definition TypeError (msg : string) : JsError := mkError "TypeError" (Some msg).

(** Truthiness of a possibly-undefined string: [undefined] and the empty
    string are falsy. *)
Definition truthy (v : option string) : bool :=
  match v with
  | Some s => negb (s =? "")
  | None => false
  end.

(** [a || b] on strings. *)
Definition or_else (v : option string) (d : string) : string :=
  if truthy v then match v with Some s => s | None => d end else d.

(** [a ?? b]. *)
Definition nullish (v : option string) (d : string) : string :=
  match v with Some s => s | None => d end.

(** Property lookup [obj.key] on a parsed object. *)
Fixpoint lookup (key : string) (fields : list (string * json)) : option json :=
  match fields with
  | [] => None
  | (k, v) :: rest => if k =? key then Some v else lookup key rest
  end.

(** Whether [`${v}`] yields a string, for a value that [JSON.parse]
    produced: an object with an own property [toString] (which, coming from
    JSON, is not callable) cannot be converted to a primitive and the
    template literal throws a [TypeError]; an array is converted by joining
    the conversions of its elements; everything else converts. *)
Fixpoint printable (v : json) : bool :=
  match v with
  | JObj fields => negb (existsb (fun kv => fst kv =? "toString") fields)
  | JArr items =>
      (fix all (l : list json) : bool :=
         match l with
         | [] => true
         | x :: rest => printable x && all rest
         end) items
  | _ => true
  end.

(** [`${query}`] for an argument that may be [undefined]. *)
Definition printable_query (query : option json) : bool :=
  match query with
  | Some v => printable v
  | None => true
  end.

Definition unprintable : JsError :=
  TypeError "Cannot convert object to primitive value".

(** [`${n}`] for a non-negative integer. *)
Definition decimal (n : nat) : string := NilZero.string_of_uint (Nat.to_uint n).

(** Arrays with holes, as [pendingToolCalls] is: [arr[i]] reads
    [undefined] at a hole or past the end, [arr[i] = v] past the end
    extends the array with holes. *)
Definition array_get {A} (arr : list (option A)) (i : nat) : option A :=
  match nth_error arr i with
  | Some (Some v) => Some v
  | _ => None
  end.

Fixpoint array_set {A} (arr : list (option A)) (i : nat) (v : A) : list (option A) :=
  match i, arr with
  | O, [] => [Some v]
  | O, _ :: rest => Some v :: rest
  | S i', [] => None :: array_set [] i' v
  | S i', x :: rest => x :: array_set rest i' v
  end.

(** [arr.slice(-n)]: the last [n] elements (all of them if fewer). *)
Definition slice_last {A} (n : nat) (arr : list A) : list A :=
  skipn (List.length arr - n) arr.

End Js.
Import Js.

(** ** Promises as a state-and-exception monad *)

Inductive Result (A : Type) : Type :=
| Ok (a : A)
| Throw (e : JsError).
Arguments Throw {A} e.

Definition M (S A : Type) : Type := S -> Result A * S.

Definition ret {S A} (a : A) : M S A := fun s => (Ok a, s).

Definition bind {S A B} (m : M S A) (k : A -> M S B) : M S B :=
  fun s =>
    match m s with
    | (Ok a, s') => k a s'
    | (Throw e, s') => (Throw e, s')
    end.

Definition throw {S A} (e : JsError) : M S A := fun s => (Throw e, s).

Definition gets {S A} (f : S -> A) : M S A := fun s => (Ok (f s), s).

Definition modify {S} (f : S -> S) : M S unit := fun s => (Ok tt, f s).

(** [try { body } catch (error) { handler }] *)
Definition try_catch {S A} (body : M S A) (handler : JsError -> M S A) : M S A :=
  fun s =>
    match body s with
    | (Ok a, s') => (Ok a, s')
    | (Throw e, s') => handler e s'
    end.

(** [try { body } finally { final }] *)
Definition try_finally {S A} (body : M S A) (final : M S unit) : M S A :=
  fun s =>
    let (r, s') := body s in
    match final s' with
    | (Ok _, s'') => (r, s'')
    | (Throw e, s'') => (Throw e, s'')
    end.

Declare Scope js_scope.
Delimit Scope js_scope with js.
Notation "x <- m ;; k" := (bind m (fun x => k))
  (at level 61, m at next level, right associativity) : js_scope.
Notation "m ;; k" := (bind m (fun _ => k))
  (at level 61, right associativity) : js_scope.
Local Open Scope js_scope.

(** ** [serverClient.ts] *)

Module ServerClient.

(** [process.env] as far as the module reads it. *)
Record Env : Type := mkEnv {
  STREAM_API_KEY : option string;
  STREAM_API_SECRET : option string
}.

(** [new StreamChat(apiKey, apiSecret)] *)
Record StreamChat : Type := mkStreamChat {
  key : string;
  secret : string
}.

Definition missing : JsError :=
  mkError "Error"
    (Some "Missing Required Environment Variables For STREAAM_API_KEY and STREAM_API_SECRET").

(** Evaluating the module: its export, or the exception of its top level. *)
Definition serverClient (env : Env) : Result StreamChat :=
  let apiKey := STREAM_API_KEY env in
  let apiSecret := STREAM_API_SECRET env in
  if negb (truthy apiKey) || negb (truthy apiSecret) then
    Throw missing
  else
    Ok (mkStreamChat (nullish apiKey "") (nullish apiSecret "")).

End ServerClient.

(** ** [agents/openai/OpenAIAgent.ts] *)

Module OpenAIAgent.

(** *** Data *)

(** A pending tool call, [{ id, type, function: { name, arguments } }]. *)
Record FunctionCall : Type := mkFunctionCall {
  name : string;
  arguments : string
}.

Record ToolCall : Type := mkToolCall {
  tc_id : option string;
  tc_type : option string;
  tc_function : FunctionCall
}.

(** [OpenAI.Chat.Completions.ChatCompletionMessageParam], the shapes the
    agent pushes.  The tool-call turn carries the raw [pendingToolCalls]
    array, holes included. *)
Inductive ChatMessage : Type :=
| SystemMsg (content : string)
| UserMsg (content : string)
| AssistantMsg (content : string)
| AssistantToolCalls (tool_calls : list (option ToolCall))
| ToolMsg (tool_call_id : option string) (content : string).

(** One streamed chunk, as far as the loop reads it:
    [chunk.choices[0]?.delta], [delta?.content], [delta?.tool_calls],
    [chunk.choices[0]?.finish_reason]. *)
Record FunctionDelta : Type := mkFunctionDelta {
  fd_name : option string;
  fd_arguments : option string
}.

(** [toolCall.index] is [None] where the provider leaves the index out. *)
Record ToolCallDelta : Type := mkToolCallDelta {
  tcd_index : option nat;
  tcd_id : option string;
  tcd_type : option string;
  tcd_function : option FunctionDelta
}.

Record Delta : Type := mkDelta {
  delta_content : option string;
  delta_tool_calls : option (list ToolCallDelta)
}.

Record Choice : Type := mkChoice {
  delta : option Delta;
  finish_reason : option string
}.

Record Chunk : Type := mkChunk {
  choices : list Choice
}.

(** The placeholder message returned by [channel.sendMessage]. *)
Record ChannelMessage : Type := mkChannelMessage {
  cm_id : string;
  cm_cid : string
}.

(** The [ai_indicator.stop] event, as far as the handler reads it. *)
Record StopEvent : Type := mkStopEvent {
  stop_message_id : option string;
  stop_cid : option string
}.

(** The [message.new] event: [e.message], [.ai_generated], [.text],
    [.custom?.writingTask]. *)
Record NewMessage : Type := mkNewMessage {
  ai_generated : bool;
  text : option string;
  writingTask : option string
}.

Record MessageEvent : Type := mkMessageEvent {
  message : option NewMessage
}.

Inductive AiState : Type :=
| AI_STATE_THINKING
| AI_STATE_GENERATING
| AI_STATE_ERROR.

(** Events sent on the channel. *)
Inductive ChannelEvent : Type :=
| AiIndicatorUpdate (ai_state : AiState) (cid : string) (message_id : string)
| AiIndicatorClear (cid : option string) (message_id : string).

(** The request [performWebSearch] hands to [fetch]. *)
Record FetchRequest : Type := mkFetchRequest {
  url : string;
  method : string;
  headers : list (string * string);
  body : string
}.

(** What [fetch] answers: it rejects, or resolves to a response with
    [ok], [status], the outcome of [text()] ([None]: reading the body
    rejects) and the outcome of [json()] ([None]: reading the body rejects or
    the body does not parse). *)
Inductive FetchOutcome : Type :=
| FetchRejects (e : JsError)
| FetchResponse (ok : bool) (status : nat) (body_text : option string)
    (body_json : option json).

(** The rejection of [response.text()] / [response.json()]. *)
Definition body_error : JsError := mkError "TypeError" (Some "terminated").

(** Calls into the collaborators, in program order. *)
Inductive Effect : Type :=
| SendEvent (e : ChannelEvent)
| PartialUpdateMessage (id : string) (set_text : string)
| SendMessage (msg_text : string) (msg_ai_generated : bool)
| ChatOn (event : string)
| ChatOff (event : string)
| DisconnectUser
| CreateCompletion (messages : list ChatMessage)
| Fetch (req : FetchRequest).

(** An [AbortController] is a reference into [controllers], the store of
    their [signal.aborted] flags. *)
Definition Controller : Type := nat.

(** The fields of the class, the store of controllers and the trace. *)
Record State : Type := mkState {
  openai : bool;
  conversationHistory : list ChatMessage;
  lastInteractionTs : Z;
  activeStreamControllers : list Controller;
  controllers : list bool;
  trace : list Effect
}.

(** What the stream of one completion does, seen from the [for await]
    loop: it yields a chunk (with the reading [Date.now()] would give while
    the chunk is handled), it rejects, or, while the loop is suspended on it,
    an [ai_indicator.stop] event is dispatched to the agent. *)
Inductive StreamItem : Type :=
| SChunk (chunk : Chunk) (now : Z)
| SStop (event : StopEvent)
| SThrow (e : JsError).

(** What the model API does on successive [chat.completions.create] calls of
    one message: the call rejects, or resolves to a stream, and a later call
    (after a tool round) is answered by [next]. *)
Inductive ModelScript : Type :=
| CreateRejects (e : JsError)
| CreateStream (items : list StreamItem) (next : ModelScript).

(** How the [for await] loop is left: by [return] after the tool calls, or
    by [break] / exhaustion with the text accumulated so far. *)
Inductive LoopExit : Type :=
| Returned
| Fallthrough (messageText : string).

(** *** State updates *)

Definition with_openai (v : bool) (s : State) : State :=
  mkState v (conversationHistory s) (lastInteractionTs s)
    (activeStreamControllers s) (controllers s) (trace s).

Definition with_history (v : list ChatMessage) (s : State) : State :=
  mkState (openai s) v (lastInteractionTs s)
    (activeStreamControllers s) (controllers s) (trace s).

Definition with_lastInteractionTs (v : Z) (s : State) : State :=
  mkState (openai s) (conversationHistory s) v
    (activeStreamControllers s) (controllers s) (trace s).

Definition with_active (v : list Controller) (s : State) : State :=
  mkState (openai s) (conversationHistory s) (lastInteractionTs s)
    v (controllers s) (trace s).

Definition with_controllers (v : list bool) (s : State) : State :=
  mkState (openai s) (conversationHistory s) (lastInteractionTs s)
    (activeStreamControllers s) v (trace s).

Definition with_trace (v : list Effect) (s : State) : State :=
  mkState (openai s) (conversationHistory s) (lastInteractionTs s)
    (activeStreamControllers s) (controllers s) v.

Definition emit (e : Effect) : M State unit :=
  modify (fun s => with_trace (trace s ++ [e]) s).

Definition sendEvent (e : ChannelEvent) : M State unit := emit (SendEvent e).

Definition partialUpdateMessage (id : string) (set_text : string) : M State unit :=
  emit (PartialUpdateMessage id set_text).

(** [this.conversationHistory.push(...msgs)] *)
Definition push (msgs : list ChatMessage) : M State unit :=
  modify (fun s => with_history (conversationHistory s ++ msgs) s).

(** [new AbortController()]: a fresh cell, not aborted. *)
Definition newAbortController : M State Controller :=
  fun s => (Ok (List.length (controllers s)),
            with_controllers (controllers s ++ [false]) s).

(** [controller.signal.aborted] *)
Definition aborted (c : Controller) (s : State) : bool :=
  nth c (controllers s) false.

Fixpoint set_aborted (cells : list bool) (c : Controller) : list bool :=
  match cells, c with
  | [], _ => []
  | _ :: rest, O => true :: rest
  | b :: rest, S c' => b :: set_aborted rest c'
  end.

(** [controller.abort()] *)
Definition abort (s : State) (c : Controller) : State :=
  with_controllers (set_aborted (controllers s) c) s.

(** [this.activeStreamControllers.forEach(controller => controller.abort());
     this.activeStreamControllers = [];] *)
Definition abortAll : M State unit :=
  modify (fun s => with_active [] (fold_left abort (activeStreamControllers s) s)).

(** *** [getWritingAssistantPrompt] *)

Definition dq : string := String (ascii_of_nat 34) EmptyString.

Definition getWritingAssistantPrompt (currentDate : string) (context : option string) : string :=
  String.concat "" [
"You are an expert AI Writing Assistant. Your primary purpose is to be a collaborative writing partner.

**Your Core Capabilities:**
- Content Creation, Improvement, Style Adaptation, Brainstorming, and Writing Coaching.
- **Web Search**: You have the ability to search the web for up-to-date information using the 'web_search' tool.
- **Current Date**: Today's date is "; currentDate; ". Please use this for any time-sensitive queries.

**Crucial Instructions:**
1.  **ALWAYS use the 'web_search' tool when the user asks for current information, news, or facts.** Your internal knowledge is outdated.
2.  When you use the 'web_search' tool, you will receive a JSON object with search results. **You MUST base your response on the information provided in that search result.** Do not rely on your pre-existing knowledge for topics that require current information.
3.  Synthesize the information from the web search to provide a comprehensive and accurate answer. Cite sources if the results include URLs.

**Response Format:**
- Be direct and production-ready.
- Use clear formatting.
- Never begin responses with phrases like "; dq; "Here's the edit:"; dq; ", "; dq; "Here are the changes:"; dq; ", or similar introductory statements.
- Provide responses directly and professionally without unnecessary preambles.

**Writing Context**: "; or_else context "General writing assistance."; "

Your goal is to provide accurate, current, and helpful written content. Failure to use web search for recent topics will result in an incorrect answer."].

(** *** [init], [dispose], [handleStopGenerating], [handleStreamError] *)

Definition init (GEMINI_API_KEY : option string) (currentDate : string) : M State unit :=
  let apiKey := GEMINI_API_KEY in
  if negb (truthy apiKey) then
    throw (mkError "Error" (Some "Gemini API key is required"))
  else
    modify (with_openai true) ;;
    modify (with_history [SystemMsg (getWritingAssistantPrompt currentDate None)]) ;;
    emit (ChatOn "message.new") ;;
    emit (ChatOn "ai_indicator.stop").

Definition dispose : M State unit :=
  emit (ChatOff "message.new") ;;
  emit (ChatOff "ai_indicator.stop") ;;
  emit DisconnectUser ;;
  abortAll.

(** [getLastInteraction = (): number => this.lastInteractionTs] *)
Definition getLastInteraction : M State Z := gets lastInteractionTs.

Definition handleStopGenerating (event : StopEvent) : M State unit :=
  n <- gets (fun s => List.length (activeStreamControllers s)) ;;
  if negb (truthy (stop_message_id event)) || (n =? 0)%nat then
    ret tt
  else
    abortAll ;;
    sendEvent (AiIndicatorClear (stop_cid event) (nullish (stop_message_id event) "")).

Definition handleStreamError (error : JsError) (channelMessage : ChannelMessage) : M State unit :=
  sendEvent (AiIndicatorUpdate AI_STATE_ERROR (cm_cid channelMessage) (cm_id channelMessage)) ;;
  partialUpdateMessage (cm_id channelMessage)
    (nullish (err_message error) "Error generating the message").

(** *** The stream loop, the tool round and the web search *)

Section Operations.

(** The built-ins [JSON.stringify] and [JSON.parse] ([None]: it throws a
    [SyntaxError]), [process.env.TAVILY_API_KEY], and the network: the answer
    of [fetch] to the [n]-th request of the run. *)
Variable JSON_stringify : json -> string.
Variable JSON_parse : string -> option json.
Variable TAVILY_API_KEY : option string.
Variable fetch : nat -> FetchRequest -> FetchOutcome.

Definition is_fetch (e : Effect) : bool :=
  match e with Fetch _ => true | _ => false end.

(** [await fetch(url, init)] *)
Definition do_fetch (req : FetchRequest)
    : M State (bool * nat * option string * option json) :=
  fun s =>
    let n := List.length (filter is_fetch (trace s)) in
    let s' := with_trace (trace s ++ [Fetch req]) s in
    match fetch n req with
    | FetchRejects e => (Throw e, s')
    | FetchResponse ok status body_text body_json =>
        (Ok (ok, status, body_text, body_json), s')
    end.

(** The body of the search request; a [query] that is [undefined] is left
    out by [JSON.stringify]. *)
Definition search_request (tavilyApiKey : string) (query : option json) : FetchRequest :=
  mkFetchRequest "https://api.tavily.com/search" "POST"
    [("Content-Type", "application/json");
     ("Authorization", String.append "Bearer " tavilyApiKey)]
    (JSON_stringify
       (JObj (match query with Some q => [("query", q)] | None => [] end ++
              [("search_depth", JStr "advanced");
               ("max_results", JNum 5);
               ("include_answer", JBool true);
               ("include_raw_content", JBool false)]))).

(** Line 340, [console.log(`Performing Web Search For ${query}`)], stands
    before the [try]: what it prints is not recorded, but the conversion of
    [query] to a string can throw. *)
Definition performWebSearch (query : option json) : M State string :=
  let tavilyApiKey := TAVILY_API_KEY in
  if negb (truthy tavilyApiKey) then
    ret (JSON_stringify
           (JObj [("error", JStr "Web Search is Not Available, API Key Not Configured.")]))
  else if negb (printable_query query) then
    throw unprintable
  else
    try_catch
      (response <- do_fetch (search_request (nullish tavilyApiKey "") query) ;;
       let '(ok, status, body_text, body_json) := response in
       if negb ok then
         match body_text with
         | None => throw body_error
         | Some errorText =>
             ret (JSON_stringify
                    (JObj [("error", JStr (String.append "Search Failed with Status Code: "
                                             (decimal status)));
                           ("details", JStr errorText)]))
         end
       else
         match body_json with
         | None => throw SyntaxError
         | Some data => ret (JSON_stringify data)
         end)
      (fun _ =>
         ret (JSON_stringify
                (JObj [("error", JStr "An Exception Occurred During Web Search")]))).

(** Lines 206-221: one [toolCall] of [delta.tool_calls] merged into
    [pendingToolCalls]. *)
Definition append_name (piece : string) (tc : ToolCall) : ToolCall :=
  mkToolCall (tc_id tc) (tc_type tc)
    (mkFunctionCall (String.append (name (tc_function tc)) piece)
                    (arguments (tc_function tc))).

Definition append_arguments (piece : string) (tc : ToolCall) : ToolCall :=
  mkToolCall (tc_id tc) (tc_type tc)
    (mkFunctionCall (name (tc_function tc))
                    (String.append (arguments (tc_function tc)) piece)).

(** [pendingToolCalls[i].function.x += piece], the slot being there. *)
Definition array_update (pending : list (option ToolCall)) (i : nat)
    (f : ToolCall -> ToolCall) : list (option ToolCall) :=
  match array_get pending i with
  | Some tc => array_set pending i (f tc)
  | None => pending
  end.

Definition name_piece (toolCall : ToolCallDelta) : option string :=
  match tcd_function toolCall with Some f => fd_name f | None => None end.

Definition arguments_piece (toolCall : ToolCallDelta) : option string :=
  match tcd_function toolCall with Some f => fd_arguments f | None => None end.

(** A fragment without an index reads and writes
    [pendingToolCalls[undefined]], a property named "undefined" of the array
    object: it is no element of the array, so neither [length], nor
    [for..of], nor the serialisation of the array sees it.  The model keeps
    the elements, which such a fragment leaves as they are. *)
Definition mergeToolCall (pendingToolCalls : list (option ToolCall))
    (toolCall : ToolCallDelta) : list (option ToolCall) :=
  match tcd_index toolCall with
  | None => pendingToolCalls
  | Some i =>
      let p1 :=
        match array_get pendingToolCalls i with
        | None =>
            array_set pendingToolCalls i
              (mkToolCall (tcd_id toolCall) (tcd_type toolCall) (mkFunctionCall "" ""))
        | Some _ => pendingToolCalls
        end in
      let p2 :=
        if truthy (name_piece toolCall)
        then array_update p1 i (append_name (nullish (name_piece toolCall) ""))
        else p1 in
      if truthy (arguments_piece toolCall)
      then array_update p2 i (append_arguments (nullish (arguments_piece toolCall) ""))
      else p2
  end.

(** Lines 205-222: [if (delta?.tool_calls) for (const toolCall of ...)]. *)
Definition accumulateToolCalls (pendingToolCalls : list (option ToolCall))
    (tool_calls : option (list ToolCallDelta)) : list (option ToolCall) :=
  match tool_calls with
  | Some calls => fold_left mergeToolCall calls pendingToolCalls
  | None => pendingToolCalls
  end.

Definition chunk_delta (chunk : Chunk) : option Delta :=
  match hd_error (choices chunk) with Some c => delta c | None => None end.

Definition chunk_content (chunk : Chunk) : option string :=
  match chunk_delta chunk with Some d => delta_content d | None => None end.

Definition chunk_tool_calls (chunk : Chunk) : option (list ToolCallDelta) :=
  match chunk_delta chunk with Some d => delta_tool_calls d | None => None end.

Definition chunk_finish_reason (chunk : Chunk) : option string :=
  match hd_error (choices chunk) with Some c => finish_reason c | None => None end.

Definition is_tool_calls (reason : option string) : bool :=
  match reason with Some r => r =? "tool_calls" | None => false end.

(** Lines 186-229, the [for await] loop with its three locals.
    [onToolCalls] stands for [this.handleToolCalls(_, channelMessage)]. *)
Fixpoint consume (controller : Controller) (channelMessage : ChannelMessage)
    (onToolCalls : list (option ToolCall) -> M State unit)
    (stream : list StreamItem)
    (messageText : string) (lastUpdateTime : Z)
    (pendingToolCalls : list (option ToolCall)) : M State LoopExit :=
  match stream with
  | [] => ret (Fallthrough messageText)
  | SThrow e :: _ => throw e
  | SStop event :: rest =>
      handleStopGenerating event ;;
      consume controller channelMessage onToolCalls rest
        messageText lastUpdateTime pendingToolCalls
  | SChunk chunk now :: rest =>
      is_aborted <- gets (aborted controller) ;;
      if is_aborted then ret (Fallthrough messageText)
      else
        let has_text := truthy (chunk_content chunk) in
        let messageText' :=
          if has_text
          then String.append messageText (nullish (chunk_content chunk) "")
          else messageText in
        let flush := has_text && (now - lastUpdateTime >? 1000)%Z in
        (if flush
         then partialUpdateMessage (cm_id channelMessage) messageText'
         else ret tt) ;;
        let lastUpdateTime' := if flush then now else lastUpdateTime in
        let pendingToolCalls' :=
          accumulateToolCalls pendingToolCalls (chunk_tool_calls chunk) in
        if is_tool_calls (chunk_finish_reason chunk)
           && (0 <? List.length pendingToolCalls')%nat
        then
          onToolCalls pendingToolCalls' ;;
          ret Returned
        else
          consume controller channelMessage onToolCalls rest
            messageText' lastUpdateTime' pendingToolCalls'
  end.

(** [JSON.parse(text)] as a computation. *)
Definition parse (text : string) : M State json :=
  match JSON_parse text with
  | Some v => ret v
  | None => throw SyntaxError
  end.

(** [args.query]: reading a property of [null] throws, of an object looks
    the property up, of any other value gives [undefined]. *)
Definition query_of (args : json) : M State (option json) :=
  match args with
  | JNull => throw (TypeError "Cannot read properties of null (reading 'query')")
  | JObj fields => ret (lookup "query" fields)
  | _ => ret None
  end.

Definition search_failed : string :=
  JSON_stringify (JObj [("error", JStr "Failed to perform web search")]).

(** Lines 270-290: the loop over [toolCalls], with the local
    [toolResults].  A hole of the array is [undefined], whose [.function]
    throws outside the [try]. *)
Fixpoint runToolCalls (toolCalls : list (option ToolCall))
    (toolResults : list ChatMessage) : M State (list ChatMessage) :=
  match toolCalls with
  | [] => ret toolResults
  | None :: _ =>
      throw (TypeError "Cannot read properties of undefined (reading 'function')")
  | Some toolCall :: rest =>
      if name (tc_function toolCall) =? "web_search" then
        result <-
          try_catch
            (args <- parse (arguments (tc_function toolCall)) ;;
             query <- query_of args ;;
             searchResult <- performWebSearch query ;;
             ret (ToolMsg (tc_id toolCall) searchResult))
            (fun _ => ret (ToolMsg (tc_id toolCall) search_failed)) ;;
        runToolCalls rest (toolResults ++ [result])
      else
        runToolCalls rest toolResults
  end.

(** [handleToolCalls], its last line
    [await this.processMessageWithGemini(channelMessage)] being [continue_]. *)
Definition handleToolCalls_then (continue_ : M State unit)
    (toolCalls : list (option ToolCall)) : M State unit :=
  ready <- gets openai ;;
  if negb ready then ret tt
  else
    push [AssistantToolCalls toolCalls] ;;
    toolResults <- runToolCalls toolCalls [] ;;
    push toolResults ;;
    continue_.

(** Lines 231-246, after the loop. *)
Definition finish (channelMessage : ChannelMessage) (messageText : string) : M State unit :=
  partialUpdateMessage (cm_id channelMessage) messageText ;;
  push [AssistantMsg messageText] ;;
  sendEvent (AiIndicatorClear (Some (cm_cid channelMessage)) (cm_id channelMessage)).

(** Line 255, the [finally] block. *)
Definition retire (controller : Controller) : M State unit :=
  modify (fun s =>
    with_active
      (filter (fun c => negb (c =? controller)%nat) (activeStreamControllers s)) s).

(** The [catch] block. *)
Definition on_error (channelMessage : ChannelMessage) (error : JsError) : M State unit :=
  if negb (err_name error =? "AbortError")
  then handleStreamError error channelMessage
  else ret tt.

Fixpoint processMessageWithGemini (script : ModelScript)
    (channelMessage : ChannelMessage) {struct script} : M State unit :=
  ready <- gets openai ;;
  if negb ready then ret tt
  else
    controller <- newAbortController ;;
    modify (fun s => with_active (activeStreamControllers s ++ [controller]) s) ;;
    try_finally
      (try_catch
         (sendEvent (AiIndicatorUpdate AI_STATE_GENERATING
                       (cm_cid channelMessage) (cm_id channelMessage)) ;;
          messages <- gets conversationHistory ;;
          emit (CreateCompletion messages) ;;
          match script with
          | CreateRejects e => throw e
          | CreateStream stream next =>
              exit <- consume controller channelMessage
                        (handleToolCalls_then
                           (processMessageWithGemini next channelMessage))
                        stream "" 0%Z [] ;;
              match exit with
              | Returned => ret tt
              | Fallthrough messageText => finish channelMessage messageText
              end
          end)
         (on_error channelMessage))
      (retire controller).

Definition handleToolCalls (script : ModelScript) (toolCalls : list (option ToolCall))
    (channelMessage : ChannelMessage) : M State unit :=
  handleToolCalls_then (processMessageWithGemini script channelMessage) toolCalls.

(** *** [handleMessage] *)

(** [this.conversationHistory[0] = v] *)
Definition set_first (v : ChatMessage) (history : list ChatMessage) : list ChatMessage :=
  match history with
  | [] => [v]
  | _ :: rest => v :: rest
  end.

(** Lines 118-123. *)
Definition trim (history : list ChatMessage) : list ChatMessage :=
  if (21 <? List.length history)%nat then
    match history with
    | first :: _ => first :: slice_last 20 history
    | [] => []
    end
  else history.

(** Lines 98-123: the time stamp, the system prompt, the user turn and the
    trimming. *)
Definition recordUserMessage (now : Z) (currentDate : string)
    (m : NewMessage) : M State unit :=
  modify (with_lastInteractionTs now) ;;
  (if truthy (writingTask m) then
     modify (fun s =>
       with_history
         (set_first
            (SystemMsg (getWritingAssistantPrompt currentDate
               (Some (String.append "Writing Task: " (nullish (writingTask m) "")))))
            (conversationHistory s)) s)
   else ret tt) ;;
  push [UserMsg (nullish (text m) "")] ;;
  modify (fun s => with_history (trim (conversationHistory s)) s).

(** [now] and [currentDate] are the clock readings, [channelMessage] the
    placeholder that [sendMessage] returns, [script] the model's answers. *)
Definition handleMessage (e : MessageEvent) (now : Z) (currentDate : string)
    (channelMessage : ChannelMessage) (script : ModelScript) : M State unit :=
  ready <- gets openai ;;
  if negb ready then ret tt
  else
    match message e with
    | None => ret tt
    | Some m =>
        if ai_generated m then ret tt
        else if negb (truthy (text m)) then ret tt
        else
          recordUserMessage now currentDate m ;;
          emit (SendMessage "" true) ;;
          sendEvent (AiIndicatorUpdate AI_STATE_THINKING
                       (cm_cid channelMessage) (cm_id channelMessage)) ;;
          processMessageWithGemini script channelMessage
    end.

End Operations.

(** The state of a freshly constructed agent. *)
Definition fresh (now : Z) : State := mkState false [] now [] [] [].

End OpenAIAgent.

(** ** [agents/openai/OpenAIResponseHandler.ts] *)

Module OpenAIResponseHandler.

Import OpenAIAgent.

(** [this.message], of which [id] and [cid] are read. *)
Record MessageResponse : Type := mkMessageResponse {
  id : string;
  cid : string
}.

(** [event.data.delta.content?.[0]] of a [thread.message.delta] event. *)
Record TextDelta : Type := mkTextDelta {
  value : option string
}.

Record DeltaContent : Type := mkDeltaContent {
  dc_type : string;
  dc_text : option TextDelta
}.

(** [event.data.content[0]] of a [thread.message.completed] event. *)
Inductive MessageContent : Type :=
| TextContent (text_value : string)
| OtherContent (content_type : string).

(** [OpenAI.Beta.Assistants.AssistantStreamEvent], the cases
    [handleStreamEvent] tells apart. *)
Inductive AssistantStreamEvent : Type :=
| ThreadRunCreated (data_id : string)
| ThreadMessageDelta (content0 : option DeltaContent)
| ThreadMessageCompleted (content0 : option MessageContent)
| ThreadRunStepCreated (step_details_type : string)
| OtherStreamEvent (event : string).

Inductive Effect : Type :=
| SendEvent (e : ChannelEvent)
| PartialUpdateMessage (msg_id : string) (set_text : string) (set_message : option string)
| ChatOn (event : string)
| ChatOff (event : string)
| OnDispose
| CancelRun (runId : string) (thread_id : string)
| Fetch (req : FetchRequest).

Record State : Type := mkState {
  message_text : string;
  chunk_counter : nat;
  run_id : string;
  is_done : bool;
  last_update_time : Z;
  trace : list Effect
}.

Definition with_message_text (v : string) (s : State) : State :=
  mkState v (chunk_counter s) (run_id s) (is_done s) (last_update_time s) (trace s).

Definition with_chunk_counter (v : nat) (s : State) : State :=
  mkState (message_text s) v (run_id s) (is_done s) (last_update_time s) (trace s).

Definition with_run_id (v : string) (s : State) : State :=
  mkState (message_text s) (chunk_counter s) v (is_done s) (last_update_time s) (trace s).

Definition with_is_done (v : bool) (s : State) : State :=
  mkState (message_text s) (chunk_counter s) (run_id s) v (last_update_time s) (trace s).

Definition with_last_update_time (v : Z) (s : State) : State :=
  mkState (message_text s) (chunk_counter s) (run_id s) (is_done s) v (trace s).

Definition with_trace (v : list Effect) (s : State) : State :=
  mkState (message_text s) (chunk_counter s) (run_id s) (is_done s) (last_update_time s) v.

Definition emit (e : Effect) : M State unit :=
  modify (fun s => with_trace (trace s ++ [e]) s).

(** The field initialisers and the constructor. *)
Definition construct : State :=
  mkState "" 0 "" false 0%Z [ChatOn "ai_indicator.stop"].

Section Operations.

(** The [readonly] constructor parameters read by the methods, and the
    environment of [performWebSearch] as in the agent. *)
Variable message : MessageResponse.
Variable openAiThread_id : string.
Variable JSON_stringify : json -> string.
Variable TAVILY_API_KEY : option string.
Variable fetch : nat -> FetchRequest -> FetchOutcome.

Definition dispose : M State unit :=
  done <- gets is_done ;;
  if done then ret tt
  else
    modify (with_is_done true) ;;
    emit (ChatOff "ai_indicator.stop") ;;
    emit OnDispose.

(** [await this.openai.beta.threads.runs.cancel(...)] inside its
    [try]/[catch]: fulfilled or rejected, the handler goes on. *)
Definition cancel_run : M State unit :=
  runId <- gets run_id ;;
  emit (CancelRun runId openAiThread_id).

Definition same_id (event_id : option string) (own : string) : bool :=
  match event_id with Some i => i =? own | None => false end.

Definition handleStopGenerating (event : StopEvent) : M State unit :=
  done <- gets is_done ;;
  if done || negb (same_id (stop_message_id event) (id message)) then ret tt
  else
    runId <- gets run_id ;;
    if negb (truthy (Some runId)) then ret tt
    else
      cancel_run ;;
      emit (SendEvent (AiIndicatorClear (Some (cid message)) (id message))) ;;
      dispose.

Definition handleStreamEvent (event : AssistantStreamEvent) (now : Z) : M State unit :=
  match event with
  | ThreadRunCreated data_id => modify (with_run_id data_id)
  | ThreadMessageDelta textDelta =>
      match textDelta with
      | Some (mkDeltaContent type (Some text)) =>
          if type =? "text" then
            modify (fun s =>
              with_message_text
                (String.append (message_text s) (or_else (value text) "")) s) ;;
            last <- gets last_update_time ;;
            (if (now - last >? 1000)%Z then
               full <- gets message_text ;;
               emit (PartialUpdateMessage (id message) full None) ;;
               modify (with_last_update_time now)
             else ret tt) ;;
            modify (fun s => with_chunk_counter (chunk_counter s + 1) s)
          else ret tt
      | _ => ret tt
      end
  | ThreadMessageCompleted content0 =>
      match content0 with
      | None =>
          throw (TypeError "Cannot read properties of undefined (reading 'type')")
      | Some c =>
          full <- gets message_text ;;
          emit (PartialUpdateMessage (id message)
                  (match c with TextContent v => v | OtherContent _ => full end) None) ;;
          emit (SendEvent (AiIndicatorClear (Some (cid message)) (id message)))
      end
  | ThreadRunStepCreated step_details_type =>
      if step_details_type =? "message_creation" then
        emit (SendEvent (AiIndicatorUpdate AI_STATE_GENERATING (cid message) (id message)))
      else ret tt
  | OtherStreamEvent _ => ret tt
  end.

(** [error.toString()] is an input next to the error. *)
Definition handleStreamError (error : JsError) (error_toString : string) : M State unit :=
  done <- gets is_done ;;
  if done then ret tt
  else
    emit (SendEvent (AiIndicatorUpdate AI_STATE_ERROR (cid message) (id message))) ;;
    emit (PartialUpdateMessage (id message)
            (nullish (err_message error) "ErrorGenerating The Message")
            (Some error_toString)) ;;
    dispose.

Definition is_fetch (e : Effect) : bool :=
  match e with Fetch _ => true | _ => false end.

Definition do_fetch (req : FetchRequest)
    : M State (bool * nat * option string * option json) :=
  fun s =>
    let n := List.length (filter is_fetch (trace s)) in
    let s' := with_trace (trace s ++ [Fetch req]) s in
    match fetch n req with
    | FetchRejects e => (Throw e, s')
    | FetchResponse ok status body_text body_json =>
        (Ok (ok, status, body_text, body_json), s')
    end.

(** The handler's copy of the search: its test on [response.ok] is
    [if (response.ok)], where the agent's is [if (!response.ok)].  Its
    [console.log] with [${query}] (line 134) stands before the [try] as in
    the agent. *)
Definition performWebSearch (query : option json) : M State string :=
  let tavilyApiKey := TAVILY_API_KEY in
  if negb (truthy tavilyApiKey) then
    ret (JSON_stringify
           (JObj [("error", JStr "Web Search is Not Available, API Key Not Configured.")]))
  else if negb (printable_query query) then
    throw unprintable
  else
    try_catch
      (response <- do_fetch (search_request JSON_stringify (nullish tavilyApiKey "") query) ;;
       let '(ok, status, body_text, body_json) := response in
       if ok then
         match body_text with
         | None => throw body_error
         | Some errorText =>
             ret (JSON_stringify
                    (JObj [("error", JStr (String.append "Search Failed with Status Code: "
                                             (decimal status)));
                           ("details", JStr errorText)]))
         end
       else
         match body_json with
         | None => throw SyntaxError
         | Some data => ret (JSON_stringify data)
         end)
      (fun _ =>
         ret (JSON_stringify
                (JObj [("error", JStr "An Exception Occurred During Web Search")]))).

End Operations.

End OpenAIResponseHandler.

(** ** Observations on runs *)

(** The state and the outcome of a computation run from [s]. *)
Definition exec {S A} (m : M S A) (s : S) : S := snd (m s).
Definition outcome {S A} (m : M S A) (s : S) : Result A := fst (m s).

Module Observe.

Import OpenAIAgent.

(** What a run added to the trace: the trace after it, less the first
    [n] effects, [n] being the length of the trace before. *)
Definition added (before after : State) : list Effect :=
  skipn (List.length (trace before)) (trace after).

(** The channel events of a trace, in order. *)
Fixpoint events_of (t : list Effect) : list ChannelEvent :=
  match t with
  | [] => []
  | SendEvent e :: rest => e :: events_of rest
  | _ :: rest => events_of rest
  end.

(** The texts written to the message store, in order. *)
Fixpoint writes_of (t : list Effect) : list string :=
  match t with
  | [] => []
  | PartialUpdateMessage _ txt :: rest => txt :: writes_of rest
  | _ :: rest => writes_of rest
  end.

Definition is_clear (e : ChannelEvent) : bool :=
  match e with AiIndicatorClear _ _ => true | _ => false end.

Definition is_error (e : ChannelEvent) : bool :=
  match e with AiIndicatorUpdate AI_STATE_ERROR _ _ => true | _ => false end.

Definition clears_of (t : list Effect) : list ChannelEvent :=
  filter is_clear (events_of t).

(** The channel events of a handler trace. *)
Fixpoint handler_events_of (t : list OpenAIResponseHandler.Effect) : list ChannelEvent :=
  match t with
  | [] => []
  | OpenAIResponseHandler.SendEvent e :: rest => e :: handler_events_of rest
  | _ :: rest => handler_events_of rest
  end.

(** A variable of [process.env] that is not set, or set to the empty string. *)
Definition absent_or_empty (v : option string) : Prop :=
  v = None \/ v = Some "".

(** A chunk that carries only a text delta. *)
Definition text_chunk (content : string) : Chunk :=
  mkChunk [mkChoice (Some (mkDelta (Some content) None)) None].

(** The three payloads of the search that are not the provider's. *)
Definition not_configured : json :=
  JObj [("error", JStr "Web Search is Not Available, API Key Not Configured.")].

Definition exception_payload : json :=
  JObj [("error", JStr "An Exception Occurred During Web Search")].

Definition failure_payload (status : nat) (details : string) : json :=
  JObj [("error", JStr (String.append "Search Failed with Status Code: " (decimal status)));
        ("details", JStr details)].

(** Concatenation of pieces in order. *)
Definition join (pieces : list string) : string :=
  fold_right String.append "" pieces.







Definition pending_after (chunks : list Chunk)
    (pending : list (option ToolCall)) : list (option ToolCall) :=
  fold_left (fun p c => accumulateToolCalls p (chunk_tool_calls c)) chunks pending.

(** A stream that only yields chunks, each with its clock reading. *)
Definition stream_of (chunks : list (Chunk * Z)) : list StreamItem :=
  map (fun cn => SChunk (fst cn) (snd cn)) chunks.

(** The text a chunk contributes ([undefined] or empty: nothing). *)
Definition chunk_text (chunk : Chunk) : string := nullish (chunk_content chunk) "".

(** The loop's locals [messageText] and [lastUpdateTime] after a run of
    chunks, and the texts of the partial updates made on the way: the
    throttle of lines 191-202 on its own. *)
Fixpoint absorb (chunks : list (Chunk * Z)) (messageText : string)
    (lastUpdateTime : Z) : string * Z * list string :=
  match chunks with
  | [] => (messageText, lastUpdateTime, [])
  | (chunk, now) :: rest =>
      let has_text := truthy (chunk_content chunk) in
      let messageText' :=
        if has_text then String.append messageText (chunk_text chunk) else messageText in
      let flush := has_text && (now - lastUpdateTime >? 1000)%Z in
      let '(text, last, writes) :=
        absorb rest messageText' (if flush then now else lastUpdateTime) in
      (text, last, if flush then messageText' :: writes else writes)
  end.

(** No chunk of the run ends the stream with the reason tool_calls. *)
Definition no_tool_round (chunks : list (Chunk * Z)) : Prop :=
  Forall (fun cn => is_tool_calls (chunk_finish_reason (fst cn)) = false) chunks.

(** ceil(T / 1000) for a duration in milliseconds. *)
Definition ceil_seconds (T : Z) : Z := ((T + 999) / 1000)%Z.

(** The state in which the [for await] loop of a generation for
    [channelMessage] starts: its controller allocated and registered, the
    generating indicator sent, the completion requested. *)
Definition started (channelMessage : ChannelMessage) (s : State) : State :=
  mkState (openai s) (conversationHistory s) (lastInteractionTs s)
    (activeStreamControllers s ++ [List.length (controllers s)])
    (controllers s ++ [false])
    (trace s ++
     [SendEvent (AiIndicatorUpdate AI_STATE_GENERATING
                   (cm_cid channelMessage) (cm_id channelMessage));
      CreateCompletion (conversationHistory s)]).

(** The clock readings of a stream all lie in [lo, hi]: the loop reads
    the clock at the chunks that carry text. *)
Definition readings_within (lo hi : Z) (stream : list StreamItem) : Prop :=
  Forall (fun item => match item with
                      | SChunk chunk now =>
                          truthy (chunk_content chunk) = true -> (lo <= now <= hi)%Z
                      | _ => True
                      end) stream.

(** A run of stream items that the loop, its controller among the active
    ones and not aborted, passes without a write and without leaving: chunks
    that carry no text and start no tool round, and stop events that the
    handler ignores for want of a message id. *)
Fixpoint quiet (items : list StreamItem) (pendingToolCalls : list (option ToolCall))
    : bool :=
  match items with
  | [] => true
  | SChunk chunk _ :: rest =>
      let pendingToolCalls' :=
        accumulateToolCalls pendingToolCalls (chunk_tool_calls chunk) in
      negb (truthy (chunk_content chunk)) &&
      negb (is_tool_calls (chunk_finish_reason chunk)
            && (0 <? List.length pendingToolCalls')%nat) &&
      quiet rest pendingToolCalls'
  | SStop event :: rest =>
      negb (truthy (stop_message_id event)) && quiet rest pendingToolCalls
  | SThrow _ :: _ => false
  end.

(** How the [for await] loop is done with a stream: it leaves it, by
    exhaustion or [break] with the text accumulated or by an exception, or
    it hands the pending tool calls over and returns.  [loop_ends] says that
    the loop, started with the given locals in [s], ends so in [s1],
    whatever takes the tool calls. *)
Inductive LoopEnd : Type :=
| Leaves (exit : Result LoopExit)
| HandsOver (toolCalls : list (option ToolCall)).

Definition loop_ends (controller : Controller) (channelMessage : ChannelMessage)
    (stream : list StreamItem) (messageText : string) (lastUpdateTime : Z)
    (pendingToolCalls : list (option ToolCall)) (s : State)
    (e : LoopEnd) (s1 : State) : Prop :=
  match e with
  | Leaves exit =>
      exit <> Ok Returned /\
      forall onToolCalls,
        consume controller channelMessage onToolCalls stream
          messageText lastUpdateTime pendingToolCalls s = (exit, s1)
  | HandsOver toolCalls =>
      toolCalls <> [] /\
      forall onToolCalls,
        consume controller channelMessage onToolCalls stream
          messageText lastUpdateTime pendingToolCalls s =
        (onToolCalls toolCalls ;; ret Returned) s1
  end.

(** The tool calls the agent answers, and what a tool-result turn for
    one of them is: keyed by the call's id, its content a serialised value,
    which is the structured error when the arguments do not parse. *)
Definition is_web_search (tc : ToolCall) : bool :=
  name (tc_function tc) =? "web_search".

Definition answers (JSON_stringify : json -> string) (JSON_parse : string -> option json)
    (tc : ToolCall) (turn : ChatMessage) : Prop :=
  exists content,
    turn = ToolMsg (tc_id tc) content /\
    (exists v, content = JSON_stringify v) /\
    (JSON_parse (arguments (tc_function tc)) = None ->
     content = search_failed JSON_stringify).

(** The tool-result turns of a history. *)
Definition tool_turns (history : list ChatMessage) : list ChatMessage :=
  filter (fun m => match m with ToolMsg _ _ => true | _ => false end) history.

(** The response handler fed a sequence of stream events, each with its
    clock reading; a [thread.message.delta] event carrying a text value. *)
Definition handler_run (message : OpenAIResponseHandler.MessageResponse)
    (events : list (OpenAIResponseHandler.AssistantStreamEvent * Z))
    (hs : OpenAIResponseHandler.State) : OpenAIResponseHandler.State :=
  fold_left
    (fun st en => exec (OpenAIResponseHandler.handleStreamEvent message (fst en) (snd en)) st)
    events hs.

Definition text_delta (v : string) : OpenAIResponseHandler.AssistantStreamEvent :=
  OpenAIResponseHandler.ThreadMessageDelta
    (Some (OpenAIResponseHandler.mkDeltaContent "text"
             (Some (OpenAIResponseHandler.mkTextDelta (Some v))))).

(** The [thread.message.completed] events of a run that carry a content,
    each of which makes the handler write once, and the clock readings of
    its [thread.message.delta] events with a text (the only ones at which
    the handler reads the clock). *)
Definition is_completion (event : OpenAIResponseHandler.AssistantStreamEvent) : bool :=
  match event with
  | OpenAIResponseHandler.ThreadMessageCompleted (Some _) => true
  | _ => false
  end.

Definition completions
    (events : list (OpenAIResponseHandler.AssistantStreamEvent * Z)) : nat :=
  List.length (filter (fun en => is_completion (fst en)) events).

Definition reads_clock (event : OpenAIResponseHandler.AssistantStreamEvent) : bool :=
  match event with
  | OpenAIResponseHandler.ThreadMessageDelta
      (Some (OpenAIResponseHandler.mkDeltaContent type (Some _))) => type =? "text"
  | _ => false
  end.

Definition delta_readings_within (lo hi : Z)
    (events : list (OpenAIResponseHandler.AssistantStreamEvent * Z)) : Prop :=
  Forall (fun en => reads_clock (fst en) = true -> (lo <= snd en <= hi)%Z) events.

End Observe.

(** ** A sample environment, for the closed examples *)

Module Sample.

Import OpenAIAgent.

(** A compact serialiser, enough for values whose strings need no
    escaping. *)
Fixpoint stringify (v : json) : string :=
  match v with
  | JNull => "null"
  | JBool true => "true"
  | JBool false => "false"
  | JNum n => NilZero.string_of_int (Z.to_int n)
  | JStr s => String.concat "" [dq; s; dq]
  | JArr items =>
      String.concat ""
        ["["; String.concat "," ((fix each (l : list json) : list string :=
                                    match l with
                                    | [] => []
                                    | x :: rest => stringify x :: each rest
                                    end) items); "]"]
  | JObj fields =>
      String.concat ""
        ["{"; String.concat "," ((fix each (l : list (string * json)) : list string :=
                                    match l with
                                    | [] => []
                                    | (k, x) :: rest =>
                                        String.concat "" [dq; k; dq; ":"; stringify x]
                                        :: each rest
                                    end) fields); "}"]
  end.

(** The one arguments text the sample parser accepts. *)
Definition paris : json := JObj [("query", JStr "weather in Paris")].

Definition parse (text : string) : option json :=
  if text =? stringify paris then Some paris else None.

Definition key : option string := Some "tvly-key".

Definition answer : json := JObj [("answer", JStr "Sunny, 21 degrees")].

(** The provider answers every request with success. *)
Definition fetch (n : nat) (req : FetchRequest) : FetchOutcome :=
  FetchResponse true 200 (Some (stringify answer)) (Some answer).

Definition m1 : ChannelMessage := mkChannelMessage "m1" "messaging:room".

(** An initialised agent with an empty trace. *)
Definition ready : State :=
  mkState true [SystemMsg "prompt"] 0 [] [] [].

Definition generating : ChannelEvent :=
  AiIndicatorUpdate AI_STATE_GENERATING (cm_cid m1) (cm_id m1).

Definition clear : ChannelEvent :=
  AiIndicatorClear (Some (cm_cid m1)) (cm_id m1).

(** Two deltas 400 ms apart, then a third 1600 ms later. *)
Definition hello : list (Chunk * Z) :=
  [(Observe.text_chunk "Hel", 5000%Z); (Observe.text_chunk "lo", 5400%Z);
   (Observe.text_chunk "!", 7000%Z)].

(** A single delta. *)
Definition hi : list (Chunk * Z) := [(Observe.text_chunk "Hi", 5000%Z)].

Definition user_says (content : string) : MessageEvent :=
  mkMessageEvent (Some (mkNewMessage false (Some content) None)).

(** One exchange: a user message, answered by one text delta. *)
Definition exchange (s : State) : State :=
  exec (handleMessage stringify parse key fetch (user_says "hi") 1000
          "January 1, 2026" m1
          (CreateStream (Observe.stream_of hi) (CreateRejects AbortError))) s.

(** The agent after [init]. *)
Definition initialised : State :=
  exec (init (Some "gemini-key") "January 1, 2026") (fresh 0).

(** A chunk that completes one tool call and ends the stream with the
    reason tool_calls. *)
Definition tool_chunk (fn args : string) : Chunk :=
  mkChunk [mkChoice
             (Some (mkDelta None
                      (Some [mkToolCallDelta (Some 0%nat) (Some "call_1") (Some "function")
                               (Some (mkFunctionDelta (Some fn) (Some args)))])))
             (Some "tool_calls")].

(** The model asks for a tool, then answers with one delta. *)
Definition tool_round (fn args : string) : ModelScript :=
  CreateStream [SChunk (tool_chunk fn args) 5000%Z]
    (CreateStream (Observe.stream_of hi) (CreateRejects AbortError)).

(** The tool call that [tool_chunk] spells. *)
Definition call_1 (fn args : string) : ToolCall :=
  mkToolCall (Some "call_1") (Some "function") (mkFunctionCall fn args).




(** A chunk whose only fragment carries index 1: slot 0 stays a hole. *)
Definition sparse_chunk : Chunk :=
  mkChunk [mkChoice
             (Some (mkDelta None
                      (Some [mkToolCallDelta (Some 1%nat) (Some "call_2") (Some "function")
                               (Some (mkFunctionDelta (Some "web_search") (Some "{}")))])))
             (Some "tool_calls")].

End Sample.

(** ** What a run may and may not change *)

Module Invariant.

Import OpenAIAgent.

(** [s'] is [s] grown: the agent is initialised as before, the time stamp
    is the same, the history and the trace are the old ones followed by
    something, the store of controllers holds at least the old cells, and a
    controller aborted in [s] is aborted in [s']. *)
Definition grows (s s' : State) : Prop :=
  openai s' = openai s /\
  lastInteractionTs s' = lastInteractionTs s /\
  (exists turns, conversationHistory s' = conversationHistory s ++ turns) /\
  (exists effects, trace s' = trace s ++ effects) /\
  (List.length (controllers s) <= List.length (controllers s'))%nat /\
  (forall c, aborted c s = true -> aborted c s' = true).

(** A computation that only ever grows the state. *)
Definition steady {A} (m : M State A) : Prop :=
  forall s, grows s (snd (m s)).

(** The state of a generation once its controller is allocated and
    registered. *)
Definition registered (s : State) : State :=
  mkState (openai s) (conversationHistory s) (lastInteractionTs s)
    (activeStreamControllers s ++ [List.length (controllers s)])
    (controllers s ++ [false]) (trace s).

(** The text [handleStreamError] shows for an error. *)
Definition error_text (error : JsError) : string :=
  nullish (err_message error) "Error generating the message".

(** What the [catch] block of a generation sends for an error. *)
Definition reported (cm : ChannelMessage) (error : JsError) : list Effect :=
  if err_name error =? "AbortError" then []
  else [SendEvent (AiIndicatorUpdate AI_STATE_ERROR (cm_cid cm) (cm_id cm));
        PartialUpdateMessage (cm_id cm) (error_text error)].



(** The history after the user-turn append of [handleMessage]. *)
Definition with_user_turn (currentDate : string) (m : NewMessage)
    (history : list ChatMessage) : list ChatMessage :=
  trim ((if truthy (writingTask m)
         then set_first
                (SystemMsg (getWritingAssistantPrompt currentDate
                   (Some (String.append "Writing Task: " (nullish (writingTask m) "")))))
                history
         else history) ++ [UserMsg (nullish (text m) "")]).

(** The texts of the partial updates in a handler trace, in order. *)
Fixpoint handler_writes_of (t : list OpenAIResponseHandler.Effect) : list string :=
  match t with
  | [] => []
  | OpenAIResponseHandler.PartialUpdateMessage _ txt _ :: rest =>
      txt :: handler_writes_of rest
  | _ :: rest => handler_writes_of rest
  end.

(** What the handler adds to its trace from [before] to [after]. *)
Definition handler_added (before after : OpenAIResponseHandler.State)
    : list OpenAIResponseHandler.Effect :=
  skipn (List.length (OpenAIResponseHandler.trace before))
        (OpenAIResponseHandler.trace after).

End Invariant.

(** * Properties *)

Import OpenAIAgent Observe.

(** Bring a state built by nested updates to a single record. *)
Ltac normalise_state :=
  lazy beta iota zeta delta
    [with_trace with_active with_controllers with_history with_lastInteractionTs
     with_openai trace openai conversationHistory lastInteractionTs
     activeStreamControllers controllers].

(** ** The server client *)

Lemma truthy_true_iff (v : option string) :
  truthy v = true <-> exists s, v = Some s /\ s <> "".
Proof.
  destruct v as [s|]; simpl.
  - rewrite negb_true_iff, String.eqb_neq. split.
    + intros H. now exists s.
    + intros [s' [E H]]. now inversion E; subst.
  - split; [discriminate | intros [s [E _]]; discriminate].
Qed.

Lemma truthy_false_iff (v : option string) :
  truthy v = false <-> absent_or_empty v.
Proof.
  unfold absent_or_empty. destruct v as [s|]; simpl.
  - rewrite negb_false_iff, String.eqb_eq. split.
    + intros ->. now right.
    + intros [H|H]; [discriminate | now inversion H].
  - split; [now left | reflexivity].
Qed.

(** C10, as stated, fails: with [STREAM_API_KEY] set to the empty string
    neither variable is absent, yet the module throws instead of exporting
    a client. *)
Lemma serverClient_empty_key_throws :
  let env := ServerClient.mkEnv (Some "") (Some "secret") in
  ServerClient.STREAM_API_KEY env <> None /\
  ServerClient.STREAM_API_SECRET env <> None /\
  ServerClient.serverClient env = Throw ServerClient.missing.
Proof. repeat split; discriminate. Qed.

(** C10 (amended): the module throws at load time exactly when one of the
    two variables is absent or empty; when both are set and non-empty it
    exports the client constructed from them. *)
Theorem serverClient_throws_iff_missing (env : ServerClient.Env) :
  (ServerClient.serverClient env = Throw ServerClient.missing <->
     absent_or_empty (ServerClient.STREAM_API_KEY env) \/
     absent_or_empty (ServerClient.STREAM_API_SECRET env)) /\
  (forall k s,
     ServerClient.STREAM_API_KEY env = Some k -> k <> "" ->
     ServerClient.STREAM_API_SECRET env = Some s -> s <> "" ->
     ServerClient.serverClient env = Ok (ServerClient.mkStreamChat k s)).
Proof.
  unfold ServerClient.serverClient.
  destruct env as [k s]; simpl. split.
  - rewrite <- !truthy_false_iff.
    destruct (truthy k) eqn:Hk, (truthy s) eqn:Hs; simpl;
      split; intros H; try reflexivity; try discriminate; auto;
      destruct H; discriminate.
  - intros k' s' -> Hk -> Hs. simpl.
    apply String.eqb_neq in Hk, Hs. now rewrite Hk, Hs.
Qed.

Lemma serverClient_throws_iff_missing_witness :
  ServerClient.serverClient (ServerClient.mkEnv (Some "key") (Some "secret"))
    = Ok (ServerClient.mkStreamChat "key" "secret") /\
  ServerClient.serverClient (ServerClient.mkEnv None (Some "secret"))
    = Throw ServerClient.missing.
Proof.
  split.
  - apply (proj2 (serverClient_throws_iff_missing
                    (ServerClient.mkEnv (Some "key") (Some "secret"))) "key" "secret");
      simpl; try reflexivity; discriminate.
  - apply (proj1 (serverClient_throws_iff_missing
                    (ServerClient.mkEnv None (Some "secret")))).
    left. left. reflexivity.
Defined.

(** ** The cancellation coordinator *)

Lemma set_aborted_length (cells : list bool) (c : Controller) :
  List.length (set_aborted cells c) = List.length cells.
Proof.
  revert c. induction cells as [|b cells IH]; intros [|c]; simpl; auto.
Qed.

Lemma set_aborted_same (cells : list bool) (c : Controller) :
  (c < List.length cells)%nat -> nth c (set_aborted cells c) false = true.
Proof.
  revert c. induction cells as [|b cells IH]; intros [|c] H; simpl in *;
    try lia; auto. apply IH. lia.
Qed.

Lemma set_aborted_keeps (cells : list bool) (c d : Controller) :
  nth d cells false = true -> nth d (set_aborted cells c) false = true.
Proof.
  revert c d. induction cells as [|b cells IH]; intros [|c] [|d] H; simpl in *;
    auto.
Qed.

Lemma abort_fields (s : State) (c : Controller) :
  openai (abort s c) = openai s /\
  conversationHistory (abort s c) = conversationHistory s /\
  lastInteractionTs (abort s c) = lastInteractionTs s /\
  activeStreamControllers (abort s c) = activeStreamControllers s /\
  trace (abort s c) = trace s.
Proof. repeat split. Qed.

Lemma abort_each_fields (l : list Controller) (s : State) :
  openai (fold_left abort l s) = openai s /\
  conversationHistory (fold_left abort l s) = conversationHistory s /\
  lastInteractionTs (fold_left abort l s) = lastInteractionTs s /\
  activeStreamControllers (fold_left abort l s) = activeStreamControllers s /\
  trace (fold_left abort l s) = trace s /\
  List.length (controllers (fold_left abort l s)) = List.length (controllers s).
Proof.
  revert s. induction l as [|c l IH]; intros s; simpl.
  - repeat split.
  - destruct (IH (abort s c)) as (H1 & H2 & H3 & H4 & H5 & H6).
    rewrite H1, H2, H3, H4, H5, H6. simpl.
    rewrite set_aborted_length. repeat split.
Qed.

Lemma abort_each_keeps (l : list Controller) (s : State) (d : Controller) :
  aborted d s = true -> aborted d (fold_left abort l s) = true.
Proof.
  revert s. induction l as [|c l IH]; intros s H; simpl; auto.
  apply IH. unfold aborted, abort in *. simpl. now apply set_aborted_keeps.
Qed.

Lemma abort_each_aborts (l : list Controller) (s : State) (c : Controller) :
  In c l -> (c < List.length (controllers s))%nat ->
  aborted c (fold_left abort l s) = true.
Proof.
  revert s. induction l as [|d l IH]; intros s Hin Hlt; simpl in *.
  - contradiction.
  - destruct Hin as [->|Hin].
    + apply abort_each_keeps. unfold aborted, abort. simpl.
      now apply set_aborted_same.
    + apply IH; auto. unfold abort. simpl. now rewrite set_aborted_length.
Qed.

(** The two ways [handleStopGenerating] runs. *)
Lemma handleStopGenerating_ignored (event : StopEvent) (s : State) :
  truthy (stop_message_id event) = false \/ activeStreamControllers s = [] ->
  handleStopGenerating event s = (Ok tt, s).
Proof.
  intros H. unfold handleStopGenerating, bind, gets. simpl.
  destruct H as [-> | ->]; simpl; auto.
  now rewrite orb_true_r.
Qed.

Lemma handleStopGenerating_stops (event : StopEvent) (s : State) (i : string) :
  stop_message_id event = Some i -> i <> "" ->
  activeStreamControllers s <> [] ->
  handleStopGenerating event s =
    (Ok tt,
     with_trace (trace s ++ [SendEvent (AiIndicatorClear (stop_cid event) i)])
       (with_active [] (fold_left abort (activeStreamControllers s) s))).
Proof.
  intros Hid Hne Hact. unfold handleStopGenerating, bind, gets. simpl.
  rewrite Hid. simpl. apply String.eqb_neq in Hne. rewrite Hne. simpl.
  destruct (activeStreamControllers s) as [|c l] eqn:E; [contradiction|].
  simpl. unfold sendEvent, emit, abortAll, modify. simpl.
  rewrite E. f_equal. unfold with_trace, with_active. simpl.
  destruct (abort_each_fields l (abort s c)) as (H1 & H2 & H3 & H4 & H5 & H6).
  now rewrite H5.
Qed.

Lemma handleStopGenerating_cases (event : StopEvent) (s : State) :
  handleStopGenerating event s = (Ok tt, s) \/
  exists i, stop_message_id event = Some i /\ i <> "" /\
            activeStreamControllers s <> [] /\
            handleStopGenerating event s =
              (Ok tt,
               with_trace (trace s ++ [SendEvent (AiIndicatorClear (stop_cid event) i)])
                 (with_active [] (fold_left abort (activeStreamControllers s) s))).
Proof.
  destruct (truthy (stop_message_id event)) eqn:Hid.
  - destruct (activeStreamControllers s) as [|c l] eqn:Hact.
    + left. apply handleStopGenerating_ignored. now right.
    + right. apply truthy_true_iff in Hid. destruct Hid as [i [Hi Hne]].
      exists i. rewrite <- Hact. repeat split; auto.
      * rewrite Hact. discriminate.
      * apply handleStopGenerating_stops; auto. rewrite Hact. discriminate.
  - left. apply handleStopGenerating_ignored. now left.
Qed.

Lemma skipn_exact {A} (l1 l2 : list A) : skipn (List.length l1) (l1 ++ l2) = l2.
Proof. induction l1; simpl; auto. Qed.

Lemma added_app (s s' : State) (l : list Effect) :
  trace s' = trace s ++ l -> added s s' = l.
Proof. intros H. unfold added. rewrite H. apply skipn_exact. Qed.

Lemma added_nil (s : State) : added s s = [].
Proof. apply added_app. now rewrite app_nil_r. Qed.

(** C2, as stated, fails: while the only generation runs for message m1,
    a stop event for message m2 aborts it, empties the active set and emits
    a clear for m2. *)
Lemma stop_for_another_message_is_obeyed :
  let m1 := mkChannelMessage "m1" "messaging:room" in
  let running :=
    mkState true [SystemMsg "prompt"; UserMsg "hello"] 0 [0%nat] [false]
      [SendEvent (AiIndicatorUpdate AI_STATE_GENERATING (cm_cid m1) (cm_id m1))] in
  let event := mkStopEvent (Some "m2") (Some "messaging:room") in
  let after := exec (handleStopGenerating event) running in
  stop_message_id event <> Some (cm_id m1) /\
  after <> running /\
  activeStreamControllers after = [] /\
  aborted 0 after = true /\
  added running after = [SendEvent (AiIndicatorClear (Some "messaging:room") "m2")].
Proof.
  cbv zeta. repeat split; try discriminate; reflexivity.
Qed.

(** C2 (amended): a stop event that carries no (or an empty) message id, or
    that arrives when no generation is active, changes nothing and emits
    nothing; every other stop event, whichever message it names, aborts
    every active generation, empties the active set and emits exactly one
    clear carrying the event's own cid and message id.  The per-message
    response handler ignores an event whose message id is not its
    message's. *)
Theorem handleStopGenerating_guard (event : StopEvent) (s : State) :
  (absent_or_empty (stop_message_id event) \/ activeStreamControllers s = [] ->
   handleStopGenerating event s = (Ok tt, s)) /\
  (forall i, stop_message_id event = Some i -> i <> "" ->
     activeStreamControllers s <> [] ->
     let s' := exec (handleStopGenerating event) s in
     outcome (handleStopGenerating event) s = Ok tt /\
     activeStreamControllers s' = [] /\
     (forall c, In c (activeStreamControllers s) ->
                (c < List.length (controllers s))%nat -> aborted c s' = true) /\
     added s s' = [SendEvent (AiIndicatorClear (stop_cid event) i)] /\
     conversationHistory s' = conversationHistory s /\
     openai s' = openai s) /\
  (forall msg thread hs,
     OpenAIResponseHandler.same_id (stop_message_id event)
       (OpenAIResponseHandler.id msg) = false ->
     OpenAIResponseHandler.handleStopGenerating msg thread event hs = (Ok tt, hs)).
Proof.
  split; [|split].
  - intros [H|H]; apply handleStopGenerating_ignored; [left|right]; auto.
    now apply truthy_false_iff.
  - intros i Hid Hne Hact. unfold exec, outcome.
    rewrite (@handleStopGenerating_stops event s i Hid Hne Hact). simpl.
    destruct (abort_each_fields (activeStreamControllers s) s)
      as (H1 & H2 & H3 & H4 & H5 & H6).
    repeat split; auto.
    + intros c Hin Hlt. unfold aborted. simpl.
      now apply abort_each_aborts.
    + apply added_app. reflexivity.
  - intros msg thread hs H.
    unfold OpenAIResponseHandler.handleStopGenerating, bind, gets. simpl.
    rewrite H. simpl. now rewrite orb_true_r.
Qed.

Lemma handleStopGenerating_guard_witness :
  let s := mkState true [SystemMsg "prompt"] 0 [0%nat] [false] [] in
  let event := mkStopEvent (Some "m1") (Some "messaging:room") in
  handleStopGenerating (mkStopEvent None None) s = (Ok tt, s) /\
  added s (exec (handleStopGenerating event) s)
    = [SendEvent (AiIndicatorClear (Some "messaging:room") "m1")] /\
  OpenAIResponseHandler.handleStopGenerating
    (OpenAIResponseHandler.mkMessageResponse "m1" "messaging:room") "thread"
    (mkStopEvent (Some "m2") None) OpenAIResponseHandler.construct
    = (Ok tt, OpenAIResponseHandler.construct).
Proof.
  cbv zeta. split; [|split].
  - apply (proj1 (handleStopGenerating_guard (mkStopEvent None None)
             (mkState true [SystemMsg "prompt"] 0 [0%nat] [false] []))).
    left. left. reflexivity.
  - apply (proj1 (proj2 (handleStopGenerating_guard
             (mkStopEvent (Some "m1") (Some "messaging:room"))
             (mkState true [SystemMsg "prompt"] 0 [0%nat] [false] []))) "m1");
      simpl; try reflexivity; discriminate.
  - apply (proj2 (proj2 (handleStopGenerating_guard
             (mkStopEvent (Some "m2") None)
             (mkState true [SystemMsg "prompt"] 0 [0%nat] [false] [])))).
    reflexivity.
Defined.

Lemma dispose_runs (s : State) :
  dispose s =
    (Ok tt,
     with_active []
       (fold_left abort (activeStreamControllers s)
          (with_trace (trace s ++ [ChatOff "message.new"; ChatOff "ai_indicator.stop";
                                   DisconnectUser]) s))).
Proof.
  unfold dispose, bind, emit, abortAll, modify. simpl.
  rewrite <- !app_assoc. reflexivity.
Qed.

Lemma events_of_app (t1 t2 : list Effect) :
  events_of (t1 ++ t2) = events_of t1 ++ events_of t2.
Proof.
  induction t1 as [|e t1 IH]; simpl; auto.
  destruct e; simpl; rewrite ?IH; auto.
Qed.

(** C9: the stop handler called twice in a row with one event, and
    [dispose] called twice in a row, fulfil both times, and the second call
    emits no channel event: the second stop changes nothing at all, two stops
    (with any two events) emit at most one clear between them, neither
    [dispose] emits an event and the second leaves the agent's fields as the
    first left them; for the response handler the second stop and the second
    [dispose] change nothing. *)
Theorem second_stop_and_second_dispose_are_silent :
  (forall event s,
     let s1 := exec (handleStopGenerating event) s in
     outcome (handleStopGenerating event) s = Ok tt /\
     handleStopGenerating event s1 = (Ok tt, s1)) /\
  (forall e1 e2 s,
     let s1 := exec (handleStopGenerating e1) s in
     let s2 := exec (handleStopGenerating e2) s1 in
     outcome (handleStopGenerating e2) s1 = Ok tt /\
     (List.length (clears_of (added s s1) ++ clears_of (added s1 s2)) <= 1)%nat) /\
  (forall s,
     let s1 := exec dispose s in
     let s2 := exec dispose s1 in
     outcome dispose s = Ok tt /\ outcome dispose s1 = Ok tt /\
     events_of (added s s1) = [] /\ events_of (added s1 s2) = [] /\
     s2 = with_trace (trace s2) s1) /\
  (forall msg thread event hs,
     let h1 := exec (OpenAIResponseHandler.handleStopGenerating msg thread event) hs in
     outcome (OpenAIResponseHandler.handleStopGenerating msg thread event) hs = Ok tt /\
     OpenAIResponseHandler.handleStopGenerating msg thread event h1 = (Ok tt, h1)) /\
  (forall hs,
     let h1 := exec OpenAIResponseHandler.dispose hs in
     outcome OpenAIResponseHandler.dispose hs = Ok tt /\
     OpenAIResponseHandler.dispose h1 = (Ok tt, h1)).
Proof.
  split; [|split; [|split; [|split]]].
  - intros event s. cbv zeta. unfold exec, outcome.
    destruct (handleStopGenerating_cases event s) as [H | (i & Hid & Hne & Hact & H)];
      rewrite H; simpl; split; auto.
    apply handleStopGenerating_ignored. now right.
  - intros e1 e2 s. cbv zeta. unfold exec, outcome.
    destruct (handleStopGenerating_cases e1 s) as [H | (i & Hid & Hne & Hact & H)];
      rewrite H; simpl.
    + rewrite added_nil.
      destruct (handleStopGenerating_cases e2 s) as [H2 | (j & _ & _ & _ & H2)];
        rewrite H2; simpl; split; auto.
      * rewrite added_nil. simpl. lia.
      * erewrite added_app; [|reflexivity]. simpl. lia.
    + rewrite handleStopGenerating_ignored by now right.
      simpl. split; auto. rewrite added_nil.
      erewrite added_app; [|reflexivity]. simpl. lia.
  - intros s. cbv zeta. unfold exec, outcome. rewrite !dispose_runs. simpl.
    destruct (abort_each_fields (activeStreamControllers s)
                (with_trace (trace s ++ [ChatOff "message.new";
                                         ChatOff "ai_indicator.stop"; DisconnectUser]) s))
      as (H1 & H2 & H3 & H4 & H5 & H6).
    repeat split.
    + erewrite added_app; [|simpl; rewrite H5; reflexivity]. reflexivity.
    + erewrite added_app; [|reflexivity]. reflexivity.
  - intros msg thread event hs. cbv zeta. unfold exec, outcome.
    unfold OpenAIResponseHandler.handleStopGenerating, OpenAIResponseHandler.dispose,
      OpenAIResponseHandler.cancel_run, OpenAIResponseHandler.emit, bind, gets, modify, ret.
    simpl.
    destruct (OpenAIResponseHandler.is_done hs) eqn:Hd; simpl;
      rewrite ?Hd; simpl; auto.
    destruct (OpenAIResponseHandler.same_id (stop_message_id event)
                (OpenAIResponseHandler.id msg)) eqn:Hs; simpl;
      rewrite ?Hd, ?Hs; simpl; auto.
    destruct (OpenAIResponseHandler.run_id hs =? "") eqn:Hr; simpl;
      repeat (rewrite ?Hd, ?Hs, ?Hr; simpl); auto.
  - intros hs. cbv zeta. unfold exec, outcome.
    unfold OpenAIResponseHandler.dispose, OpenAIResponseHandler.emit,
      bind, gets, modify, ret. simpl.
    destruct (OpenAIResponseHandler.is_done hs) eqn:Hd; simpl;
      rewrite ?Hd; simpl; auto.
Qed.

(** ** The web search *)

Section WebSearch.

Variable JSON_stringify : json -> string.
Variable TAVILY_API_KEY : option string.
Variable fetch : nat -> FetchRequest -> FetchOutcome.

(** Without a credential the agent's search answers at once: no request
    is made and the state is untouched. *)
Lemma performWebSearch_no_key (query : option json) (s : State) :
  absent_or_empty TAVILY_API_KEY ->
  performWebSearch JSON_stringify TAVILY_API_KEY fetch query s = (Ok (JSON_stringify not_configured), s).
Proof.
  intros H. apply truthy_false_iff in H.
  unfold performWebSearch. now rewrite H.
Qed.

(** With a credential and a query that the log line cannot print, the
    search rejects before its [try]: no request is made and the state is
    untouched. *)
Lemma performWebSearch_unprintable (query : option json) (s : State) (k : string) :
  TAVILY_API_KEY = Some k -> k <> "" ->
  printable_query query = false ->
  performWebSearch JSON_stringify TAVILY_API_KEY fetch query s = (Throw unprintable, s).
Proof.
  intros Hk Hne Hq. unfold performWebSearch.
  rewrite Hk. simpl. apply String.eqb_neq in Hne. rewrite Hne, Hq. reflexivity.
Qed.

(** With a credential and a printable query, one request is made and its
    answer decides the payload. *)
Lemma performWebSearch_with_key (query : option json) (s : State) (k : string) :
  TAVILY_API_KEY = Some k -> k <> "" ->
  printable_query query = true ->
  let req := search_request JSON_stringify k query in
  let n := List.length (filter is_fetch (trace s)) in
  performWebSearch JSON_stringify TAVILY_API_KEY fetch query s =
    (Ok (JSON_stringify
           match fetch n req with
           | FetchRejects _ => exception_payload
           | FetchResponse false status (Some details) _ => failure_payload status details
           | FetchResponse false _ None _ => exception_payload
           | FetchResponse true _ _ (Some data) => data
           | FetchResponse true _ _ None => exception_payload
           end),
     with_trace (trace s ++ [Fetch req]) s).
Proof.
  intros Hk Hne Hq. cbv zeta. unfold performWebSearch.
  rewrite Hk. simpl. apply String.eqb_neq in Hne. rewrite Hne, Hq. simpl.
  unfold try_catch, bind, do_fetch.
  destruct (fetch _ _) as [e | [|] status [details|] [data|]]; reflexivity.
Qed.

(** For a printable query the agent's search never rejects, and what it
    returns is always the serialisation of some value. *)
Lemma performWebSearch_fulfils (query : option json) (s : State) :
  printable_query query = true ->
  exists v, outcome (performWebSearch JSON_stringify TAVILY_API_KEY fetch query) s = Ok (JSON_stringify v).
Proof.
  intros Hq. unfold outcome. destruct (truthy TAVILY_API_KEY) eqn:Hk.
  - apply truthy_true_iff in Hk. destruct Hk as [k [Hk Hne]].
    rewrite (performWebSearch_with_key query s Hk Hne Hq). simpl. eauto.
  - apply truthy_false_iff in Hk.
    rewrite (performWebSearch_no_key query s Hk). simpl. eauto.
Qed.

End WebSearch.

(** C4: the claim holds of the agent's [performWebSearch] and fails on the
    response handler's copy, whose test on [response.ok] is inverted: given a
    credential and a successful response (200, with a body that parses), the
    handler returns the failure payload with the body as details, where the
    agent returns the provider's payload; given a non-success response (500)
    the handler returns the parsed body where the agent returns the failure
    payload.  This is so for every query that the log line before the [try]
    can print, every string among them; for the others both copies reject
    before any request. *)
Theorem handler_performWebSearch_inverts_ok
    (JSON_stringify : json -> string) (query : option json)
    (details : string) (data : json)
    (s : State) (hs : OpenAIResponseHandler.State) :
  let succeeds := fun (_ : nat) (_ : FetchRequest) =>
                    FetchResponse true 200 (Some details) (Some data) in
  let fails := fun (_ : nat) (_ : FetchRequest) =>
                 FetchResponse false 500 (Some details) (Some data) in
  let printed := fun (payload : json) =>
                   if printable_query query then Ok (JSON_stringify payload)
                   else Throw unprintable in
  outcome (OpenAIResponseHandler.performWebSearch JSON_stringify (Some "tvly-key")
             succeeds query) hs
    = printed (failure_payload 200 details) /\
  outcome (performWebSearch JSON_stringify (Some "tvly-key") succeeds query) s
    = printed data /\
  outcome (OpenAIResponseHandler.performWebSearch JSON_stringify (Some "tvly-key")
             fails query) hs
    = printed data /\
  outcome (performWebSearch JSON_stringify (Some "tvly-key") fails query) s
    = printed (failure_payload 500 details) /\
  (forall text : string, printable_query (Some (JStr text)) = true).
Proof.
  cbv zeta. unfold outcome, performWebSearch, OpenAIResponseHandler.performWebSearch.
  cbn [truthy negb String.eqb Ascii.eqb Bool.eqb].
  destruct (printable_query query); repeat split.
Qed.

(** ** Reassembly of streamed tool calls *)

Lemma append_empty_r (a : string) : String.append a "" = a.
Proof. induction a as [|c a IH]; simpl; congruence. Qed.

Lemma append_assoc (a b c : string) :
  String.append (String.append a b) c = String.append a (String.append b c).
Proof. induction a as [|x a IH]; simpl; congruence. Qed.

Lemma join_app (l1 l2 : list string) :
  join (l1 ++ l2) = String.append (join l1) (join l2).
Proof.
  induction l1 as [|a l1 IH]; simpl; auto.
  now rewrite IH, append_assoc.
Qed.

Lemma join_snoc (l : list string) (a : string) :
  join (l ++ [a]) = String.append (join l) a.
Proof. rewrite join_app. simpl. now rewrite append_empty_r. Qed.






Lemma nullish_falsy (piece : option string) :
  truthy piece = false -> nullish piece "" = "".
Proof.
  intros H. apply truthy_false_iff in H. destruct H as [-> | ->]; reflexivity.
Qed.











(** ** The stream loop on a run of chunks *)

Lemma with_trace_same (s : State) : with_trace (trace s) s = s.
Proof. now destruct s. Qed.

Section Streaming.

Variable JSON_stringify : json -> string.
Variable JSON_parse : string -> option json.
Variable TAVILY_API_KEY : option string.
Variable fetch : nat -> FetchRequest -> FetchOutcome.

(** While its controller is not aborted and no chunk asks for a tool
    round, the loop takes the chunks one by one: its locals move as [absorb]
    and [pending_after] say, and the state only gains the partial updates. *)
Lemma consume_chunks (controller : Controller) (cm : ChannelMessage)
    (k : list (option ToolCall) -> M State unit)
    (chunks : list (Chunk * Z)) (rest : list StreamItem) :
  no_tool_round chunks ->
  forall (messageText : string) (lastUpdateTime : Z)
         (pending : list (option ToolCall)) (s : State),
  aborted controller s = false ->
  consume controller cm k (stream_of chunks ++ rest)
    messageText lastUpdateTime pending s =
  consume controller cm k rest
    (fst (fst (absorb chunks messageText lastUpdateTime)))
    (snd (fst (absorb chunks messageText lastUpdateTime)))
    (pending_after (map fst chunks) pending)
    (with_trace
       (trace s ++ map (PartialUpdateMessage (cm_id cm))
                       (snd (absorb chunks messageText lastUpdateTime))) s).
Proof.
  induction 1 as [|[chunk now] chunks Hfin Hrest IH];
    intros messageText lastUpdateTime pending s Hab.
  - simpl. now rewrite app_nil_r, with_trace_same.
  - simpl in Hfin.
    change (stream_of ((chunk, now) :: chunks) ++ rest)
      with (SChunk chunk now :: (stream_of chunks ++ rest)).
    cbn [consume]. unfold bind at 1. unfold gets at 1. rewrite Hab.
    rewrite Hfin. cbn [andb].
    unfold bind at 1. cbn [absorb map fst snd pending_after fold_left].
    unfold chunk_text.
    destruct (absorb chunks _ _) as [[text last] writes] eqn:E.
    destruct (truthy (chunk_content chunk) && (now - lastUpdateTime >? 1000)%Z) eqn:F.
    + unfold partialUpdateMessage, emit, modify. cbn [fst snd map].
      rewrite IH by exact Hab. rewrite E. cbn [fst snd].
      unfold with_trace. cbn [trace openai conversationHistory lastInteractionTs
        activeStreamControllers controllers].
      now rewrite <- app_assoc.
    + unfold ret. cbn [fst snd].
      rewrite IH by exact Hab. now rewrite E.
Qed.

Lemma fresh_controller_not_aborted (cells : list bool) :
  nth (List.length cells) (cells ++ [false]) false = false.
Proof. induction cells; simpl; auto. Qed.

(** A generation of an initialised agent, up to its loop. *)
Lemma processMessageWithGemini_stream (stream : list StreamItem) (next : ModelScript)
    (cm : ChannelMessage) (s : State) :
  openai s = true ->
  processMessageWithGemini JSON_stringify JSON_parse TAVILY_API_KEY fetch
    (CreateStream stream next) cm s =
  try_finally
    (try_catch
       (exit <- consume (List.length (controllers s)) cm
                  (handleToolCalls_then JSON_stringify JSON_parse TAVILY_API_KEY fetch
                     (processMessageWithGemini JSON_stringify JSON_parse
                        TAVILY_API_KEY fetch next cm))
                  stream "" 0%Z [] ;;
        match exit with
        | Returned => ret tt
        | Fallthrough messageText => finish cm messageText
        end)
       (on_error cm))
    (retire (List.length (controllers s)))
    (started cm s).
Proof.
  intros Hopen. destruct s as [ready history ts active cells effects].
  cbn [openai] in Hopen. subst ready.
  cbn [processMessageWithGemini].
  unfold bind at 1. unfold gets at 1. cbn [openai negb].
  unfold bind at 1. unfold newAbortController at 1.
  unfold bind at 1. unfold modify at 1.
  unfold try_finally, try_catch.
  unfold bind at 1. unfold sendEvent at 1, emit at 1, modify at 1.
  unfold bind at 1. unfold gets at 1.
  unfold bind at 1. unfold emit at 1, modify at 1.
  unfold started. normalise_state.
  rewrite <- !app_assoc. reflexivity.
Qed.

(** A generation whose stream is a run of chunks, none asking for a tool
    round, nothing interfering: the whole of its effect. *)
Lemma generation_of_chunks (cm : ChannelMessage) (chunks : list (Chunk * Z))
    (next : ModelScript) (s : State) :
  openai s = true ->
  no_tool_round chunks ->
  processMessageWithGemini JSON_stringify JSON_parse TAVILY_API_KEY fetch
    (CreateStream (stream_of chunks) next) cm s =
  (Ok tt,
   mkState true
     (conversationHistory s ++ [AssistantMsg (fst (fst (absorb chunks "" 0%Z)))])
     (lastInteractionTs s)
     (filter (fun c => negb (c =? List.length (controllers s))%nat)
        (activeStreamControllers s ++ [List.length (controllers s)]))
     (controllers s ++ [false])
     (trace s ++
      [SendEvent (AiIndicatorUpdate AI_STATE_GENERATING (cm_cid cm) (cm_id cm));
       CreateCompletion (conversationHistory s)] ++
      map (PartialUpdateMessage (cm_id cm)) (snd (absorb chunks "" 0%Z)) ++
      [PartialUpdateMessage (cm_id cm) (fst (fst (absorb chunks "" 0%Z)));
       SendEvent (AiIndicatorClear (Some (cm_cid cm)) (cm_id cm))])).
Proof.
  intros Hopen Hno. destruct s as [ready history ts active cells effects].
  cbn [openai] in Hopen. subst ready.
  rewrite processMessageWithGemini_stream by reflexivity.
  unfold try_finally, try_catch. unfold bind at 1.
  rewrite <- (app_nil_r (stream_of chunks)).
  rewrite consume_chunks; auto.
  2: { unfold aborted, started. cbn [controllers].
       apply fresh_controller_not_aborted. }
  cbn [consume]. unfold ret at 1. unfold started. normalise_state.
  unfold finish. unfold bind at 1. unfold partialUpdateMessage, emit, modify.
  normalise_state.
  unfold bind at 1. unfold push, modify. normalise_state.
  unfold sendEvent, emit, modify. normalise_state.
  unfold retire, modify. normalise_state.
  f_equal. f_equal.
  rewrite <- !app_assoc. reflexivity.
Qed.

End Streaming.

(** ** The throttle *)

Lemma absorb_cons (chunk : Chunk) (now : Z) (rest : list (Chunk * Z))
    (messageText : string) (lastUpdateTime : Z) :
  let has_text := truthy (chunk_content chunk) in
  let messageText' :=
    if has_text then String.append messageText (chunk_text chunk) else messageText in
  let flush := has_text && (now - lastUpdateTime >? 1000)%Z in
  let after := absorb rest messageText' (if flush then now else lastUpdateTime) in
  absorb ((chunk, now) :: rest) messageText lastUpdateTime =
    (fst (fst after), snd (fst after),
     if flush then messageText' :: snd after else snd after).
Proof.
  cbv zeta. cbn [absorb].
  destruct (absorb rest _ _) as [[text last] writes]. reflexivity.
Qed.

(** One turn of the loop on a chunk, the controller not aborted: the text is
    taken and flushed as [absorb] says, the fragments are merged, and the
    loop hands the pending array over when the finish reason is tool_calls
    and the array is not empty, and goes on otherwise. *)
Lemma consume_step (controller : Controller) (cm : ChannelMessage)
    (k : list (option ToolCall) -> M State unit) (chunk : Chunk) (now : Z)
    (rest : list StreamItem) (messageText : string) (lastUpdateTime : Z)
    (pending : list (option ToolCall)) (s : State) :
  aborted controller s = false ->
  let step := absorb [(chunk, now)] messageText lastUpdateTime in
  let pending' := accumulateToolCalls pending (chunk_tool_calls chunk) in
  let s' := with_trace
              (trace s ++ map (PartialUpdateMessage (cm_id cm)) (snd step)) s in
  consume controller cm k (SChunk chunk now :: rest)
    messageText lastUpdateTime pending s =
  if is_tool_calls (chunk_finish_reason chunk) && (0 <? List.length pending')%nat
  then (k pending' ;; ret Returned) s'
  else consume controller cm k rest (fst (fst step)) (snd (fst step)) pending' s'.
Proof.
  intros Hab. cbv zeta. cbn [consume]. unfold bind at 1. unfold gets at 1.
  rewrite Hab. rewrite absorb_cons. cbv zeta. cbn [absorb fst snd].
  unfold chunk_text. unfold bind at 1.
  destruct (is_tool_calls (chunk_finish_reason chunk) &&
            (0 <? List.length (accumulateToolCalls pending (chunk_tool_calls chunk)))%nat);
    destruct (truthy (chunk_content chunk) && (now - lastUpdateTime >? 1000)%Z);
    try (unfold partialUpdateMessage, emit, modify; reflexivity);
    unfold ret at 1; cbn [map]; now rewrite app_nil_r, with_trace_same.
Qed.

Lemma text_step (chunk : Chunk) (messageText : string) :
  (if truthy (chunk_content chunk)
   then String.append messageText (chunk_text chunk) else messageText)
  = String.append messageText (chunk_text chunk).
Proof.
  destruct (truthy (chunk_content chunk)) eqn:H; auto.
  unfold chunk_text. now rewrite (nullish_falsy _ H), append_empty_r.
Qed.

(** The accumulated text is the concatenation of the deltas, whatever the
    clock did. *)
Lemma absorb_text (chunks : list (Chunk * Z)) (messageText : string) (lastUpdateTime : Z) :
  fst (fst (absorb chunks messageText lastUpdateTime)) =
    String.append messageText (join (map (fun cn => chunk_text (fst cn)) chunks)).
Proof.
  revert messageText lastUpdateTime.
  induction chunks as [|[chunk now] chunks IH]; intros messageText lastUpdateTime.
  - simpl. now rewrite append_empty_r.
  - rewrite absorb_cons. cbv zeta. cbn [fst snd map join fold_right].
    rewrite IH, text_step. apply append_assoc.
Qed.

(** Every partial update wrote a prefix of the final text. *)
Lemma absorb_writes_prefix (chunks : list (Chunk * Z)) (messageText : string)
    (lastUpdateTime : Z) :
  Forall (fun w => exists tail,
            fst (fst (absorb chunks messageText lastUpdateTime)) = String.append w tail)
         (snd (absorb chunks messageText lastUpdateTime)).
Proof.
  revert messageText lastUpdateTime.
  induction chunks as [|[chunk now] chunks IH]; intros messageText lastUpdateTime.
  - constructor.
  - rewrite absorb_cons. cbv zeta. cbn [fst snd].
    destruct (truthy (chunk_content chunk) && (now - lastUpdateTime >? 1000)%Z).
    + constructor; [|apply IH]. rewrite absorb_text. eauto.
    + apply IH.
Qed.

(** Two flushes are more than 1000 ms apart: [n] flushes after a flush at
    [lastUpdateTime] need readings up to [lastUpdateTime + 1001 * n].  The
    clock is read at the chunks that carry text. *)
Lemma absorb_count_from_last (chunks : list (Chunk * Z)) (messageText : string)
    (lastUpdateTime hi : Z) :
  Forall (fun cn => truthy (chunk_content (fst cn)) = true -> (snd cn <= hi)%Z) chunks ->
  let n := Z.of_nat (List.length (snd (absorb chunks messageText lastUpdateTime))) in
  (n = 0 \/ lastUpdateTime + 1001 * n <= hi)%Z.
Proof.
  intros H. revert messageText lastUpdateTime.
  induction H as [|[chunk now] chunks Hnow Hrest IH];
    intros messageText lastUpdateTime; cbv zeta.
  - now left.
  - rewrite absorb_cons. cbv zeta. cbn [fst snd] in *.
    destruct (truthy (chunk_content chunk)); cbn [andb]; [|apply IH].
    specialize (Hnow eq_refl).
    destruct (now - lastUpdateTime >? 1000)%Z eqn:F; [|apply IH].
    apply Z.gtb_lt in F. right. cbn [List.length].
    match goal with
    | |- context [absorb chunks ?t ?l] => destruct (IH t l) as [E|E]
    end; lia.
Qed.

(** With all readings in [lo, hi], [n >= 1] flushes need
    [lo + 1001 * (n - 1) <= hi]. *)
Lemma absorb_count_in_window (chunks : list (Chunk * Z)) (messageText : string)
    (lastUpdateTime lo hi : Z) :
  Forall (fun cn => truthy (chunk_content (fst cn)) = true ->
                    (lo <= snd cn <= hi)%Z) chunks ->
  let n := Z.of_nat (List.length (snd (absorb chunks messageText lastUpdateTime))) in
  (n = 0 \/ lo + 1001 * (n - 1) <= hi)%Z.
Proof.
  intros H. revert messageText lastUpdateTime.
  induction H as [|[chunk now] chunks Hnow Hrest IH];
    intros messageText lastUpdateTime; cbv zeta.
  - now left.
  - rewrite absorb_cons. cbv zeta. cbn [fst snd] in *.
    destruct (truthy (chunk_content chunk)); cbn [andb]; [|apply IH].
    specialize (Hnow eq_refl).
    destruct (now - lastUpdateTime >? 1000)%Z eqn:F; [|apply IH].
    right. cbn [List.length].
    match goal with
    | |- context [absorb chunks ?t ?l] =>
        pose proof (@absorb_count_from_last chunks t l hi) as E
    end.
    cbv zeta in E. destruct E as [E|E]; [|lia|lia].
    eapply Forall_impl; [|exact Hrest]. cbv beta. intros a Ha Ht.
    specialize (Ha Ht). lia.
Qed.

(** ** A text-only generation *)

Lemma writes_of_app (t1 t2 : list Effect) :
  writes_of (t1 ++ t2) = writes_of t1 ++ writes_of t2.
Proof.
  induction t1 as [|e t1 IH]; simpl; auto.
  destruct e; simpl; rewrite ?IH; auto.
Qed.

Lemma writes_of_updates (id : string) (texts : list string) :
  writes_of (map (PartialUpdateMessage id) texts) = texts.
Proof. induction texts; simpl; congruence. Qed.

Lemma events_of_updates (id : string) (texts : list string) :
  events_of (map (PartialUpdateMessage id) texts) = [].
Proof. induction texts; simpl; congruence. Qed.

Section TextGeneration.

Variable JSON_stringify : json -> string.
Variable JSON_parse : string -> option json.
Variable TAVILY_API_KEY : option string.
Variable fetch : nat -> FetchRequest -> FetchOutcome.

(** What a text-only generation adds to the trace. *)
Lemma generation_of_chunks_added (cm : ChannelMessage) (chunks : list (Chunk * Z))
    (next : ModelScript) (s : State) :
  openai s = true ->
  no_tool_round chunks ->
  added s (exec (processMessageWithGemini JSON_stringify JSON_parse TAVILY_API_KEY fetch
                   (CreateStream (stream_of chunks) next) cm) s) =
    [SendEvent (AiIndicatorUpdate AI_STATE_GENERATING (cm_cid cm) (cm_id cm));
     CreateCompletion (conversationHistory s)] ++
    map (PartialUpdateMessage (cm_id cm)) (snd (absorb chunks "" 0%Z)) ++
    [PartialUpdateMessage (cm_id cm) (fst (fst (absorb chunks "" 0%Z)));
     SendEvent (AiIndicatorClear (Some (cm_cid cm)) (cm_id cm))].
Proof.
  intros Hopen Hno. unfold exec.
  rewrite generation_of_chunks by assumption.
  apply added_app. reflexivity.
Qed.

(** For every run of chunks that does not end in a tool round, fed with any
    clock readings to an initialised agent, the generation fulfils, the last
    text written to the message store is the concatenation of all the
    deltas' texts in arrival order, every earlier (throttled) write is a
    prefix of it, that same text is appended to the history as the new
    assistant turn, and the channel sees generating, then clear. *)
Lemma generation_text_is_concatenation (cm : ChannelMessage) (chunks : list (Chunk * Z))
    (next : ModelScript) (s : State) :
  openai s = true ->
  no_tool_round chunks ->
  let run := processMessageWithGemini JSON_stringify JSON_parse TAVILY_API_KEY fetch
               (CreateStream (stream_of chunks) next) cm in
  let full := join (map (fun cn => chunk_text (fst cn)) chunks) in
  outcome run s = Ok tt /\
  (exists partial,
     writes_of (added s (exec run s)) = partial ++ [full] /\
     Forall (fun w => exists tail, full = String.append w tail) partial) /\
  conversationHistory (exec run s) = conversationHistory s ++ [AssistantMsg full] /\
  events_of (added s (exec run s)) =
    [AiIndicatorUpdate AI_STATE_GENERATING (cm_cid cm) (cm_id cm);
     AiIndicatorClear (Some (cm_cid cm)) (cm_id cm)].
Proof.
  intros Hopen Hno. cbv zeta.
  rewrite generation_of_chunks_added by assumption.
  unfold exec, outcome. rewrite generation_of_chunks by assumption.
  cbn [fst snd conversationHistory].
  pose proof (absorb_text chunks "" 0%Z) as Htext. cbn [String.append] in Htext.
  rewrite <- Htext. repeat split.
  - exists (snd (absorb chunks "" 0%Z)). split.
    + rewrite !writes_of_app, writes_of_updates. reflexivity.
    + apply absorb_writes_prefix.
  - rewrite !events_of_app, events_of_updates. reflexivity.
Qed.

End TextGeneration.

(** The response handler accumulates the same way: after any sequence of
    text deltas, whatever the clock, [message_text] is what it was followed
    by the concatenation of the deltas' values.  (On
    [thread.message.completed] it writes the provider's completed text when
    that is text, and [message_text] otherwise.) *)
Lemma handler_text_is_concatenation (message : OpenAIResponseHandler.MessageResponse)
    (deltas : list (string * Z)) (hs : OpenAIResponseHandler.State) :
  OpenAIResponseHandler.message_text
    (handler_run message (map (fun d => (text_delta (fst d), snd d)) deltas) hs) =
  String.append (OpenAIResponseHandler.message_text hs) (join (map fst deltas)).
Proof.
  revert hs. induction deltas as [|[v now] deltas IH]; intros hs.
  - simpl. now rewrite append_empty_r.
  - cbn [map handler_run fold_left fst snd] in *. unfold handler_run in IH.
    rewrite IH. cbn [join fold_right]. rewrite <- append_assoc. f_equal.
    unfold exec, text_delta, OpenAIResponseHandler.handleStreamEvent.
    cbn [String.eqb Ascii.eqb Bool.eqb andb].
    unfold bind, modify, gets, ret, OpenAIResponseHandler.emit, or_else.
    cbn [fst snd OpenAIResponseHandler.message_text
         OpenAIResponseHandler.with_message_text
         OpenAIResponseHandler.last_update_time].
    assert (Hv : (if truthy (Some v) then v else "") = v).
    { simpl. destruct (String.eqb_spec v ""); simpl; congruence. }
    cbn [OpenAIResponseHandler.value].
    destruct (now - OpenAIResponseHandler.last_update_time hs >? 1000)%Z;
      cbn [fst snd modify OpenAIResponseHandler.message_text
           OpenAIResponseHandler.with_message_text
           OpenAIResponseHandler.with_trace
           OpenAIResponseHandler.with_last_update_time
           OpenAIResponseHandler.with_chunk_counter];
      now rewrite Hv.
Qed.

(** ** The conversation buffer *)

(** Trimming a history that starts with [first]: at most 21 turns stay,
    [first] and a suffix of the rest, which is the whole rest or its last
    20. *)
Lemma trim_window (first : ChatMessage) (others : list ChatMessage) :
  (List.length (trim (first :: others)) <= 21)%nat /\
  exists dropped kept,
    others = dropped ++ kept /\
    trim (first :: others) = first :: kept /\
    (dropped = [] \/ List.length kept = 20%nat).
Proof.
  unfold trim. destruct (21 <? List.length (first :: others))%nat eqn:E.
  - apply Nat.ltb_lt in E. simpl List.length in E.
    unfold slice_last. cbn [List.length].
    replace (S (List.length others) - 20)%nat with (S (List.length others - 20))
      by lia.
    cbn [skipn]. split.
    + cbn [List.length]. rewrite length_skipn. lia.
    + exists (firstn (List.length others - 20) others),
             (skipn (List.length others - 20) others).
      split; [now rewrite firstn_skipn|]. split; [reflexivity|].
      right. rewrite length_skipn. lia.
  - apply Nat.ltb_ge in E. split; [exact E|].
    exists [], others. repeat split. now left.
Qed.

Section Buffer.

Variable JSON_stringify : json -> string.
Variable JSON_parse : string -> option json.
Variable TAVILY_API_KEY : option string.
Variable fetch : nat -> FetchRequest -> FetchOutcome.

(** C3 (amended): the user-message append of [handleMessage] (the push
    followed by the trim) leaves the buffer with at most 21 turns; when the
    buffer starts with a system prompt, element 0 afterwards is the most
    recently set system prompt (the one for the message's writing task if it
    has one, else the one before) and the turns after it are, in insertion
    order, the earlier turns and the new user turn, all of them or the last
    20; and an accepted message is handled by that append, the placeholder,
    the thinking indicator and the generation, in this order.  (Assistant,
    tool-call and tool-result turns are pushed without trimming.) *)
Theorem user_turn_keeps_window (now : Z) (currentDate : string) (m : NewMessage)
    (s : State) :
  let s' := exec (recordUserMessage now currentDate m) s in
  outcome (recordUserMessage now currentDate m) s = Ok tt /\
  (List.length (conversationHistory s') <= 21)%nat /\
  (forall prompt others,
     conversationHistory s = SystemMsg prompt :: others ->
     exists dropped kept,
       others ++ [UserMsg (nullish (text m) "")] = dropped ++ kept /\
       conversationHistory s' =
         SystemMsg (if truthy (writingTask m)
                    then getWritingAssistantPrompt currentDate
                           (Some (String.append "Writing Task: "
                                    (nullish (writingTask m) "")))
                    else prompt) :: kept /\
       (dropped = [] \/ List.length kept = 20%nat)) /\
  (forall cm script,
     openai s = true -> ai_generated m = false -> truthy (text m) = true ->
     handleMessage JSON_stringify JSON_parse TAVILY_API_KEY fetch
       (mkMessageEvent (Some m)) now currentDate cm script s =
     (recordUserMessage now currentDate m ;;
      emit (SendMessage "" true) ;;
      sendEvent (AiIndicatorUpdate AI_STATE_THINKING (cm_cid cm) (cm_id cm)) ;;
      processMessageWithGemini JSON_stringify JSON_parse TAVILY_API_KEY fetch
        script cm) s).
Proof.
  cbv zeta. split; [|split; [|split]].
  - unfold outcome, recordUserMessage, bind, modify, push, ret.
    destruct (truthy (writingTask m)); reflexivity.
  - unfold exec, recordUserMessage, bind, modify, push, ret.
    destruct (truthy (writingTask m)); cbn [fst snd];
      unfold with_history, with_lastInteractionTs;
      cbn [conversationHistory openai lastInteractionTs activeStreamControllers
           controllers trace];
      destruct (conversationHistory s) as [|first others]; cbn [set_first app];
      apply trim_window.
  - intros prompt others Hs.
    unfold exec, recordUserMessage, bind, modify, push, ret.
    destruct (truthy (writingTask m)); cbn [fst snd];
      unfold with_history, with_lastInteractionTs;
      cbn [conversationHistory openai lastInteractionTs activeStreamControllers
           controllers trace];
      rewrite Hs; cbn [set_first app].
    + destruct (trim_window
                  (SystemMsg (getWritingAssistantPrompt currentDate
                     (Some (String.append "Writing Task: " (nullish (writingTask m) "")))))
                  (others ++ [UserMsg (nullish (text m) "")]))
        as [_ (dropped & kept & E1 & E2 & E3)].
      exists dropped, kept. repeat split; auto.
    + destruct (trim_window (SystemMsg prompt)
                  (others ++ [UserMsg (nullish (text m) "")]))
        as [_ (dropped & kept & E1 & E2 & E3)].
      exists dropped, kept. repeat split; auto.
  - intros cm script Hopen Hgen Htext.
    unfold handleMessage. unfold bind at 1. unfold gets at 1.
    rewrite Hopen. cbn [negb message]. rewrite Hgen, Htext. reflexivity.
Qed.

End Buffer.

(** C3, as stated, fails: after [init] and eleven exchanges (a user
    message, a one-delta answer) the buffer holds 22 turns, the assistant
    turn having been pushed after the trim. *)
Lemma buffer_exceeds_window_after_answer :
  let s := Nat.iter 11 Sample.exchange Sample.initialised in
  List.length (conversationHistory s) = 22%nat /\
  ~ (List.length (conversationHistory s) <= 21)%nat /\
  last (conversationHistory s) (UserMsg "") = AssistantMsg "Hi".
Proof.
  cbv zeta.
  assert (E : List.length (conversationHistory
                (Nat.iter 11 Sample.exchange Sample.initialised)) = 22%nat)
    by (vm_compute; reflexivity).
  split; [exact E|]. split; [rewrite E; lia|].
  vm_compute. reflexivity.
Qed.

Lemma user_turn_keeps_window_witness :
  let s := Nat.iter 11 Sample.exchange Sample.initialised in
  let m := mkNewMessage false (Some "again") None in
  (List.length (conversationHistory
                  (exec (recordUserMessage 2000 "January 1, 2026" m) s)) <= 21)%nat /\
  (exists dropped kept,
     [] ++ [UserMsg "again"] = dropped ++ kept /\
     conversationHistory (exec (recordUserMessage 2000 "January 1, 2026" m) Sample.ready)
       = SystemMsg "prompt" :: kept /\
     (dropped = [] \/ List.length kept = 20%nat)) /\
  handleMessage Sample.stringify Sample.parse Sample.key Sample.fetch
    (mkMessageEvent (Some m)) 2000 "January 1, 2026" Sample.m1
    (CreateRejects AbortError) Sample.ready =
  (recordUserMessage 2000 "January 1, 2026" m ;;
   emit (SendMessage "" true) ;;
   sendEvent (AiIndicatorUpdate AI_STATE_THINKING (cm_cid Sample.m1) (cm_id Sample.m1)) ;;
   processMessageWithGemini Sample.stringify Sample.parse Sample.key Sample.fetch
     (CreateRejects AbortError) Sample.m1) Sample.ready.
Proof.
  cbv zeta. split; [|split].
  - exact (proj1 (proj2
      (@user_turn_keeps_window Sample.stringify Sample.parse Sample.key Sample.fetch
         2000%Z "January 1, 2026" (mkNewMessage false (Some "again") None)
         (Nat.iter 11 Sample.exchange Sample.initialised)))).
  - exact (proj1 (proj2 (proj2
      (@user_turn_keeps_window Sample.stringify Sample.parse Sample.key Sample.fetch
         2000%Z "January 1, 2026" (mkNewMessage false (Some "again") None)
         Sample.ready))) "prompt" [] eq_refl).
  - exact (proj2 (proj2 (proj2
      (@user_turn_keeps_window Sample.stringify Sample.parse Sample.key Sample.fetch
         2000%Z "January 1, 2026" (mkNewMessage false (Some "again") None)
         Sample.ready))) Sample.m1 (CreateRejects AbortError) eq_refl eq_refl eq_refl).
Defined.

(** ** Cancellation seen by the stream loop *)

Lemma abort_each_controllers (l : list Controller) (s : State) :
  fold_left abort l s = with_controllers (fold_left set_aborted l (controllers s)) s.
Proof.
  revert s. induction l as [|c l IH]; intros s; simpl.
  - now destruct s.
  - rewrite IH. reflexivity.
Qed.

Section Cancellation.

Variable JSON_stringify : json -> string.
Variable JSON_parse : string -> option json.
Variable TAVILY_API_KEY : option string.
Variable fetch : nat -> FetchRequest -> FetchOutcome.

(** Once its controller is aborted, the loop is left at the next chunk
    with the text accumulated so far, and nothing changes. *)
Lemma consume_aborted (controller : Controller) (cm : ChannelMessage)
    (k : list (option ToolCall) -> M State unit) (chunk : Chunk) (now : Z)
    (rest : list StreamItem) (messageText : string) (lastUpdateTime : Z)
    (pending : list (option ToolCall)) (s : State) :
  aborted controller s = true ->
  consume controller cm k (SChunk chunk now :: rest)
    messageText lastUpdateTime pending s = (Ok (Fallthrough messageText), s).
Proof.
  intros H. cbn [consume]. unfold bind, gets. now rewrite H.
Qed.

Lemma consume_stop (controller : Controller) (cm : ChannelMessage)
    (k : list (option ToolCall) -> M State unit) (event : StopEvent)
    (rest : list StreamItem) (messageText : string) (lastUpdateTime : Z)
    (pending : list (option ToolCall)) :
  consume controller cm k (SStop event :: rest) messageText lastUpdateTime pending =
  (handleStopGenerating event ;;
   consume controller cm k rest messageText lastUpdateTime pending).
Proof. reflexivity. Qed.

(** A generation stopped between two chunks: the whole of its effect. *)
Lemma cancelled_generation (cm : ChannelMessage)
    (chunks : list (Chunk * Z)) (event : StopEvent) (i : string)
    (chunk : Chunk) (now : Z) (rest : list StreamItem) (next : ModelScript)
    (s : State) :
  openai s = true ->
  no_tool_round chunks ->
  stop_message_id event = Some i -> i <> "" ->
  processMessageWithGemini JSON_stringify JSON_parse TAVILY_API_KEY fetch
    (CreateStream (stream_of chunks ++ SStop event :: SChunk chunk now :: rest) next)
    cm s =
  (Ok tt,
   mkState true
     (conversationHistory s ++ [AssistantMsg (fst (fst (absorb chunks "" 0%Z)))])
     (lastInteractionTs s)
     []
     (fold_left set_aborted
        (activeStreamControllers s ++ [List.length (controllers s)])
        (controllers s ++ [false]))
     (trace s ++
      [SendEvent (AiIndicatorUpdate AI_STATE_GENERATING (cm_cid cm) (cm_id cm));
       CreateCompletion (conversationHistory s)] ++
      map (PartialUpdateMessage (cm_id cm)) (snd (absorb chunks "" 0%Z)) ++
      [SendEvent (AiIndicatorClear (stop_cid event) i);
       PartialUpdateMessage (cm_id cm) (fst (fst (absorb chunks "" 0%Z)));
       SendEvent (AiIndicatorClear (Some (cm_cid cm)) (cm_id cm))])).
Proof.
  intros Hopen Hno Hid Hne. destruct s as [ready history ts active cells effects].
  cbn [openai] in Hopen. subst ready.
  cbn [conversationHistory lastInteractionTs activeStreamControllers controllers trace].
  set (s := mkState true history ts active cells effects).
  assert (Hfresh : aborted (List.length cells) (started cm s) = false)
    by (unfold aborted, started; cbn [controllers];
        apply fresh_controller_not_aborted).
  rewrite processMessageWithGemini_stream by reflexivity.
  unfold try_finally, try_catch. unfold bind at 1.
  change (controllers s) with cells.
  rewrite consume_chunks by assumption.
  rewrite consume_stop. unfold bind at 1.
  erewrite handleStopGenerating_stops; [| exact Hid | exact Hne |].
  2: { unfold started, with_trace. cbn [activeStreamControllers].
       intros E. apply app_eq_nil in E. destruct E as [_ E]. discriminate. }
  rewrite consume_aborted.
  2: { unfold aborted. unfold with_trace at 1. cbn [controllers].
       unfold with_active. cbn [controllers].
       apply abort_each_aborts.
       - unfold started, with_trace. cbn [activeStreamControllers].
         apply in_or_app. right. now left.
       - unfold started, with_trace. cbn [controllers].
         rewrite length_app. simpl. lia. }
  rewrite abort_each_controllers.
  unfold started, s. normalise_state.
  unfold finish. unfold bind at 1. unfold partialUpdateMessage, emit, modify.
  normalise_state.
  unfold bind at 1. unfold push, modify. normalise_state.
  unfold sendEvent, emit, modify. normalise_state.
  unfold retire, modify. normalise_state. cbn [filter].
  f_equal. f_equal.
  rewrite <- !app_assoc. reflexivity.
Qed.

(** C1: the code does not do what the claim says.  When a stop event
    arrives while the loop waits for the next chunk, the handler aborts the
    controller and emits its clear; the loop then sees the aborted signal at
    the next chunk and leaves by [break], which falls through to the code
    after the loop: the text so far is written once more, it is pushed as an
    assistant turn, and a second clear is sent.  (No error indicator is sent,
    and the chunk that follows the stop is not consumed.) *)
Theorem cancelled_stream_still_finishes (cm : ChannelMessage)
    (chunks : list (Chunk * Z)) (event : StopEvent) (i : string)
    (chunk : Chunk) (now : Z) (rest : list StreamItem) (next : ModelScript)
    (s : State) :
  openai s = true ->
  no_tool_round chunks ->
  stop_message_id event = Some i -> i <> "" ->
  let run := processMessageWithGemini JSON_stringify JSON_parse TAVILY_API_KEY fetch
               (CreateStream (stream_of chunks ++ SStop event :: SChunk chunk now :: rest)
                  next) cm in
  let text := join (map (fun cn => chunk_text (fst cn)) chunks) in
  outcome run s = Ok tt /\
  aborted (List.length (controllers s)) (exec run s) = true /\
  writes_of (added s (exec run s)) = snd (absorb chunks "" 0%Z) ++ [text] /\
  conversationHistory (exec run s) = conversationHistory s ++ [AssistantMsg text] /\
  events_of (added s (exec run s)) =
    [AiIndicatorUpdate AI_STATE_GENERATING (cm_cid cm) (cm_id cm);
     AiIndicatorClear (stop_cid event) i;
     AiIndicatorClear (Some (cm_cid cm)) (cm_id cm)].
Proof.
  intros Hopen Hno Hid Hne. cbv zeta.
  pose proof (absorb_text chunks "" 0%Z) as Htext. cbn [String.append] in Htext.
  rewrite <- Htext. clear Htext.
  unfold exec, outcome.
  rewrite (@cancelled_generation cm chunks event i chunk now rest next s
             Hopen Hno Hid Hne).
  cbn [fst snd conversationHistory]. split; [reflexivity|]. split; [|split; [|split]].
  - unfold aborted. cbn [controllers].
    pose proof (@abort_each_aborts
                  (activeStreamControllers s ++ [List.length (controllers s)])
                  (with_controllers (controllers s ++ [false]) s)
                  (List.length (controllers s))) as H.
    rewrite abort_each_controllers in H. unfold aborted in H.
    cbn [controllers with_controllers] in H. apply H.
    + apply in_or_app. right. now left.
    + rewrite length_app. simpl. lia.
  - erewrite added_app; [|reflexivity].
    rewrite !writes_of_app, writes_of_updates. reflexivity.
  - reflexivity.
  - erewrite added_app; [|reflexivity].
    rewrite !events_of_app, events_of_updates. reflexivity.
Qed.

End Cancellation.

Lemma cancelled_stream_still_finishes_witness :
  let run := processMessageWithGemini Sample.stringify Sample.parse Sample.key
               Sample.fetch
               (CreateStream
                  [SChunk (text_chunk "Hel") 5000;
                   SStop (mkStopEvent (Some "m1") (Some "messaging:room"));
                   SChunk (text_chunk "lo") 5100]
                  (CreateRejects AbortError))
               Sample.m1 in
  outcome run Sample.ready = Ok tt /\
  aborted 0 (exec run Sample.ready) = true /\
  writes_of (added Sample.ready (exec run Sample.ready)) = ["Hel"; "Hel"] /\
  conversationHistory (exec run Sample.ready) = [SystemMsg "prompt"; AssistantMsg "Hel"] /\
  events_of (added Sample.ready (exec run Sample.ready)) =
    [Sample.generating; AiIndicatorClear (Some "messaging:room") "m1"; Sample.clear].
Proof.
  cbv zeta.
  refine (@cancelled_stream_still_finishes Sample.stringify Sample.parse Sample.key
            Sample.fetch Sample.m1 [(text_chunk "Hel", 5000%Z)]
            (mkStopEvent (Some "m1") (Some "messaging:room")) "m1"
            (text_chunk "lo") 5100%Z [] (CreateRejects AbortError) Sample.ready
            eq_refl _ eq_refl _).
  - unfold no_tool_round. repeat constructor.
  - discriminate.
Defined.

(** The sibling path: when the stream itself rejects with an AbortError
    after the stop, nothing more is written, no turn is pushed, and the
    handler's clear is the only one. *)
Lemma abort_error_path_is_silent :
  let run := processMessageWithGemini Sample.stringify Sample.parse Sample.key
               Sample.fetch
               (CreateStream
                  [SChunk (text_chunk "Hel") 5000;
                   SStop (mkStopEvent (Some "m1") (Some "messaging:room"));
                   SThrow AbortError]
                  (CreateRejects AbortError))
               Sample.m1 in
  outcome run Sample.ready = Ok tt /\
  writes_of (added Sample.ready (exec run Sample.ready)) = ["Hel"] /\
  conversationHistory (exec run Sample.ready) = [SystemMsg "prompt"] /\
  events_of (added Sample.ready (exec run Sample.ready)) =
    [Sample.generating; AiIndicatorClear (Some "messaging:room") "m1"].
Proof. cbv zeta. repeat split. Qed.

(** ** The tool round *)

Lemma absorb_app (a b : list (Chunk * Z)) (messageText : string) (lastUpdateTime : Z) :
  absorb (a ++ b) messageText lastUpdateTime =
    (fst (fst (absorb b (fst (fst (absorb a messageText lastUpdateTime)))
                        (snd (fst (absorb a messageText lastUpdateTime))))),
     snd (fst (absorb b (fst (fst (absorb a messageText lastUpdateTime)))
                        (snd (fst (absorb a messageText lastUpdateTime))))),
     snd (absorb a messageText lastUpdateTime) ++
     snd (absorb b (fst (fst (absorb a messageText lastUpdateTime)))
                   (snd (fst (absorb a messageText lastUpdateTime))))).
Proof.
  revert messageText lastUpdateTime.
  induction a as [|[chunk now] a IH]; intros messageText lastUpdateTime.
  - cbn [app absorb fst snd]. now destruct (absorb b _ _) as [[? ?] ?].
  - cbn [app]. rewrite !absorb_cons. cbv zeta. cbn [fst snd]. rewrite IH.
    cbn [fst snd].
    destruct (truthy (chunk_content chunk) && (now - lastUpdateTime >? 1000)%Z);
      reflexivity.
Qed.

Lemma pending_after_app (a b : list Chunk) (pending : list (option ToolCall)) :
  pending_after (a ++ b) pending = pending_after b (pending_after a pending).
Proof. unfold pending_after. apply fold_left_app. Qed.

Lemma fetches_silent (fs : list Effect) :
  Forall (fun e => is_fetch e = true) fs -> events_of fs = [] /\ writes_of fs = [].
Proof.
  induction 1 as [|e fs He Hfs [IH1 IH2]]; [now split|].
  destruct e; try discriminate. simpl. now split.
Qed.

Section ToolRound.

Variable JSON_stringify : json -> string.
Variable JSON_parse : string -> option json.
Variable TAVILY_API_KEY : option string.
Variable fetch : nat -> FetchRequest -> FetchOutcome.

(** The search at most adds its request to the trace; when it fulfils, it
    does so with a serialised value. *)
Lemma performWebSearch_effect (query : option json) (s : State) :
  exists r fs,
    performWebSearch JSON_stringify TAVILY_API_KEY fetch query s =
      (r, with_trace (trace s ++ fs) s) /\
    Forall (fun e => is_fetch e = true) fs /\
    (forall content, r = Ok content -> exists v, content = JSON_stringify v).
Proof.
  destruct (truthy TAVILY_API_KEY) eqn:Hk.
  - apply truthy_true_iff in Hk. destruct Hk as [k [Hk Hne]].
    destruct (printable_query query) eqn:Hq.
    + pose proof (@performWebSearch_with_key JSON_stringify TAVILY_API_KEY fetch
                    query s k Hk Hne Hq) as H. cbv zeta in H.
      eexists. eexists. split; [exact H|]. split; [repeat constructor|].
      intros content [= <-]. eauto.
    + exists (Throw unprintable), []. split; [|split; [constructor|discriminate]].
      rewrite app_nil_r, with_trace_same.
      now apply performWebSearch_unprintable with (k := k).
  - apply truthy_false_iff in Hk.
    exists (Ok (JSON_stringify not_configured)), [].
    split; [|split; [constructor|intros content [= <-]; eauto]].
    rewrite app_nil_r, with_trace_same.
    now apply performWebSearch_no_key.
Qed.

(** One web_search call is answered by one tool turn, whatever its
    arguments. *)
Lemma answer_web_search (toolCall : ToolCall) (s : State) :
  exists turn fs,
    try_catch
      (args <- parse JSON_parse (arguments (tc_function toolCall)) ;;
       query <- query_of args ;;
       searchResult <- performWebSearch JSON_stringify TAVILY_API_KEY fetch query ;;
       ret (ToolMsg (tc_id toolCall) searchResult))
      (fun _ => ret (ToolMsg (tc_id toolCall) (search_failed JSON_stringify))) s =
      (Ok turn, with_trace (trace s ++ fs) s) /\
    answers JSON_stringify JSON_parse toolCall turn /\
    Forall (fun e => is_fetch e = true) fs.
Proof.
  assert (Hfail : exists turn fs,
            (Ok (ToolMsg (tc_id toolCall) (search_failed JSON_stringify)), s) =
              (Ok turn, with_trace (trace s ++ fs) s) /\
            answers JSON_stringify JSON_parse toolCall turn /\
            Forall (fun e => is_fetch e = true) fs).
  { exists (ToolMsg (tc_id toolCall) (search_failed JSON_stringify)), [].
    split; [now rewrite app_nil_r, with_trace_same|]. split; [|constructor].
    eexists. split; [reflexivity|]. split; [|reflexivity].
    eexists. reflexivity. }
  assert (Hsearch : forall query, JSON_parse (arguments (tc_function toolCall)) <> None ->
            exists turn fs,
              (let (r, s') := performWebSearch JSON_stringify TAVILY_API_KEY fetch query s in
               match r with
               | Ok content => (Ok (ToolMsg (tc_id toolCall) content), s')
               | Throw e => (Ok (ToolMsg (tc_id toolCall) (search_failed JSON_stringify)), s')
               end) = (Ok turn, with_trace (trace s ++ fs) s) /\
              answers JSON_stringify JSON_parse toolCall turn /\
              Forall (fun e => is_fetch e = true) fs).
  { intros query Hparse.
    destruct (performWebSearch_effect query s) as (r & fs & E & Hfs & Hr).
    rewrite E. destruct r as [content|e].
    - eexists. exists fs. split; [reflexivity|]. split; [|exact Hfs].
      eexists. split; [reflexivity|]. split; [now apply Hr|].
      intros C. contradiction.
    - eexists. exists fs. split; [reflexivity|]. split; [|exact Hfs].
      eexists. split; [reflexivity|]. split; [|reflexivity].
      eexists. reflexivity. }
  unfold try_catch, bind, parse, query_of, ret, throw.
  destruct (JSON_parse (arguments (tc_function toolCall))) as [args|] eqn:P;
    [|exact Hfail].
  destruct args; try exact Hfail;
    match goal with
    | |- context [performWebSearch _ _ _ ?q s] =>
        destruct (Hsearch q) as (turn & fs & E & Ha & Hfs); [discriminate|];
        exists turn, fs; split; [|now split];
        rewrite <- E; destruct (performWebSearch _ _ _ q s) as [[c|e] s']; reflexivity
    end.
Qed.

(** The loop over an array of tool calls without holes fulfils: it adds
    one tool turn per web_search call, in order, none for any other call,
    and leaves the state as it was but for the requests made. *)
Lemma runToolCalls_dense (calls : list ToolCall) :
  forall (toolResults : list ChatMessage) (s : State),
  exists results fs,
    runToolCalls JSON_stringify JSON_parse TAVILY_API_KEY fetch
      (map Some calls) toolResults s =
      (Ok (toolResults ++ results), with_trace (trace s ++ fs) s) /\
    Forall2 (answers JSON_stringify JSON_parse) (filter is_web_search calls) results /\
    Forall (fun e => is_fetch e = true) fs.
Proof.
  induction calls as [|toolCall calls IH]; intros toolResults s.
  - exists [], []. cbn [map runToolCalls filter].
    rewrite !app_nil_r, with_trace_same. repeat split; constructor.
  - cbn [map runToolCalls filter]. unfold is_web_search at 1.
    destruct (name (tc_function toolCall) =? "web_search") eqn:Hn.
    + destruct (answer_web_search toolCall s) as (turn & fs1 & E & Ha & Hfs1).
      unfold bind at 1. rewrite E.
      destruct (IH (toolResults ++ [turn]) (with_trace (trace s ++ fs1) s))
        as (results & fs2 & E2 & Hr & Hfs2).
      rewrite E2. exists (turn :: results), (fs1 ++ fs2). split; [|split].
      * unfold with_trace.
        cbn [trace openai conversationHistory lastInteractionTs
             activeStreamControllers controllers].
        rewrite <- !app_assoc. reflexivity.
      * now constructor.
      * apply Forall_app. now split.
    + apply IH.
Qed.

(** A chunk that ends the stream with the reason tool_calls, some slot
    pending and the controller not aborted: the loop hands the slots over
    and returns, whatever the stream holds further. *)
Lemma consume_handoff (controller : Controller) (cm : ChannelMessage)
    (k : list (option ToolCall) -> M State unit) (chunk : Chunk) (now : Z)
    (rest : list StreamItem) (messageText : string) (lastUpdateTime : Z)
    (pending : list (option ToolCall)) (s : State) :
  aborted controller s = false ->
  is_tool_calls (chunk_finish_reason chunk) = true ->
  accumulateToolCalls pending (chunk_tool_calls chunk) <> [] ->
  consume controller cm k (SChunk chunk now :: rest)
    messageText lastUpdateTime pending s =
  (k (accumulateToolCalls pending (chunk_tool_calls chunk)) ;; ret Returned)
    (with_trace
       (trace s ++ map (PartialUpdateMessage (cm_id cm))
                       (snd (absorb [(chunk, now)] messageText lastUpdateTime))) s).
Proof.
  intros Hab Hfin Hpend. cbn [consume]. unfold bind at 1. unfold gets at 1.
  rewrite Hab, Hfin. cbn [andb].
  destruct (accumulateToolCalls pending (chunk_tool_calls chunk)) as [|slot slots] eqn:E;
    [contradiction|].
  cbn [List.length Nat.ltb Nat.leb]. unfold bind at 1.
  rewrite absorb_cons. cbv zeta. cbn [absorb fst snd]. unfold chunk_text.
  destruct (truthy (chunk_content chunk) && (now - lastUpdateTime >? 1000)%Z).
  - unfold partialUpdateMessage, emit, modify. reflexivity.
  - unfold ret at 1. cbn [map]. now rewrite app_nil_r, with_trace_same.
Qed.

(** The tool round on an array without holes: the turns it pushes, and the
    continuation it ends with. *)
Lemma handleToolCalls_dense (k : M State unit) (calls : list ToolCall) (s : State) :
  openai s = true ->
  exists results fs,
    Forall2 (answers JSON_stringify JSON_parse) (filter is_web_search calls) results /\
    Forall (fun e => is_fetch e = true) fs /\
    handleToolCalls_then JSON_stringify JSON_parse TAVILY_API_KEY fetch k
      (map Some calls) s =
    k (mkState true
         (conversationHistory s ++ AssistantToolCalls (map Some calls) :: results)
         (lastInteractionTs s) (activeStreamControllers s) (controllers s)
         (trace s ++ fs)).
Proof.
  intros Hopen.
  destruct (runToolCalls_dense calls []
              (with_history
                 (conversationHistory s ++ [AssistantToolCalls (map Some calls)]) s))
    as (results & fs & Erun & Hans & Hfs).
  exists results, fs. split; [exact Hans|]. split; [exact Hfs|].
  unfold handleToolCalls_then. unfold bind at 1. unfold gets at 1.
  rewrite Hopen. cbn [negb]. unfold bind at 1. unfold push at 1, modify at 1.
  unfold bind at 1. rewrite Erun. unfold bind at 1. unfold push at 1, modify at 1.
  f_equal. unfold with_history, with_trace.
  cbn [trace openai conversationHistory lastInteractionTs
       activeStreamControllers controllers app].
  rewrite Hopen, <- app_assoc. reflexivity.
Qed.

(** The loop on a run of chunks whose last one asks for the tool round. *)
Lemma consume_until_handoff (controller : Controller) (cm : ChannelMessage)
    (k : list (option ToolCall) -> M State unit)
    (chunks : list (Chunk * Z)) (last : Chunk) (now : Z) (rest : list StreamItem)
    (s : State) :
  aborted controller s = false ->
  no_tool_round chunks ->
  is_tool_calls (chunk_finish_reason last) = true ->
  pending_after (map fst (chunks ++ [(last, now)])) [] <> [] ->
  consume controller cm k (stream_of chunks ++ SChunk last now :: rest) "" 0%Z [] s =
  (k (pending_after (map fst (chunks ++ [(last, now)])) []) ;; ret Returned)
    (with_trace
       (trace s ++ map (PartialUpdateMessage (cm_id cm))
                       (snd (absorb (chunks ++ [(last, now)]) "" 0%Z))) s).
Proof.
  intros Hab Hno Hfin Hpend.
  rewrite map_app, pending_after_app in *.
  cbn [map fst pending_after fold_left] in *.
  rewrite consume_chunks by assumption.
  rewrite consume_handoff; [| exact Hab | exact Hfin | exact Hpend].
  rewrite absorb_app. cbn [snd]. rewrite map_app.
  unfold with_trace.
  cbn [trace openai conversationHistory lastInteractionTs
       activeStreamControllers controllers].
  now rewrite <- app_assoc.
Qed.

(** C7 (amended): when a chunk, reached with the controller not aborted,
    ends the stream with the reason tool_calls and the pending array holds
    at least one slot and no hole, the generation consumes nothing further
    (whatever follows in the stream), writes nothing to the message store
    beyond the throttled partial updates, pushes one assistant turn carrying
    the pending array, then one tool turn for each call named web_search, in
    order, keyed by the call's id (its content a serialised value, the
    structured error when the arguments do not parse) and none for a call of
    another name, and then runs a new generation for the same channel message
    inside its own [try], retiring its controller after it. *)
Theorem tool_round_then_new_generation (cm : ChannelMessage)
    (chunks : list (Chunk * Z)) (last : Chunk) (now : Z) (next : ModelScript)
    (s : State) (calls : list ToolCall) :
  openai s = true ->
  no_tool_round chunks ->
  is_tool_calls (chunk_finish_reason last) = true ->
  pending_after (map fst (chunks ++ [(last, now)])) [] = map Some calls ->
  calls <> [] ->
  exists results after_tools,
    (forall rest,
       processMessageWithGemini JSON_stringify JSON_parse TAVILY_API_KEY fetch
         (CreateStream (stream_of chunks ++ SChunk last now :: rest) next) cm s =
       try_finally
         (try_catch
            (processMessageWithGemini JSON_stringify JSON_parse TAVILY_API_KEY fetch
               next cm)
            (on_error cm))
         (retire (List.length (controllers s)))
         after_tools) /\
    conversationHistory after_tools =
      conversationHistory s ++ AssistantToolCalls (map Some calls) :: results /\
    Forall2 (answers JSON_stringify JSON_parse) (filter is_web_search calls) results /\
    writes_of (added s after_tools) = snd (absorb (chunks ++ [(last, now)]) "" 0%Z) /\
    events_of (added s after_tools) =
      [AiIndicatorUpdate AI_STATE_GENERATING (cm_cid cm) (cm_id cm)] /\
    openai after_tools = true.
Proof.
  intros Hopen Hno Hfin Hpend Hne.
  destruct s as [ready history ts active cells effects].
  cbn [openai] in Hopen. subst ready.
  cbn [conversationHistory controllers].
  set (s := mkState true history ts active cells effects).
  set (writes := snd (absorb (chunks ++ [(last, now)]) "" 0%Z)).
  set (s2 := mkState true history ts (active ++ [List.length cells]) (cells ++ [false])
               ((effects ++
                 [SendEvent (AiIndicatorUpdate AI_STATE_GENERATING (cm_cid cm) (cm_id cm));
                  CreateCompletion history]) ++
                map (PartialUpdateMessage (cm_id cm)) writes)).
  destruct (handleToolCalls_dense
              (processMessageWithGemini JSON_stringify JSON_parse TAVILY_API_KEY fetch
                 next cm) calls s2 eq_refl)
    as (results & fs & Hans & Hfs & Hround).
  destruct (fetches_silent Hfs) as [Hev Hwr].
  exists results,
    (mkState true (history ++ AssistantToolCalls (map Some calls) :: results) ts
       (active ++ [List.length cells]) (cells ++ [false]) (trace s2 ++ fs)).
  split; [|split; [|split; [|split; [|split]]]].
  - intros rest.
    rewrite processMessageWithGemini_stream by reflexivity.
    unfold try_finally, try_catch. unfold bind at 1.
    change (controllers s) with cells.
    rewrite consume_until_handoff; try assumption.
    + rewrite Hpend. unfold bind at 1.
      change (with_trace _ (started cm s)) with s2.
      rewrite Hround. unfold s2.
      cbn [conversationHistory lastInteractionTs activeStreamControllers
           controllers trace].
      match goal with
      | |- context [processMessageWithGemini _ _ _ _ next cm ?st] =>
          destruct (processMessageWithGemini JSON_stringify JSON_parse
                      TAVILY_API_KEY fetch next cm st) as [[[]|e] s']
      end; reflexivity.
    + unfold aborted, started. cbn [controllers].
      apply fresh_controller_not_aborted.
    + rewrite Hpend. destruct calls; [contradiction|discriminate].
  - reflexivity.
  - exact Hans.
  - erewrite added_app.
    2: { unfold s2, s. cbn [trace]. rewrite <- !app_assoc. reflexivity. }
    rewrite !writes_of_app, writes_of_updates, Hwr. cbn [writes_of app].
    now rewrite app_nil_r.
  - erewrite added_app.
    2: { unfold s2, s. cbn [trace]. rewrite <- !app_assoc. reflexivity. }
    rewrite !events_of_app, events_of_updates, Hev. reflexivity.
  - reflexivity.
Qed.

End ToolRound.

(** C7, as stated, fails: a tool call whose name is not web_search gets no
    tool-result turn; the new generation starts with the assistant tool-call
    turn unanswered. *)
Lemma other_tool_gets_no_result_turn :
  let run := processMessageWithGemini Sample.stringify Sample.parse Sample.key
               Sample.fetch (Sample.tool_round "calculator" "{}") Sample.m1 in
  conversationHistory (exec run Sample.ready) =
    [SystemMsg "prompt";
     AssistantToolCalls [Some (Sample.call_1 "calculator" "{}")];
     AssistantMsg "Hi"] /\
  tool_turns (conversationHistory (exec run Sample.ready)) = [].
Proof. cbv zeta. split; reflexivity. Qed.

Lemma tool_round_then_new_generation_witness :
  let args := Sample.stringify Sample.paris in
  let calls := [Sample.call_1 "web_search" args] in
  exists results after_tools,
    (forall rest,
       processMessageWithGemini Sample.stringify Sample.parse Sample.key Sample.fetch
         (CreateStream (stream_of [] ++ SChunk (Sample.tool_chunk "web_search" args) 5000
                          :: rest)
            (CreateRejects AbortError)) Sample.m1 Sample.ready =
       try_finally
         (try_catch
            (processMessageWithGemini Sample.stringify Sample.parse Sample.key
               Sample.fetch (CreateRejects AbortError) Sample.m1)
            (on_error Sample.m1))
         (retire (List.length (controllers Sample.ready)))
         after_tools) /\
    conversationHistory after_tools =
      conversationHistory Sample.ready ++ AssistantToolCalls (map Some calls) :: results /\
    Forall2 (answers Sample.stringify Sample.parse) (filter is_web_search calls) results /\
    writes_of (added Sample.ready after_tools) =
      snd (absorb ([] ++ [(Sample.tool_chunk "web_search" args, 5000%Z)]) "" 0%Z) /\
    events_of (added Sample.ready after_tools) =
      [AiIndicatorUpdate AI_STATE_GENERATING (cm_cid Sample.m1) (cm_id Sample.m1)] /\
    openai after_tools = true.
Proof.
  cbv zeta.
  refine (@tool_round_then_new_generation Sample.stringify Sample.parse Sample.key
            Sample.fetch Sample.m1 []
            (Sample.tool_chunk "web_search" (Sample.stringify Sample.paris)) 5000%Z
            (CreateRejects AbortError) Sample.ready
            [Sample.call_1 "web_search" (Sample.stringify Sample.paris)]
            eq_refl _ eq_refl eq_refl _).
  - constructor.
  - discriminate.
Defined.

(** The tool round at work: a web_search call whose arguments parse is
    answered by the provider's payload, one whose arguments do not parse by
    the structured error; both are followed by the new generation's turn. *)
Lemma web_search_round_examples :
  conversationHistory
    (exec (processMessageWithGemini Sample.stringify Sample.parse Sample.key Sample.fetch
             (Sample.tool_round "web_search" (Sample.stringify Sample.paris)) Sample.m1)
       Sample.ready) =
    [SystemMsg "prompt";
     AssistantToolCalls
       [Some (Sample.call_1 "web_search" (Sample.stringify Sample.paris))];
     ToolMsg (Some "call_1") (Sample.stringify Sample.answer);
     AssistantMsg "Hi"] /\
  conversationHistory
    (exec (processMessageWithGemini Sample.stringify Sample.parse Sample.key Sample.fetch
             (Sample.tool_round "web_search" "{query:") Sample.m1)
       Sample.ready) =
    [SystemMsg "prompt";
     AssistantToolCalls [Some (Sample.call_1 "web_search" "{query:")];
     ToolMsg (Some "call_1") (search_failed Sample.stringify);
     AssistantMsg "Hi"].
Proof. split; vm_compute; reflexivity. Qed.

(** A pending array with a hole (the only fragment carries index 1): the
    loop of the tool round throws a TypeError at the hole, which the
    generation's [catch] turns into the error indicator and an error text;
    the assistant tool-call turn stays, no tool turn follows and no new
    generation starts. *)
Lemma sparse_tool_calls_end_in_error :
  let run := processMessageWithGemini Sample.stringify Sample.parse Sample.key
               Sample.fetch
               (CreateStream [SChunk Sample.sparse_chunk 5000]
                  (CreateStream (stream_of Sample.hi) (CreateRejects AbortError)))
               Sample.m1 in
  outcome run Sample.ready = Ok tt /\
  conversationHistory (exec run Sample.ready) =
    [SystemMsg "prompt";
     AssistantToolCalls [None; Some (mkToolCall (Some "call_2") (Some "function")
                                       (mkFunctionCall "web_search" "{}"))]] /\
  events_of (added Sample.ready (exec run Sample.ready)) =
    [Sample.generating;
     AiIndicatorUpdate AI_STATE_ERROR (cm_cid Sample.m1) (cm_id Sample.m1)] /\
  writes_of (added Sample.ready (exec run Sample.ready)) =
    ["Cannot read properties of undefined (reading 'function')"].
Proof. cbv zeta. repeat split; vm_compute; reflexivity. Qed.

(** * Further properties *)

Import Invariant.

(** ** Growth of the state *)

Lemma grows_refl (s : State) : grows s s.
Proof.
  unfold grows. repeat split; auto.
  - exists []. now rewrite app_nil_r.
  - exists []. now rewrite app_nil_r.
Qed.

Lemma grows_trans (s1 s2 s3 : State) : grows s1 s2 -> grows s2 s3 -> grows s1 s3.
Proof.
  intros (O1 & T1 & [h1 H1] & [t1 R1] & L1 & A1) (O2 & T2 & [h2 H2] & [t2 R2] & L2 & A2).
  unfold grows. repeat split.
  - congruence.
  - congruence.
  - exists (h1 ++ h2). now rewrite H2, H1, app_assoc.
  - exists (t1 ++ t2). now rewrite R2, R1, app_assoc.
  - lia.
  - auto.
Qed.

Lemma steady_ret {A} (a : A) : steady (ret a).
Proof. intros s. apply grows_refl. Qed.

Lemma steady_throw {A} (e : JsError) : steady (@throw State A e).
Proof. intros s. apply grows_refl. Qed.

Lemma steady_gets {A} (f : State -> A) : steady (gets f).
Proof. intros s. apply grows_refl. Qed.

Lemma steady_bind {A B} (m : M State A) (k : A -> M State B) :
  steady m -> (forall a, steady (k a)) -> steady (bind m k).
Proof.
  intros Hm Hk s. unfold bind. specialize (Hm s).
  destruct (m s) as [[a|e] s1]; cbn [snd] in *; auto.
  eapply grows_trans; [exact Hm | apply Hk].
Qed.

Lemma steady_try_catch {A} (body : M State A) (handler : JsError -> M State A) :
  steady body -> (forall e, steady (handler e)) -> steady (try_catch body handler).
Proof.
  intros Hb Hh s. unfold try_catch. specialize (Hb s).
  destruct (body s) as [[a|e] s1]; cbn [snd] in *; auto.
  eapply grows_trans; [exact Hb | apply Hh].
Qed.

Lemma steady_try_finally {A} (body : M State A) (final : M State unit) :
  steady body -> steady final -> steady (try_finally body final).
Proof.
  intros Hb Hf s. unfold try_finally. specialize (Hb s).
  destruct (body s) as [r s1]. specialize (Hf s1).
  destruct (final s1) as [[u|e] s2]; cbn [snd] in *;
    eapply grows_trans; eauto.
Qed.

Lemma steady_if {A} (c : bool) (a b : M State A) :
  steady a -> steady b -> steady (if c then a else b).
Proof. destruct c; auto. Qed.

Lemma steady_modify (f : State -> State) :
  (forall s, grows s (f s)) -> steady (modify f).
Proof. intros H s. apply H. Qed.

Lemma grows_with_trace (s : State) (effects : list Effect) :
  grows s (with_trace (trace s ++ effects) s).
Proof.
  unfold grows. repeat split; auto.
  - exists []. now rewrite app_nil_r.
  - now exists effects.
Qed.

Lemma grows_with_history (s : State) (turns : list ChatMessage) :
  grows s (with_history (conversationHistory s ++ turns) s).
Proof.
  unfold grows. repeat split; auto.
  - now exists turns.
  - exists []. now rewrite app_nil_r.
Qed.

Lemma grows_with_active (s : State) (active : list Controller) :
  grows s (with_active active s).
Proof.
  unfold grows. repeat split; auto.
  - exists []. now rewrite app_nil_r.
  - exists []. now rewrite app_nil_r.
Qed.

Lemma grows_abort_each (l : list Controller) (s : State) :
  grows s (fold_left abort l s).
Proof.
  destruct (abort_each_fields l s) as (H1 & H2 & H3 & H4 & H5 & H6).
  unfold grows. repeat split; auto.
  - exists []. now rewrite app_nil_r.
  - exists []. now rewrite app_nil_r.
  - lia.
  - intros c. apply abort_each_keeps.
Qed.

Lemma grows_allocate (s : State) :
  grows s (with_controllers (controllers s ++ [false]) s).
Proof.
  unfold grows. repeat split; auto.
  - exists []. now rewrite app_nil_r.
  - exists []. now rewrite app_nil_r.
  - cbn [controllers with_controllers]. rewrite length_app. lia.
  - intros c. unfold aborted. cbn [controllers with_controllers]. intros H.
    destruct (Nat.lt_ge_cases c (List.length (controllers s))) as [Hlt|Hge].
    + now rewrite app_nth1.
    + rewrite nth_overflow in H by assumption. discriminate.
Qed.

Lemma steady_emit (e : Effect) : steady (emit e).
Proof. apply steady_modify. intros s. apply grows_with_trace. Qed.

Lemma steady_push (turns : list ChatMessage) : steady (push turns).
Proof. apply steady_modify. intros s. apply grows_with_history. Qed.

Lemma steady_abortAll : steady abortAll.
Proof.
  apply steady_modify. intros s.
  eapply grows_trans; [apply grows_abort_each | apply grows_with_active].
Qed.

Lemma steady_retire (controller : Controller) : steady (retire controller).
Proof. apply steady_modify. intros s. apply grows_with_active. Qed.

Lemma steady_newAbortController : steady newAbortController.
Proof. intros s. apply grows_allocate. Qed.

Lemma steady_handleStopGenerating (event : StopEvent) :
  steady (handleStopGenerating event).
Proof.
  unfold handleStopGenerating. apply steady_bind; [apply steady_gets|].
  intros n. apply steady_if; [apply steady_ret|].
  apply steady_bind; [apply steady_abortAll|]. intros _. apply steady_emit.
Qed.

Lemma steady_handleStreamError (error : JsError) (cm : ChannelMessage) :
  steady (handleStreamError error cm).
Proof.
  unfold handleStreamError. apply steady_bind; [apply steady_emit|].
  intros _. apply steady_emit.
Qed.

Lemma steady_on_error (cm : ChannelMessage) (error : JsError) :
  steady (on_error cm error).
Proof.
  unfold on_error. apply steady_if;
    [apply steady_handleStreamError | apply steady_ret].
Qed.

Lemma steady_finish (cm : ChannelMessage) (messageText : string) :
  steady (finish cm messageText).
Proof.
  unfold finish. apply steady_bind; [apply steady_emit|]. intros _.
  apply steady_bind; [apply steady_push|]. intros _. apply steady_emit.
Qed.

Section Growth.

Variable JSON_stringify : json -> string.
Variable JSON_parse : string -> option json.
Variable TAVILY_API_KEY : option string.
Variable fetch : nat -> FetchRequest -> FetchOutcome.

Lemma steady_performWebSearch (query : option json) :
  steady (performWebSearch JSON_stringify TAVILY_API_KEY fetch query).
Proof.
  intros s.
  destruct (performWebSearch_effect JSON_stringify TAVILY_API_KEY fetch query s)
    as (v & fs & E & _).
  rewrite E. apply grows_with_trace.
Qed.

Lemma steady_runToolCalls (toolCalls : list (option ToolCall)) :
  forall toolResults,
    steady (runToolCalls JSON_stringify JSON_parse TAVILY_API_KEY fetch
              toolCalls toolResults).
Proof.
  induction toolCalls as [|[toolCall|] toolCalls IH]; intros toolResults;
    cbn [runToolCalls].
  - apply steady_ret.
  - apply steady_if; [|apply IH].
    apply steady_bind; [|intros r; apply IH].
    apply steady_try_catch; [|intros _; apply steady_ret].
    apply steady_bind.
    { unfold parse. destruct (JSON_parse _); [apply steady_ret | apply steady_throw]. }
    intros args. apply steady_bind.
    { unfold query_of. destruct args; try apply steady_ret. apply steady_throw. }
    intros query. apply steady_bind; [apply steady_performWebSearch|].
    intros r. apply steady_ret.
  - apply steady_throw.
Qed.

Lemma steady_handleToolCalls_then (continue_ : M State unit)
    (toolCalls : list (option ToolCall)) :
  steady continue_ ->
  steady (handleToolCalls_then JSON_stringify JSON_parse TAVILY_API_KEY fetch
            continue_ toolCalls).
Proof.
  intros Hk. unfold handleToolCalls_then.
  apply steady_bind; [apply steady_gets|]. intros ready.
  apply steady_if; [apply steady_ret|].
  apply steady_bind; [apply steady_push|]. intros _.
  apply steady_bind; [apply steady_runToolCalls|]. intros results.
  apply steady_bind; [apply steady_push|]. intros _. exact Hk.
Qed.

Lemma steady_consume (controller : Controller) (cm : ChannelMessage)
    (k : list (option ToolCall) -> M State unit) (stream : list StreamItem) :
  (forall pending, steady (k pending)) ->
  forall messageText lastUpdateTime pending,
    steady (consume controller cm k stream messageText lastUpdateTime pending).
Proof.
  intros Hk.
  induction stream as [|[chunk now|event|e] stream IH];
    intros messageText lastUpdateTime pending; cbn [consume].
  - apply steady_ret.
  - apply steady_bind; [apply steady_gets|]. intros is_aborted.
    apply steady_if; [apply steady_ret|].
    apply steady_bind.
    { apply steady_if; [apply steady_emit | apply steady_ret]. }
    intros _. apply steady_if; [|apply IH].
    apply steady_bind; [apply Hk|]. intros _. apply steady_ret.
  - apply steady_bind; [apply steady_handleStopGenerating|]. intros _. apply IH.
  - apply steady_throw.
Qed.

Lemma steady_processMessageWithGemini (script : ModelScript) (cm : ChannelMessage) :
  steady (processMessageWithGemini JSON_stringify JSON_parse TAVILY_API_KEY fetch
            script cm).
Proof.
  induction script as [e|stream next IH]; cbn [processMessageWithGemini];
    (apply steady_bind; [apply steady_gets|]); intros ready;
    (apply steady_if; [apply steady_ret|]);
    (apply steady_bind; [apply steady_newAbortController|]); intros controller;
    (apply steady_bind;
       [apply steady_modify; intros s; apply grows_with_active|]); intros _;
    (apply steady_try_finally; [|apply steady_retire]);
    (apply steady_try_catch; [|intros error; apply steady_on_error]);
    (apply steady_bind; [apply steady_emit|]); intros _;
    (apply steady_bind; [apply steady_gets|]); intros messages;
    (apply steady_bind; [apply steady_emit|]); intros _.
  - apply steady_throw.
  - apply steady_bind.
    + apply steady_consume. intros pending.
      apply steady_handleToolCalls_then. exact IH.
    + intros [|messageText]; [apply steady_ret | apply steady_finish].
Qed.

End Growth.

(** ** Every generation ends, retires its controller and only grows the state *)

Lemma guarded_run (body : M State unit) (cm : ChannelMessage) (n : Controller)
    (s : State) :
  fst (try_finally (try_catch body (on_error cm)) (retire n) s) = Ok tt /\
  ~ In n (activeStreamControllers
            (snd (try_finally (try_catch body (on_error cm)) (retire n) s))).
Proof.
  assert (Hfilter : forall l, ~ In n (filter (fun c => negb (c =? n)%nat) l)).
  { intros l H. apply filter_In in H. destruct H as [_ H].
    now rewrite Nat.eqb_refl in H. }
  unfold try_finally, try_catch.
  destruct (body s) as [[[]|e] s1].
  - split; [reflexivity|]. apply Hfilter.
  - unfold on_error.
    destruct (negb (err_name e =? "AbortError"));
      (split; [reflexivity|]); apply Hfilter.
Qed.

Section Generation.

Variable JSON_stringify : json -> string.
Variable JSON_parse : string -> option json.
Variable TAVILY_API_KEY : option string.
Variable fetch : nat -> FetchRequest -> FetchOutcome.

Lemma processMessageWithGemini_shape (script : ModelScript) (cm : ChannelMessage)
    (s : State) :
  openai s = true ->
  exists body,
    processMessageWithGemini JSON_stringify JSON_parse TAVILY_API_KEY fetch script cm s =
    try_finally (try_catch body (on_error cm))
      (retire (List.length (controllers s))) (registered s).
Proof.
  intros Hopen.
  destruct script as [e|stream next]; cbn [processMessageWithGemini];
    unfold bind at 1; unfold gets at 1; rewrite Hopen; cbn [negb];
    unfold bind at 1; unfold newAbortController at 1;
    unfold bind at 1; unfold modify at 1;
    eexists; reflexivity.
Qed.

(** X4: whatever the model and the stream do (chunks, tool rounds, stop
    events, rejections), a generation never rejects; on an initialised agent
    it leaves the controller it allocated out of the active list; on an agent
    that is not initialised it does nothing at all. *)
Theorem generation_fulfils_and_retires (script : ModelScript) (cm : ChannelMessage)
    (s : State) :
  let run := processMessageWithGemini JSON_stringify JSON_parse TAVILY_API_KEY fetch
               script cm in
  outcome run s = Ok tt /\
  (openai s = true ->
   ~ In (List.length (controllers s)) (activeStreamControllers (exec run s))) /\
  (openai s = false -> run s = (Ok tt, s)).
Proof.
  cbv zeta. unfold outcome, exec.
  destruct (openai s) eqn:Hopen.
  - destruct (processMessageWithGemini_shape script cm s Hopen) as [body E].
    rewrite E.
    destruct (guarded_run body cm (List.length (controllers s)) (registered s))
      as [H1 H2].
    split; [exact H1|]. split; [intros _; exact H2 | discriminate].
  - assert (E : processMessageWithGemini JSON_stringify JSON_parse TAVILY_API_KEY
                  fetch script cm s = (Ok tt, s)).
    { destruct script; cbn [processMessageWithGemini];
        unfold bind, gets; rewrite Hopen; reflexivity. }
    rewrite E. split; [reflexivity|]. split; [discriminate|reflexivity].
Qed.

(** X5: whatever the model and the stream do, a generation leaves the agent
    initialised as it was and its time stamp as it was, only appends to the
    history (earlier turns, the system prompt among them, stay in place),
    only adds to the calls made, and never resets a controller that was
    aborted. *)
Theorem generation_only_grows (script : ModelScript) (cm : ChannelMessage) (s : State) :
  let s' := exec (processMessageWithGemini JSON_stringify JSON_parse TAVILY_API_KEY
                    fetch script cm) s in
  openai s' = openai s /\
  lastInteractionTs s' = lastInteractionTs s /\
  (exists turns, conversationHistory s' = conversationHistory s ++ turns) /\
  (exists effects, trace s' = trace s ++ effects) /\
  (List.length (controllers s) <= List.length (controllers s'))%nat /\
  (forall c, aborted c s = true -> aborted c s' = true).
Proof.
  exact (steady_processMessageWithGemini JSON_stringify JSON_parse TAVILY_API_KEY
           fetch script cm s).
Qed.

(** A generation whose stream rejects after a run of chunks: the whole of
    its effect. *)
Lemma failed_generation (cm : ChannelMessage) (chunks : list (Chunk * Z))
    (error : JsError) (rest : list StreamItem) (next : ModelScript) (s : State) :
  openai s = true ->
  no_tool_round chunks ->
  processMessageWithGemini JSON_stringify JSON_parse TAVILY_API_KEY fetch
    (CreateStream (stream_of chunks ++ SThrow error :: rest) next) cm s =
  (Ok tt,
   mkState true (conversationHistory s) (lastInteractionTs s)
     (filter (fun c => negb (c =? List.length (controllers s))%nat)
        (activeStreamControllers s ++ [List.length (controllers s)]))
     (controllers s ++ [false])
     (trace s ++
      [SendEvent (AiIndicatorUpdate AI_STATE_GENERATING (cm_cid cm) (cm_id cm));
       CreateCompletion (conversationHistory s)] ++
      map (PartialUpdateMessage (cm_id cm)) (snd (absorb chunks "" 0%Z)) ++
      reported cm error)).
Proof.
  intros Hopen Hno. destruct s as [ready history ts active cells effects].
  cbn [openai] in Hopen. subst ready.
  cbn [conversationHistory lastInteractionTs activeStreamControllers controllers trace].
  set (s := mkState true history ts active cells effects).
  assert (Hfresh : aborted (List.length cells) (started cm s) = false)
    by (unfold aborted, started; cbn [controllers];
        apply fresh_controller_not_aborted).
  rewrite processMessageWithGemini_stream by reflexivity.
  unfold try_finally, try_catch. unfold bind at 1.
  change (controllers s) with cells.
  rewrite consume_chunks by assumption.
  cbn [consume]. unfold throw at 1.
  unfold on_error, reported, error_text.
  destruct (err_name error =? "AbortError"); cbn [negb].
  - unfold ret at 1. unfold started, s. normalise_state.
    unfold retire, modify. normalise_state.
    f_equal. f_equal. rewrite app_nil_r, <- !app_assoc. reflexivity.
  - unfold handleStreamError. unfold bind at 1. unfold sendEvent, emit, modify.
    unfold started, s. normalise_state.
    unfold partialUpdateMessage, emit, modify. normalise_state.
    unfold retire, modify. normalise_state.
    f_equal. f_equal. rewrite <- !app_assoc. reflexivity.
Qed.

(** A generation whose completion request rejects. *)
Lemma rejected_generation (cm : ChannelMessage) (error : JsError) (s : State) :
  openai s = true ->
  processMessageWithGemini JSON_stringify JSON_parse TAVILY_API_KEY fetch
    (CreateRejects error) cm s =
  (Ok tt,
   mkState true (conversationHistory s) (lastInteractionTs s)
     (filter (fun c => negb (c =? List.length (controllers s))%nat)
        (activeStreamControllers s ++ [List.length (controllers s)]))
     (controllers s ++ [false])
     (trace s ++
      [SendEvent (AiIndicatorUpdate AI_STATE_GENERATING (cm_cid cm) (cm_id cm));
       CreateCompletion (conversationHistory s)] ++
      reported cm error)).
Proof.
  intros Hopen. destruct s as [ready history ts active cells effects].
  cbn [openai] in Hopen. subst ready.
  cbn [processMessageWithGemini].
  unfold bind at 1. unfold gets at 1. cbn [openai negb].
  unfold bind at 1. unfold newAbortController at 1.
  unfold bind at 1. unfold modify at 1.
  unfold try_finally, try_catch.
  unfold bind at 1. unfold sendEvent at 1, emit at 1, modify at 1.
  unfold bind at 1. unfold gets at 1.
  unfold bind at 1. unfold emit at 1, modify at 1.
  unfold throw at 1. normalise_state.
  unfold on_error, reported, error_text.
  destruct (err_name error =? "AbortError"); cbn [negb].
  - unfold ret at 1. unfold retire, modify. normalise_state.
    f_equal. f_equal. rewrite app_nil_r, <- !app_assoc. reflexivity.
  - unfold handleStreamError. unfold bind at 1. unfold sendEvent, emit, modify.
    normalise_state.
    unfold partialUpdateMessage, emit, modify. normalise_state.
    unfold retire, modify. normalise_state.
    f_equal. f_equal. rewrite <- !app_assoc. reflexivity.
Qed.

End Generation.

Section Failures.

Variable JSON_stringify : json -> string.
Variable JSON_parse : string -> option json.
Variable TAVILY_API_KEY : option string.
Variable fetch : nat -> FetchRequest -> FetchOutcome.

(** X6: an error that is not an AbortError, thrown by the stream after any run
    of chunks or by the completion request itself, is caught: the generation
    fulfils, the error indicator is sent once (and no clear), the message
    text is overwritten with the error's message (a fixed text when it has
    none), and no turn is appended to the history. *)
Theorem stream_error_is_reported (cm : ChannelMessage) (chunks : list (Chunk * Z))
    (error : JsError) (rest : list StreamItem) (next : ModelScript) (s : State) :
  openai s = true ->
  no_tool_round chunks ->
  (err_name error =? "AbortError") = false ->
  let streamed := processMessageWithGemini JSON_stringify JSON_parse TAVILY_API_KEY fetch
                    (CreateStream (stream_of chunks ++ SThrow error :: rest) next) cm in
  let rejected := processMessageWithGemini JSON_stringify JSON_parse TAVILY_API_KEY fetch
                    (CreateRejects error) cm in
  let generating := AiIndicatorUpdate AI_STATE_GENERATING (cm_cid cm) (cm_id cm) in
  let failed := AiIndicatorUpdate AI_STATE_ERROR (cm_cid cm) (cm_id cm) in
  (outcome streamed s = Ok tt /\
   conversationHistory (exec streamed s) = conversationHistory s /\
   events_of (added s (exec streamed s)) = [generating; failed] /\
   writes_of (added s (exec streamed s)) =
     snd (absorb chunks "" 0%Z) ++ [nullish (err_message error)
                                      "Error generating the message"]) /\
  (outcome rejected s = Ok tt /\
   conversationHistory (exec rejected s) = conversationHistory s /\
   events_of (added s (exec rejected s)) = [generating; failed] /\
   writes_of (added s (exec rejected s)) =
     [nullish (err_message error) "Error generating the message"]).
Proof.
  intros Hopen Hno Hname. cbv zeta. unfold outcome, exec.
  rewrite (@failed_generation JSON_stringify JSON_parse TAVILY_API_KEY fetch
             cm chunks error rest next s Hopen Hno).
  rewrite (@rejected_generation JSON_stringify JSON_parse TAVILY_API_KEY fetch
             cm error s Hopen).
  unfold reported, error_text. rewrite Hname. cbn [fst snd conversationHistory].
  repeat split.
  - erewrite added_app; [|reflexivity].
    rewrite !events_of_app, events_of_updates. reflexivity.
  - erewrite added_app; [|reflexivity].
    rewrite !writes_of_app, writes_of_updates. reflexivity.
  - erewrite added_app; [|reflexivity]. reflexivity.
  - erewrite added_app; [|reflexivity]. reflexivity.
Qed.

(** X7: an AbortError, thrown by the stream after any run of chunks or by the
    completion request itself, ends the generation silently: it fulfils,
    sends neither the error indicator nor a clear, writes nothing beyond the
    throttled partial updates already made, and appends no turn. *)
Theorem abort_error_ends_silently (cm : ChannelMessage) (chunks : list (Chunk * Z))
    (error : JsError) (rest : list StreamItem) (next : ModelScript) (s : State) :
  openai s = true ->
  no_tool_round chunks ->
  err_name error = "AbortError" ->
  let streamed := processMessageWithGemini JSON_stringify JSON_parse TAVILY_API_KEY fetch
                    (CreateStream (stream_of chunks ++ SThrow error :: rest) next) cm in
  let rejected := processMessageWithGemini JSON_stringify JSON_parse TAVILY_API_KEY fetch
                    (CreateRejects error) cm in
  let generating := AiIndicatorUpdate AI_STATE_GENERATING (cm_cid cm) (cm_id cm) in
  (outcome streamed s = Ok tt /\
   conversationHistory (exec streamed s) = conversationHistory s /\
   events_of (added s (exec streamed s)) = [generating] /\
   writes_of (added s (exec streamed s)) = snd (absorb chunks "" 0%Z)) /\
  (outcome rejected s = Ok tt /\
   conversationHistory (exec rejected s) = conversationHistory s /\
   events_of (added s (exec rejected s)) = [generating] /\
   writes_of (added s (exec rejected s)) = []).
Proof.
  intros Hopen Hno Hname. cbv zeta. unfold outcome, exec.
  rewrite (@failed_generation JSON_stringify JSON_parse TAVILY_API_KEY fetch
             cm chunks error rest next s Hopen Hno).
  rewrite (@rejected_generation JSON_stringify JSON_parse TAVILY_API_KEY fetch
             cm error s Hopen).
  unfold reported. rewrite Hname. cbn [String.eqb Ascii.eqb Bool.eqb fst snd
                                       conversationHistory].
  repeat split.
  - erewrite added_app; [|reflexivity].
    rewrite !events_of_app, events_of_updates. reflexivity.
  - erewrite added_app; [|reflexivity].
    rewrite !writes_of_app, writes_of_updates. cbn [writes_of app].
    now rewrite app_nil_r.
  - erewrite added_app; [|reflexivity]. reflexivity.
  - erewrite added_app; [|reflexivity]. reflexivity.
Qed.

(** X8: a stop event that carries no (or an empty) message id, arriving after
    any run of chunks, is transparent: the generation runs exactly as if the
    event had not been dispatched, whatever the stream holds further. *)
Theorem ignored_stop_is_transparent (cm : ChannelMessage) (chunks : list (Chunk * Z))
    (event : StopEvent) (rest : list StreamItem) (next : ModelScript) (s : State) :
  no_tool_round chunks ->
  absent_or_empty (stop_message_id event) ->
  processMessageWithGemini JSON_stringify JSON_parse TAVILY_API_KEY fetch
    (CreateStream (stream_of chunks ++ SStop event :: rest) next) cm s =
  processMessageWithGemini JSON_stringify JSON_parse TAVILY_API_KEY fetch
    (CreateStream (stream_of chunks ++ rest) next) cm s.
Proof.
  intros Hno Hid. destruct (openai s) eqn:Hopen.
  - assert (Hfresh : aborted (List.length (controllers s)) (started cm s) = false)
      by (unfold aborted, started; cbn [controllers];
          apply fresh_controller_not_aborted).
    rewrite !processMessageWithGemini_stream by assumption.
    unfold try_finally, try_catch. unfold bind.
    rewrite !consume_chunks by assumption.
    rewrite consume_stop. unfold bind.
    rewrite handleStopGenerating_ignored; [reflexivity|].
    left. now apply truthy_false_iff.
  - cbn [processMessageWithGemini]. unfold bind, gets. rewrite Hopen. reflexivity.
Qed.

End Failures.

Lemma generation_fulfils_and_retires_witness :
  let run := processMessageWithGemini Sample.stringify Sample.parse Sample.key
               Sample.fetch (Sample.tool_round "web_search" "{query:") Sample.m1 in
  ~ In 0%nat (activeStreamControllers (exec run Sample.ready)) /\
  processMessageWithGemini Sample.stringify Sample.parse Sample.key Sample.fetch
    (Sample.tool_round "web_search" "{query:") Sample.m1 (fresh 0) = (Ok tt, fresh 0).
Proof.
  cbv zeta. split.
  - exact (proj1 (proj2
      (@generation_fulfils_and_retires Sample.stringify Sample.parse Sample.key
         Sample.fetch (Sample.tool_round "web_search" "{query:") Sample.m1
         Sample.ready)) eq_refl).
  - exact (proj2 (proj2
      (@generation_fulfils_and_retires Sample.stringify Sample.parse Sample.key
         Sample.fetch (Sample.tool_round "web_search" "{query:") Sample.m1
         (fresh 0))) eq_refl).
Defined.

Lemma generation_only_grows_witness :
  let s := mkState true [SystemMsg "prompt"] 0 [] [true] [] in
  aborted 0 (exec (processMessageWithGemini Sample.stringify Sample.parse Sample.key
                     Sample.fetch (Sample.tool_round "web_search" "{query:") Sample.m1)
               s) = true.
Proof.
  cbv zeta.
  exact (proj2 (proj2 (proj2 (proj2 (proj2
    (@generation_only_grows Sample.stringify Sample.parse Sample.key Sample.fetch
       (Sample.tool_round "web_search" "{query:") Sample.m1
       (mkState true [SystemMsg "prompt"] 0 [] [true] []))))))
    0%nat eq_refl).
Defined.

Lemma stream_error_is_reported_witness :
  let error := mkError "APIError" None in
  let streamed := processMessageWithGemini Sample.stringify Sample.parse Sample.key
                    Sample.fetch
                    (CreateStream (stream_of Sample.hi ++ SThrow error :: [])
                       (CreateRejects error)) Sample.m1 in
  writes_of (added Sample.ready (exec streamed Sample.ready)) =
    ["Hi"; "Error generating the message"].
Proof.
  cbv zeta.
  refine (proj2 (proj2 (proj2 (proj1
    (@stream_error_is_reported Sample.stringify Sample.parse Sample.key Sample.fetch
       Sample.m1 Sample.hi (mkError "APIError" None) [] (CreateRejects (mkError "APIError" None))
       Sample.ready eq_refl _ eq_refl))))).
  unfold no_tool_round, Sample.hi. repeat constructor.
Defined.

Lemma abort_error_ends_silently_witness :
  let streamed := processMessageWithGemini Sample.stringify Sample.parse Sample.key
                    Sample.fetch
                    (CreateStream (stream_of Sample.hi ++ SThrow AbortError :: [])
                       (CreateRejects AbortError)) Sample.m1 in
  events_of (added Sample.ready (exec streamed Sample.ready)) = [Sample.generating].
Proof.
  cbv zeta.
  refine (proj1 (proj2 (proj2 (proj1
    (@abort_error_ends_silently Sample.stringify Sample.parse Sample.key Sample.fetch
       Sample.m1 Sample.hi AbortError [] (CreateRejects AbortError)
       Sample.ready eq_refl _ eq_refl))))).
  unfold no_tool_round, Sample.hi. repeat constructor.
Defined.

Lemma ignored_stop_is_transparent_witness :
  processMessageWithGemini Sample.stringify Sample.parse Sample.key Sample.fetch
    (CreateStream (stream_of Sample.hi ++ SStop (mkStopEvent None None)
                     :: stream_of Sample.hello)
       (CreateRejects AbortError)) Sample.m1 Sample.ready =
  processMessageWithGemini Sample.stringify Sample.parse Sample.key Sample.fetch
    (CreateStream (stream_of Sample.hi ++ stream_of Sample.hello)
       (CreateRejects AbortError)) Sample.m1 Sample.ready.
Proof.
  refine (@ignored_stop_is_transparent Sample.stringify Sample.parse Sample.key
            Sample.fetch Sample.m1 Sample.hi (mkStopEvent None None)
            (stream_of Sample.hello) (CreateRejects AbortError) Sample.ready _ _).
  - unfold no_tool_round, Sample.hi. repeat constructor.
  - left. reflexivity.
Defined.

(** ** Start-up, inbound messages and teardown *)

(** X1: [init] on a missing or empty Gemini key throws and leaves the agent
    exactly as it was (not initialised, no history, no subscription); with a
    key it marks the agent initialised, resets the history to the single
    system prompt for general writing assistance, and subscribes to
    message.new and then to ai_indicator.stop. *)
Theorem init_requires_key (GEMINI_API_KEY : option string) (currentDate : string)
    (s : State) :
  (absent_or_empty GEMINI_API_KEY ->
   init GEMINI_API_KEY currentDate s =
     (Throw (mkError "Error" (Some "Gemini API key is required")), s)) /\
  (forall k, GEMINI_API_KEY = Some k -> k <> "" ->
   let s' := exec (init GEMINI_API_KEY currentDate) s in
   outcome (init GEMINI_API_KEY currentDate) s = Ok tt /\
   openai s' = true /\
   conversationHistory s' =
     [SystemMsg (getWritingAssistantPrompt currentDate
                   (Some "General writing assistance."))] /\
   added s s' = [ChatOn "message.new"; ChatOn "ai_indicator.stop"] /\
   activeStreamControllers s' = activeStreamControllers s /\
   controllers s' = controllers s).
Proof.
  split.
  - intros H. apply truthy_false_iff in H. unfold init. now rewrite H.
  - intros k Hk Hne. cbv zeta. unfold init, outcome, exec.
    rewrite Hk. cbn [truthy]. apply String.eqb_neq in Hne. rewrite Hne. cbn [negb].
    unfold bind, modify, emit. cbn [fst snd].
    repeat split. apply added_app. unfold modify. cbn [snd].
    unfold with_trace at 1. cbn [trace].
    unfold with_trace. cbn [trace]. unfold with_history, with_openai. cbn [trace].
    now rewrite <- app_assoc.
Qed.

Lemma init_requires_key_witness :
  init None "January 1, 2026" (fresh 0) =
    (Throw (mkError "Error" (Some "Gemini API key is required")), fresh 0) /\
  openai (exec (init (Some "gemini-key") "January 1, 2026") (fresh 0)) = true.
Proof.
  split.
  - apply (proj1 (init_requires_key None "January 1, 2026" (fresh 0))).
    left. reflexivity.
  - refine (proj1 (proj2 (proj2 (init_requires_key (Some "gemini-key")
              "January 1, 2026" (fresh 0)) "gemini-key" eq_refl _))).
    discriminate.
Defined.

Section Messages.

Variable JSON_stringify : json -> string.
Variable JSON_parse : string -> option json.
Variable TAVILY_API_KEY : option string.
Variable fetch : nat -> FetchRequest -> FetchOutcome.

(** X2: a message.new event is dropped without any effect (no placeholder, no
    indicator, no change of the history or of the time stamp) when the agent
    is not initialised, when the event carries no message, when the message
    is flagged as generated by the agent, or when its text is absent or
    empty. *)
Theorem handleMessage_ignored (e : MessageEvent) (now : Z) (currentDate : string)
    (cm : ChannelMessage) (script : ModelScript) (s : State) :
  openai s = false \/
  message e = None \/
  (exists m, message e = Some m /\
             (ai_generated m = true \/ absent_or_empty (text m))) ->
  handleMessage JSON_stringify JSON_parse TAVILY_API_KEY fetch
    e now currentDate cm script s = (Ok tt, s).
Proof.
  intros H. unfold handleMessage. unfold bind at 1. unfold gets at 1.
  destruct (openai s); cbn [negb]; [|reflexivity].
  destruct H as [H | [H | (m & Hm & H)]]; [discriminate | now rewrite H |].
  rewrite Hm. destruct H as [H|H].
  - now rewrite H.
  - apply truthy_false_iff in H. rewrite H.
    destruct (ai_generated m); reflexivity.
Qed.

Lemma recordUserMessage_runs (now : Z) (currentDate : string) (m : NewMessage)
    (s : State) :
  recordUserMessage now currentDate m s =
    (Ok tt,
     mkState (openai s) (with_user_turn currentDate m (conversationHistory s)) now
       (activeStreamControllers s) (controllers s) (trace s)).
Proof.
  unfold recordUserMessage, with_user_turn, bind, modify, push, ret.
  destruct (truthy (writingTask m)); reflexivity.
Qed.

(** X3: an accepted user message answered by a stream of chunks without tool
    round: the handler fulfils; the time stamp becomes the reading taken;
    one empty placeholder flagged as generated is created; the channel sees
    thinking, generating, clear, all for the placeholder; the model is sent
    exactly the history after the user-turn append, which holds at most 21
    turns; the final text written is the concatenation of the deltas; and the
    history ends up as that appended history followed by the assistant
    turn. *)
Theorem handleMessage_text_exchange (m : NewMessage) (now : Z) (currentDate : string)
    (cm : ChannelMessage) (chunks : list (Chunk * Z)) (next : ModelScript) (s : State) :
  openai s = true ->
  ai_generated m = false ->
  truthy (text m) = true ->
  no_tool_round chunks ->
  let run := handleMessage JSON_stringify JSON_parse TAVILY_API_KEY fetch
               (mkMessageEvent (Some m)) now currentDate cm
               (CreateStream (stream_of chunks) next) in
  let sent := with_user_turn currentDate m (conversationHistory s) in
  let full := join (map (fun cn => chunk_text (fst cn)) chunks) in
  outcome run s = Ok tt /\
  outcome getLastInteraction (exec run s) = Ok now /\
  (List.length sent <= 21)%nat /\
  added s (exec run s) =
    [SendMessage "" true;
     SendEvent (AiIndicatorUpdate AI_STATE_THINKING (cm_cid cm) (cm_id cm));
     SendEvent (AiIndicatorUpdate AI_STATE_GENERATING (cm_cid cm) (cm_id cm));
     CreateCompletion sent] ++
    map (PartialUpdateMessage (cm_id cm)) (snd (absorb chunks "" 0%Z)) ++
    [PartialUpdateMessage (cm_id cm) full;
     SendEvent (AiIndicatorClear (Some (cm_cid cm)) (cm_id cm))] /\
  conversationHistory (exec run s) = sent ++ [AssistantMsg full].
Proof.
  intros Hopen Hgen Htext Hno. cbv zeta.
  pose proof (absorb_text chunks "" 0%Z) as Hfull. cbn [String.append] in Hfull.
  rewrite <- Hfull. clear Hfull.
  assert (Hlen : (List.length (with_user_turn currentDate m (conversationHistory s))
                  <= 21)%nat).
  { unfold with_user_turn.
    destruct (truthy (writingTask m)); destruct (conversationHistory s);
      cbn [set_first app]; apply trim_window. }
  assert (E : handleMessage JSON_stringify JSON_parse TAVILY_API_KEY fetch
                (mkMessageEvent (Some m)) now currentDate cm
                (CreateStream (stream_of chunks) next) s =
              (Ok tt,
               mkState true
                 (with_user_turn currentDate m (conversationHistory s) ++
                  [AssistantMsg (fst (fst (absorb chunks "" 0%Z)))])
                 now
                 (filter (fun c => negb (c =? List.length (controllers s))%nat)
                    (activeStreamControllers s ++ [List.length (controllers s)]))
                 (controllers s ++ [false])
                 (trace s ++
                  [SendMessage "" true;
                   SendEvent (AiIndicatorUpdate AI_STATE_THINKING (cm_cid cm) (cm_id cm));
                   SendEvent (AiIndicatorUpdate AI_STATE_GENERATING (cm_cid cm) (cm_id cm));
                   CreateCompletion (with_user_turn currentDate m (conversationHistory s))] ++
                  map (PartialUpdateMessage (cm_id cm)) (snd (absorb chunks "" 0%Z)) ++
                  [PartialUpdateMessage (cm_id cm) (fst (fst (absorb chunks "" 0%Z)));
                   SendEvent (AiIndicatorClear (Some (cm_cid cm)) (cm_id cm))]))).
  { unfold handleMessage. unfold bind at 1. unfold gets at 1.
    rewrite Hopen. cbn [negb message]. rewrite Hgen, Htext. cbn [negb].
    unfold bind at 1. rewrite recordUserMessage_runs.
    unfold bind at 1. unfold emit at 1, modify at 1.
    unfold bind at 1. unfold sendEvent at 1, emit at 1, modify at 1.
    rewrite generation_of_chunks; [| now rewrite Hopen | exact Hno].
    rewrite Hopen. unfold with_trace.
    cbn [trace openai conversationHistory lastInteractionTs
         activeStreamControllers controllers].
    f_equal. f_equal. rewrite <- !app_assoc. reflexivity. }
  unfold outcome, exec. rewrite E. cbn [fst snd conversationHistory].
  repeat split; auto.
  apply added_app. reflexivity.
Qed.

End Messages.

Lemma handleMessage_ignored_witness :
  handleMessage Sample.stringify Sample.parse Sample.key Sample.fetch
    (mkMessageEvent (Some (mkNewMessage true (Some "echo") None))) 1000
    "January 1, 2026" Sample.m1 (CreateRejects AbortError) Sample.ready
  = (Ok tt, Sample.ready).
Proof.
  apply (@handleMessage_ignored Sample.stringify Sample.parse Sample.key Sample.fetch).
  right. right. eexists. split; [reflexivity|]. left. reflexivity.
Defined.

Lemma handleMessage_text_exchange_witness :
  conversationHistory (Sample.exchange Sample.initialised) =
    Invariant.with_user_turn "January 1, 2026" (mkNewMessage false (Some "hi") None)
      (conversationHistory Sample.initialised) ++ [AssistantMsg "Hi"].
Proof.
  refine (proj2 (proj2 (proj2 (proj2
    (@handleMessage_text_exchange Sample.stringify Sample.parse Sample.key Sample.fetch
       (mkNewMessage false (Some "hi") None) 1000%Z "January 1, 2026" Sample.m1
       Sample.hi (CreateRejects AbortError) Sample.initialised
       eq_refl eq_refl eq_refl _))))).
  unfold no_tool_round, Sample.hi. repeat constructor.
Defined.

(** X9: [dispose] fulfils; it unsubscribes from message.new and from
    ai_indicator.stop, disconnects the user, in this order, and sends no
    channel event; afterwards no generation is registered and every
    controller that was registered is aborted; the history is untouched and
    the agent stays initialised. *)
Theorem dispose_stops_everything (s : State) :
  let s' := exec dispose s in
  outcome dispose s = Ok tt /\
  added s s' = [ChatOff "message.new"; ChatOff "ai_indicator.stop"; DisconnectUser] /\
  activeStreamControllers s' = [] /\
  (forall c, In c (activeStreamControllers s) ->
             (c < List.length (controllers s))%nat -> aborted c s' = true) /\
  conversationHistory s' = conversationHistory s /\
  openai s' = openai s.
Proof.
  cbv zeta. unfold outcome, exec. rewrite dispose_runs. cbn [fst snd].
  set (s1 := with_trace _ s).
  destruct (abort_each_fields (activeStreamControllers s) s1)
    as (H1 & H2 & H3 & H4 & H5 & H6).
  repeat split; auto.
  - apply added_app. cbn [trace with_active]. rewrite H5. reflexivity.
  - intros c Hin Hlt. unfold aborted. cbn [controllers with_active].
    now apply (@abort_each_aborts (activeStreamControllers s) s1 c).
Qed.

Lemma dispose_stops_everything_witness :
  aborted 0 (exec dispose (mkState true [SystemMsg "prompt"] 0 [0%nat] [false] [])) = true.
Proof.
  refine (proj1 (proj2 (proj2 (proj2
    (dispose_stops_everything (mkState true [SystemMsg "prompt"] 0 [0%nat] [false] [])))))
    0%nat _ _).
  - left. reflexivity.
  - simpl. lia.
Defined.

(** ** The agent's web search *)

(** X10: the contract of the agent's search.  Without a credential (absent
    or empty) it makes no request and changes nothing.  With a credential and
    a query that the log line before the [try] cannot print (a parsed object
    with an own [toString] property, or an array holding one), it rejects
    with a [TypeError] where the claim of the method is never to reject, and
    makes no request.  For every other query, a string in particular, it
    never rejects and always returns a serialised value; with a credential it
    makes exactly one request, a POST to the Tavily search URL carrying the
    credential as bearer token, and returns: the fixed exception payload when
    [fetch] rejects, when reading the text of a response that is not ok
    rejects, or when the body of a successful response does not parse; the
    failure payload with the status and the body text when the response is
    not ok; and the provider's parsed payload when it is. *)
Theorem agent_search_contract (JSON_stringify : json -> string)
    (TAVILY_API_KEY : option string) (fetch : nat -> FetchRequest -> FetchOutcome)
    (query : option json) (s : State) :
  let search := performWebSearch JSON_stringify TAVILY_API_KEY fetch query in
  (absent_or_empty TAVILY_API_KEY ->
   search s = (Ok (JSON_stringify not_configured), s)) /\
  (forall k, TAVILY_API_KEY = Some k -> k <> "" ->
   printable_query query = false ->
   search s = (Throw unprintable, s)) /\
  (forall text, query = Some (JStr text) -> printable_query query = true) /\
  (printable_query query = true ->
   exists v, outcome search s = Ok (JSON_stringify v)) /\
  (forall k, TAVILY_API_KEY = Some k -> k <> "" ->
   printable_query query = true ->
   let req := search_request JSON_stringify k query in
   added s (exec search s) = [Fetch req] /\
   url req = "https://api.tavily.com/search" /\
   method req = "POST" /\
   In ("Authorization", String.append "Bearer " k) (headers req) /\
   outcome search s =
     Ok (JSON_stringify
           match fetch (List.length (filter is_fetch (trace s))) req with
           | FetchRejects _ => exception_payload
           | FetchResponse false status (Some details) _ =>
               failure_payload status details
           | FetchResponse false _ None _ => exception_payload
           | FetchResponse true _ _ (Some data) => data
           | FetchResponse true _ _ None => exception_payload
           end)).
Proof.
  cbv zeta. split; [|split; [|split; [|split]]].
  - apply performWebSearch_no_key.
  - intros k Hk Hne Hq. now apply performWebSearch_unprintable with (k := k).
  - intros text ->. reflexivity.
  - apply performWebSearch_fulfils.
  - intros k Hk Hne Hq.
    pose proof (@performWebSearch_with_key JSON_stringify TAVILY_API_KEY fetch
                  query s k Hk Hne Hq) as H. cbv zeta in H.
    unfold exec, outcome. rewrite H. cbn [fst snd].
    split; [apply added_app; reflexivity|].
    repeat split. right. left. reflexivity.
Qed.

Lemma agent_search_contract_witness :
  performWebSearch Sample.stringify None Sample.fetch None Sample.ready =
    (Ok (Sample.stringify not_configured), Sample.ready) /\
  performWebSearch Sample.stringify Sample.key Sample.fetch
    (Some (JObj [("toString", JNum 1)])) Sample.ready =
    (Throw unprintable, Sample.ready) /\
  added Sample.ready
    (exec (performWebSearch Sample.stringify Sample.key Sample.fetch
             (Some (JStr "weather in Paris"))) Sample.ready) =
    [Fetch (search_request Sample.stringify "tvly-key" (Some (JStr "weather in Paris")))].
Proof.
  split; [|split].
  - apply (proj1 (agent_search_contract Sample.stringify None Sample.fetch
                    None Sample.ready)).
    left. reflexivity.
  - refine (proj1 (proj2 (agent_search_contract Sample.stringify Sample.key
              Sample.fetch (Some (JObj [("toString", JNum 1)])) Sample.ready))
              "tvly-key" eq_refl _ eq_refl).
    discriminate.
  - refine (proj1 (proj2 (proj2 (proj2 (proj2
              (agent_search_contract Sample.stringify Sample.key
                 Sample.fetch (Some (JStr "weather in Paris")) Sample.ready))))
              "tvly-key" eq_refl _ eq_refl)).
    discriminate.
Defined.

(** ** The shape of the pending array and of the trimmed history *)









(** X13: trimming keeps a history of at most 21 turns as it is, never leaves
    more than 21, and trimming twice is trimming once. *)
Theorem trim_idempotent (history : list ChatMessage) :
  (List.length (trim history) <= 21)%nat /\
  ((List.length history <= 21)%nat -> trim history = history) /\
  trim (trim history) = trim history.
Proof.
  assert (Hkeep : forall h, (List.length h <= 21)%nat -> trim h = h).
  { intros h H. unfold trim. apply Nat.ltb_ge in H. now rewrite H. }
  assert (Hlen : (List.length (trim history) <= 21)%nat).
  { destruct history as [|first others]; [cbn; lia | apply trim_window]. }
  split; [exact Hlen|]. split; [apply Hkeep|]. now apply Hkeep.
Qed.

Lemma trim_idempotent_witness :
  trim [SystemMsg "prompt"; UserMsg "hi"] = [SystemMsg "prompt"; UserMsg "hi"].
Proof.
  apply (proj1 (proj2 (trim_idempotent [SystemMsg "prompt"; UserMsg "hi"]))).
  simpl. lia.
Defined.

(** ** A tool round on an array with a hole *)

Section SparseToolRound.

Variable JSON_stringify : json -> string.
Variable JSON_parse : string -> option json.
Variable TAVILY_API_KEY : option string.
Variable fetch : nat -> FetchRequest -> FetchOutcome.




End SparseToolRound.


(** ** The response handler *)

Ltac normalise_handler :=
  lazy beta iota zeta delta
    [OpenAIResponseHandler.with_message_text OpenAIResponseHandler.with_chunk_counter
     OpenAIResponseHandler.with_run_id OpenAIResponseHandler.with_is_done
     OpenAIResponseHandler.with_last_update_time OpenAIResponseHandler.with_trace
     OpenAIResponseHandler.message_text OpenAIResponseHandler.chunk_counter
     OpenAIResponseHandler.run_id OpenAIResponseHandler.is_done
     OpenAIResponseHandler.last_update_time OpenAIResponseHandler.trace].

(** X14: a stop event for the handler's own message, on a handler that is not
    done and whose run has been created: the run is cancelled on the
    handler's thread, one clear is sent for the handler's message, the handler
    unsubscribes, calls its dispose callback and is done; the accumulated text
    and the run id are kept.  Before the run is created (empty run id) a stop
    event is ignored, matching or not: nothing is cancelled and no clear is
    sent.  So a run created with id [r] and then stopped is cancelled under
    that id. *)
Theorem handler_stop_cancels_run (message : OpenAIResponseHandler.MessageResponse)
    (thread : string) (event : StopEvent) (hs : OpenAIResponseHandler.State) :
  let stop := OpenAIResponseHandler.handleStopGenerating message thread event in
  let wound_up :=
    [OpenAIResponseHandler.SendEvent
       (AiIndicatorClear (Some (OpenAIResponseHandler.cid message))
          (OpenAIResponseHandler.id message));
     OpenAIResponseHandler.ChatOff "ai_indicator.stop";
     OpenAIResponseHandler.OnDispose] in
  (OpenAIResponseHandler.run_id hs = "" -> stop hs = (Ok tt, hs)) /\
  (OpenAIResponseHandler.is_done hs = false ->
   stop_message_id event = Some (OpenAIResponseHandler.id message) ->
   OpenAIResponseHandler.run_id hs <> "" ->
   stop hs =
     (Ok tt,
      OpenAIResponseHandler.mkState
        (OpenAIResponseHandler.message_text hs) (OpenAIResponseHandler.chunk_counter hs)
        (OpenAIResponseHandler.run_id hs) true (OpenAIResponseHandler.last_update_time hs)
        (OpenAIResponseHandler.trace hs ++
         OpenAIResponseHandler.CancelRun (OpenAIResponseHandler.run_id hs) thread
         :: wound_up))) /\
  (forall r now,
     OpenAIResponseHandler.is_done hs = false ->
     stop_message_id event = Some (OpenAIResponseHandler.id message) ->
     r <> "" ->
     OpenAIResponseHandler.trace
       (exec stop
          (exec (OpenAIResponseHandler.handleStreamEvent message
                   (OpenAIResponseHandler.ThreadRunCreated r) now) hs)) =
     OpenAIResponseHandler.trace hs ++
     OpenAIResponseHandler.CancelRun r thread :: wound_up).
Proof.
  cbv zeta.
  assert (Hstop : forall h,
            OpenAIResponseHandler.is_done h = false ->
            stop_message_id event = Some (OpenAIResponseHandler.id message) ->
            OpenAIResponseHandler.run_id h <> "" ->
            OpenAIResponseHandler.handleStopGenerating message thread event h =
            (Ok tt,
             OpenAIResponseHandler.mkState
               (OpenAIResponseHandler.message_text h)
               (OpenAIResponseHandler.chunk_counter h)
               (OpenAIResponseHandler.run_id h) true
               (OpenAIResponseHandler.last_update_time h)
               (OpenAIResponseHandler.trace h ++
                [OpenAIResponseHandler.CancelRun (OpenAIResponseHandler.run_id h) thread;
                 OpenAIResponseHandler.SendEvent
                   (AiIndicatorClear (Some (OpenAIResponseHandler.cid message))
                      (OpenAIResponseHandler.id message));
                 OpenAIResponseHandler.ChatOff "ai_indicator.stop";
                 OpenAIResponseHandler.OnDispose]))).
  { intros [mt cc rid done lut tr] Hd Hid Hr.
    cbn [OpenAIResponseHandler.is_done OpenAIResponseHandler.run_id] in Hd, Hr.
    subst done. apply String.eqb_neq in Hr.
    unfold OpenAIResponseHandler.handleStopGenerating.
    unfold bind at 1. unfold gets at 1.
    cbn [OpenAIResponseHandler.is_done orb].
    unfold OpenAIResponseHandler.same_id. rewrite Hid, String.eqb_refl. cbn [negb].
    unfold bind at 1. unfold gets at 1. cbn [OpenAIResponseHandler.run_id truthy].
    rewrite Hr. cbn [negb].
    unfold OpenAIResponseHandler.cancel_run, OpenAIResponseHandler.dispose,
      OpenAIResponseHandler.emit, bind, gets, modify, ret.
    normalise_handler. rewrite <- !app_assoc. reflexivity. }
  split; [|split].
  - intros Hr. unfold OpenAIResponseHandler.handleStopGenerating, bind, gets, ret.
    cbv beta iota.
    destruct (OpenAIResponseHandler.is_done hs
              || negb (OpenAIResponseHandler.same_id (stop_message_id event)
                         (OpenAIResponseHandler.id message))); [reflexivity|].
    rewrite Hr. reflexivity.
  - apply Hstop.
  - intros r now Hd Hid Hr. unfold exec at 2.
    cbn [OpenAIResponseHandler.handleStreamEvent modify snd].
    unfold exec. rewrite Hstop; auto.
Qed.

Lemma handler_stop_cancels_run_witness :
  let message := OpenAIResponseHandler.mkMessageResponse "m1" "messaging:room" in
  let event := mkStopEvent (Some "m1") None in
  OpenAIResponseHandler.handleStopGenerating message "thread_1" event
    OpenAIResponseHandler.construct = (Ok tt, OpenAIResponseHandler.construct) /\
  OpenAIResponseHandler.trace
    (exec (OpenAIResponseHandler.handleStopGenerating message "thread_1" event)
       (exec (OpenAIResponseHandler.handleStreamEvent message
                (OpenAIResponseHandler.ThreadRunCreated "run_1") 5000)
          OpenAIResponseHandler.construct)) =
  [OpenAIResponseHandler.ChatOn "ai_indicator.stop";
   OpenAIResponseHandler.CancelRun "run_1" "thread_1";
   OpenAIResponseHandler.SendEvent (AiIndicatorClear (Some "messaging:room") "m1");
   OpenAIResponseHandler.ChatOff "ai_indicator.stop";
   OpenAIResponseHandler.OnDispose].
Proof.
  cbv zeta. split.
  - exact (proj1 (handler_stop_cancels_run
             (OpenAIResponseHandler.mkMessageResponse "m1" "messaging:room")
             "thread_1" (mkStopEvent (Some "m1") None)
             OpenAIResponseHandler.construct) eq_refl).
  - refine (proj2 (proj2 (handler_stop_cancels_run
             (OpenAIResponseHandler.mkMessageResponse "m1" "messaging:room")
             "thread_1" (mkStopEvent (Some "m1") None)
             OpenAIResponseHandler.construct)) "run_1" 5000%Z eq_refl eq_refl _).
    discriminate.
Defined.

(** X15: a stream error on a handler that is not done sends the error
    indicator, overwrites the message text with the error's message (a fixed
    text when it has none) together with the error's string form, unsubscribes
    and calls the dispose callback; the handler is then done, and being done
    is final for these three: a further stream error, any stop event and
    [dispose] change nothing and send nothing. *)
Theorem handler_error_is_terminal (message : OpenAIResponseHandler.MessageResponse)
    (error : JsError) (error_toString : string) (hs : OpenAIResponseHandler.State) :
  let fail := OpenAIResponseHandler.handleStreamError message error error_toString in
  (OpenAIResponseHandler.is_done hs = false ->
   fail hs =
     (Ok tt,
      OpenAIResponseHandler.mkState
        (OpenAIResponseHandler.message_text hs) (OpenAIResponseHandler.chunk_counter hs)
        (OpenAIResponseHandler.run_id hs) true (OpenAIResponseHandler.last_update_time hs)
        (OpenAIResponseHandler.trace hs ++
         [OpenAIResponseHandler.SendEvent
            (AiIndicatorUpdate AI_STATE_ERROR (OpenAIResponseHandler.cid message)
               (OpenAIResponseHandler.id message));
          OpenAIResponseHandler.PartialUpdateMessage (OpenAIResponseHandler.id message)
            (nullish (err_message error) "ErrorGenerating The Message")
            (Some error_toString);
          OpenAIResponseHandler.ChatOff "ai_indicator.stop";
          OpenAIResponseHandler.OnDispose]))) /\
  (OpenAIResponseHandler.is_done hs = true ->
   fail hs = (Ok tt, hs) /\
   OpenAIResponseHandler.dispose hs = (Ok tt, hs) /\
   forall thread event,
     OpenAIResponseHandler.handleStopGenerating message thread event hs = (Ok tt, hs)) /\
  OpenAIResponseHandler.is_done (exec fail hs) = true.
Proof.
  cbv zeta. destruct hs as [mt cc rid done lut tr].
  cbn [OpenAIResponseHandler.is_done OpenAIResponseHandler.message_text
       OpenAIResponseHandler.chunk_counter OpenAIResponseHandler.run_id
       OpenAIResponseHandler.last_update_time OpenAIResponseHandler.trace].
  split; [|split].
  - intros ->.
    unfold OpenAIResponseHandler.handleStreamError, OpenAIResponseHandler.dispose,
      OpenAIResponseHandler.emit, bind, gets, modify, ret.
    normalise_handler. rewrite <- !app_assoc. reflexivity.
  - intros ->. split; [reflexivity|]. split; [reflexivity|].
    intros thread event. reflexivity.
  - unfold exec, OpenAIResponseHandler.handleStreamError, OpenAIResponseHandler.dispose,
      OpenAIResponseHandler.emit, bind, gets, modify, ret.
    destruct done; normalise_handler; reflexivity.
Qed.

Lemma handler_error_is_terminal_witness :
  let message := OpenAIResponseHandler.mkMessageResponse "m1" "messaging:room" in
  let failed := exec (OpenAIResponseHandler.handleStreamError message
                        (mkError "APIError" None) "APIError") OpenAIResponseHandler.construct in
  OpenAIResponseHandler.trace failed =
    [OpenAIResponseHandler.ChatOn "ai_indicator.stop";
     OpenAIResponseHandler.SendEvent (AiIndicatorUpdate AI_STATE_ERROR "messaging:room" "m1");
     OpenAIResponseHandler.PartialUpdateMessage "m1" "ErrorGenerating The Message"
       (Some "APIError");
     OpenAIResponseHandler.ChatOff "ai_indicator.stop";
     OpenAIResponseHandler.OnDispose] /\
  OpenAIResponseHandler.dispose failed = (Ok tt, failed).
Proof.
  cbv zeta. split.
  - exact (f_equal (fun r => OpenAIResponseHandler.trace (snd r))
             (proj1 (handler_error_is_terminal
                (OpenAIResponseHandler.mkMessageResponse "m1" "messaging:room")
                (mkError "APIError" None) "APIError" OpenAIResponseHandler.construct)
                eq_refl)).
  - exact (proj1 (proj2 (proj1 (proj2 (handler_error_is_terminal
             (OpenAIResponseHandler.mkMessageResponse "m1" "messaging:room")
             (mkError "APIError" None) "APIError"
             (exec (OpenAIResponseHandler.handleStreamError
                      (OpenAIResponseHandler.mkMessageResponse "m1" "messaging:room")
                      (mkError "APIError" None) "APIError")
                OpenAIResponseHandler.construct))) eq_refl))).
Defined.

Lemma or_else_empty (v : string) : or_else (Some v) "" = v.
Proof.
  unfold or_else. simpl. destruct (String.eqb_spec v ""); simpl; congruence.
Qed.

(** One text delta: the text grows by the value, the counter by one, and
    the text is written when more than 1000 ms passed since the last
    write. *)
Lemma handler_delta_step (message : OpenAIResponseHandler.MessageResponse)
    (v : string) (now : Z) (hs : OpenAIResponseHandler.State) :
  let flush := (now - OpenAIResponseHandler.last_update_time hs >? 1000)%Z in
  let full := String.append (OpenAIResponseHandler.message_text hs) v in
  OpenAIResponseHandler.handleStreamEvent message (text_delta v) now hs =
    (Ok tt,
     OpenAIResponseHandler.mkState full
       (OpenAIResponseHandler.chunk_counter hs + 1)
       (OpenAIResponseHandler.run_id hs) (OpenAIResponseHandler.is_done hs)
       (if flush then now else OpenAIResponseHandler.last_update_time hs)
       (OpenAIResponseHandler.trace hs ++
        if flush
        then [OpenAIResponseHandler.PartialUpdateMessage
                (OpenAIResponseHandler.id message) full None]
        else [])).
Proof.
  cbv zeta. destruct hs as [mt cc rid done lut tr].
  unfold text_delta, OpenAIResponseHandler.handleStreamEvent.
  cbn [String.eqb Ascii.eqb Bool.eqb andb OpenAIResponseHandler.value].
  rewrite or_else_empty.
  unfold bind at 1. unfold modify at 1.
  unfold bind at 1. unfold gets at 1.
  normalise_handler.
  destruct (now - lut >? 1000)%Z.
  - unfold OpenAIResponseHandler.emit, bind, gets, modify. normalise_handler.
    reflexivity.
  - unfold bind, ret, modify. normalise_handler. now rewrite app_nil_r.
Qed.

Lemma handler_run_cons (message : OpenAIResponseHandler.MessageResponse)
    (v : string) (now : Z) (deltas : list (string * Z))
    (hs : OpenAIResponseHandler.State) :
  handler_run message (map (fun d => (text_delta (fst d), snd d)) ((v, now) :: deltas)) hs =
  handler_run message (map (fun d => (text_delta (fst d), snd d)) deltas)
    (snd (OpenAIResponseHandler.handleStreamEvent message (text_delta v) now hs)).
Proof. reflexivity. Qed.

Lemma handler_added_app (hs hs' : OpenAIResponseHandler.State)
    (l : list OpenAIResponseHandler.Effect) :
  OpenAIResponseHandler.trace hs' = OpenAIResponseHandler.trace hs ++ l ->
  handler_added hs hs' = l.
Proof. intros H. unfold handler_added. rewrite H. apply skipn_exact. Qed.

(** The handler's trace after a run of text deltas is the old one followed
    by partial updates only; writes after a write at [last_update_time] are
    more than 1000 ms apart, so [n] of them need readings up to
    [last_update_time + 1001 * n], and with all readings in [lo, hi], [n >= 1]
    of them need [lo + 1001 * (n - 1) <= hi]. *)
Lemma handler_run_writes (message : OpenAIResponseHandler.MessageResponse)
    (deltas : list (string * Z)) (lo hi : Z) :
  Forall (fun d => (lo <= snd d <= hi)%Z) deltas ->
  forall hs,
  exists writes,
    OpenAIResponseHandler.trace
      (handler_run message (map (fun d => (text_delta (fst d), snd d)) deltas) hs) =
    OpenAIResponseHandler.trace hs ++
    map (fun w => OpenAIResponseHandler.PartialUpdateMessage
                    (OpenAIResponseHandler.id message) w None) writes /\
    (Z.of_nat (List.length writes) = 0 \/
     OpenAIResponseHandler.last_update_time hs + 1001 * Z.of_nat (List.length writes)
       <= hi)%Z /\
    (Z.of_nat (List.length writes) = 0 \/
     lo + 1001 * (Z.of_nat (List.length writes) - 1) <= hi)%Z.
Proof.
  induction 1 as [|[v now] deltas Hnow Hrest IH]; intros hs.
  - exists []. cbn. rewrite app_nil_r. auto.
  - rewrite handler_run_cons.
    pose proof (handler_delta_step message v now hs) as Hstep. cbv zeta in Hstep.
    rewrite Hstep. cbn [snd] in *.
    match goal with
    | |- context [handler_run _ _ ?h] => destruct (IH h) as (ws & Htr & Hlast & Hwin)
    end.
    cbn [OpenAIResponseHandler.trace OpenAIResponseHandler.last_update_time] in Htr, Hlast.
    destruct (now - OpenAIResponseHandler.last_update_time hs >? 1000)%Z eqn:F.
    + apply Z.gtb_lt in F.
      exists (String.append (OpenAIResponseHandler.message_text hs) v :: ws).
      split; [|split].
      * rewrite Htr, <- app_assoc. reflexivity.
      * right. cbn [List.length]. destruct Hlast; lia.
      * right. cbn [List.length]. destruct Hlast; lia.
    + exists ws. split; [|split].
      * rewrite Htr, app_nil_r. reflexivity.
      * exact Hlast.
      * exact Hwin.
Qed.

(** X16: whatever the clock, a run of text deltas leaves [message_text] as the
    old text followed by the concatenation of the values, and adds only
    partial updates to the trace; when all readings lie within a window of T
    milliseconds these number at most max(1, ceil(T / 1000)), at most
    ceil(T / 1000) when T > 0. *)
Theorem handler_partial_updates_bounded
    (message : OpenAIResponseHandler.MessageResponse)
    (deltas : list (string * Z)) (t0 T : Z) (hs : OpenAIResponseHandler.State) :
  Forall (fun d => (t0 <= snd d <= t0 + T)%Z) deltas ->
  let after := handler_run message (map (fun d => (text_delta (fst d), snd d)) deltas) hs in
  OpenAIResponseHandler.message_text after =
    String.append (OpenAIResponseHandler.message_text hs) (join (map fst deltas)) /\
  exists writes,
    handler_added hs after =
      map (fun w => OpenAIResponseHandler.PartialUpdateMessage
                      (OpenAIResponseHandler.id message) w None) writes /\
    (Z.of_nat (List.length writes) <= Z.max 1 (ceil_seconds T))%Z /\
    (0 < T -> Z.of_nat (List.length writes) <= ceil_seconds T)%Z.
Proof.
  intros Hwin. cbv zeta. split; [apply handler_text_is_concatenation|].
  destruct (@handler_run_writes message deltas t0 (t0 + T)%Z Hwin hs)
    as (writes & Htr & _ & Hn).
  exists writes. split; [now apply handler_added_app|].
  assert (Hmax : (Z.of_nat (List.length writes) <= Z.max 1 (ceil_seconds T))%Z).
  { unfold ceil_seconds. destruct Hn as [Hn|Hn]; [lia|].
    destruct (Z.le_gt_cases (Z.of_nat (List.length writes)) 1) as [Hle|Hgt]; [lia|].
    apply Z.max_le_iff. right. apply Z.div_le_lower_bound; lia. }
  split; [exact Hmax|]. intros HT.
  assert (1 <= ceil_seconds T)%Z.
  { unfold ceil_seconds. apply Z.div_le_lower_bound; lia. }
  lia.
Qed.

Lemma handler_partial_updates_bounded_witness :
  let message := OpenAIResponseHandler.mkMessageResponse "m1" "messaging:room" in
  let deltas := [("Hel", 5000%Z); ("lo", 5400%Z); ("!", 7000%Z)] in
  OpenAIResponseHandler.message_text
    (handler_run message (map (fun d => (text_delta (fst d), snd d)) deltas)
       OpenAIResponseHandler.construct) = "Hello!".
Proof.
  cbv zeta.
  refine (proj1 (@handler_partial_updates_bounded
            (OpenAIResponseHandler.mkMessageResponse "m1" "messaging:room")
            [("Hel", 5000%Z); ("lo", 5400%Z); ("!", 7000%Z)] 5000%Z 2000%Z
            OpenAIResponseHandler.construct _)).
  repeat constructor; simpl; lia.
Defined.

(** X17: [thread.message.completed], after any run of text deltas and whether
    or not the handler is done: when the completed message's first content is
    text, that text is written (not the accumulated one); when it is of
    another type, the accumulated text, which is the concatenation of the
    deltas, is written; either way one clear follows; when the content array
    is empty the handler throws a TypeError and sends nothing. *)
Theorem handler_completion (message : OpenAIResponseHandler.MessageResponse)
    (deltas : list (string * Z)) (now : Z) (hs : OpenAIResponseHandler.State) :
  let after := handler_run message (map (fun d => (text_delta (fst d), snd d)) deltas) hs in
  let full := String.append (OpenAIResponseHandler.message_text hs) (join (map fst deltas)) in
  let complete c := OpenAIResponseHandler.handleStreamEvent message
                      (OpenAIResponseHandler.ThreadMessageCompleted c) now in
  let clear := OpenAIResponseHandler.SendEvent
                 (AiIndicatorClear (Some (OpenAIResponseHandler.cid message))
                    (OpenAIResponseHandler.id message)) in
  (forall v,
     outcome (complete (Some (OpenAIResponseHandler.TextContent v))) after = Ok tt /\
     handler_added after (exec (complete (Some (OpenAIResponseHandler.TextContent v))) after) =
       [OpenAIResponseHandler.PartialUpdateMessage (OpenAIResponseHandler.id message) v None;
        clear]) /\
  (forall type,
     outcome (complete (Some (OpenAIResponseHandler.OtherContent type))) after = Ok tt /\
     handler_added after
       (exec (complete (Some (OpenAIResponseHandler.OtherContent type))) after) =
       [OpenAIResponseHandler.PartialUpdateMessage (OpenAIResponseHandler.id message)
          full None;
        clear]) /\
  complete None after =
    (Throw (TypeError "Cannot read properties of undefined (reading 'type')"), after).
Proof.
  cbv zeta.
  pose proof (handler_text_is_concatenation message deltas hs) as Htext.
  set (after := handler_run message _ hs) in *.
  split; [|split].
  - intros v.
    unfold outcome, exec, OpenAIResponseHandler.handleStreamEvent,
      OpenAIResponseHandler.emit, bind, gets, modify. cbn [fst snd].
    split; [reflexivity|]. apply handler_added_app.
    destruct after. cbn. now rewrite <- app_assoc.
  - intros type.
    unfold outcome, exec, OpenAIResponseHandler.handleStreamEvent,
      OpenAIResponseHandler.emit, bind, gets, modify. cbn [fst snd].
    split; [reflexivity|]. apply handler_added_app.
    rewrite <- Htext. destruct after. cbn. now rewrite <- app_assoc.
  - reflexivity.
Qed.

(** * The streamed text and its throttle, for every stream *)

(** ** The agent's loop on any stream *)

Lemma handleStopGenerating_writes_nothing (event : StopEvent) (s : State) :
  exists s' fs,
    handleStopGenerating event s = (Ok tt, s') /\
    trace s' = trace s ++ fs /\ writes_of fs = [].
Proof.
  destruct (handleStopGenerating_cases event s) as [E | (i & _ & _ & _ & E)].
  - exists s, []. rewrite app_nil_r. auto.
  - eexists. exists [SendEvent (AiIndicatorClear (stop_cid event) i)].
    split; [exact E|]. split; [|reflexivity].
    destruct (abort_each_fields (activeStreamControllers s) s) as (_ & _ & _ & _ & H5 & _).
    unfold with_trace, with_active. cbn [trace]. reflexivity.
Qed.

(** Whatever the stream, the loop is done with it in one of the ways of
    [LoopEnd], having taken some of its chunks: it adds to the trace, and
    what it writes is what [absorb] says for the chunks taken.  After a
    quiet run of items, a chunk that carries text more than 1000 ms after
    the last flush is written at once. *)
Lemma consume_any (controller : Controller) (cm : ChannelMessage)
    (stream : list StreamItem) :
  forall (messageText : string) (lastUpdateTime : Z)
         (pending : list (option ToolCall)) (s : State),
  exists (taken : list (Chunk * Z)) (e : LoopEnd) (s1 : State) (fs : list Effect),
    loop_ends controller cm stream messageText lastUpdateTime pending s e s1 /\
    trace s1 = trace s ++ fs /\
    writes_of fs = snd (absorb taken messageText lastUpdateTime) /\
    Forall (fun cn => In (SChunk (fst cn) (snd cn)) stream) taken /\
    (forall before chunk now after,
       stream = before ++ SChunk chunk now :: after ->
       aborted controller s = false ->
       quiet before pending = true ->
       truthy (chunk_content chunk) = true ->
       (1000 < now - lastUpdateTime)%Z ->
       exists later,
         writes_of fs = String.append messageText (chunk_text chunk) :: later).
Proof.
  induction stream as [|item stream IH]; intros messageText lastUpdateTime pending s.
  - exists [], (Leaves (Ok (Fallthrough messageText))), s, [].
    split; [|split; [|split; [|split]]].
    + split; [discriminate|]. intros k. reflexivity.
    + now rewrite app_nil_r.
    + reflexivity.
    + constructor.
    + intros before chunk now after E. destruct before; discriminate.
  - destruct item as [chunk0 now0 | event | error].
    + destruct (aborted controller s) eqn:Hab.
      * exists [], (Leaves (Ok (Fallthrough messageText))), s, [].
        split; [|split; [|split; [|split]]].
        -- split; [discriminate|]. intros k. now apply consume_aborted.
        -- now rewrite app_nil_r.
        -- reflexivity.
        -- constructor.
        -- intros before chunk now after _ C. discriminate.
      * set (step := absorb [(chunk0, now0)] messageText lastUpdateTime).
        set (pending' := accumulateToolCalls pending (chunk_tool_calls chunk0)).
        set (s' := with_trace
                     (trace s ++ map (PartialUpdateMessage (cm_id cm)) (snd step)) s).
        assert (Hstep : forall k,
                  consume controller cm k (SChunk chunk0 now0 :: stream)
                    messageText lastUpdateTime pending s =
                  if is_tool_calls (chunk_finish_reason chunk0)
                     && (0 <? List.length pending')%nat
                  then (k pending' ;; ret Returned) s'
                  else consume controller cm k stream
                         (fst (fst step)) (snd (fst step)) pending' s').
        { intros k. now apply consume_step. }
        assert (Htrace : trace s' = trace s ++
                           map (PartialUpdateMessage (cm_id cm)) (snd step)).
        { unfold s'. now destruct s. }
        assert (Hab' : aborted controller s' = false).
        { unfold s'. now destruct s. }
        assert (Hflush : truthy (chunk_content chunk0) = true ->
                         (1000 < now0 - lastUpdateTime)%Z ->
                         snd step = [String.append messageText (chunk_text chunk0)]).
        { intros Ht Hgap. unfold step. rewrite absorb_cons. cbv zeta.
          cbn [absorb fst snd]. rewrite Ht. apply Z.gtb_lt in Hgap. now rewrite Hgap. }
        assert (Hskip : truthy (chunk_content chunk0) = false ->
                        step = (messageText, lastUpdateTime, [])).
        { intros Ht. unfold step. rewrite absorb_cons. cbv zeta.
          cbn [absorb fst snd]. now rewrite Ht. }
        destruct (is_tool_calls (chunk_finish_reason chunk0)
                  && (0 <? List.length pending')%nat) eqn:G.
        -- exists [(chunk0, now0)], (HandsOver pending'), s',
             (map (PartialUpdateMessage (cm_id cm)) (snd step)).
           split; [|split; [|split; [|split]]].
           ++ split; [|exact Hstep].
              apply andb_true_iff in G. destruct G as [_ G].
              apply Nat.ltb_lt in G. intros C. rewrite C in G. cbn in G. lia.
           ++ exact Htrace.
           ++ now rewrite writes_of_updates.
           ++ constructor; [left; reflexivity | constructor].
           ++ intros before chunk now after E _ Hq Ht Hgap.
              destruct before as [|item before]; cbn [app] in E.
              ** injection E as <- <- <-.
                 rewrite writes_of_updates, (Hflush Ht Hgap). exists []. reflexivity.
              ** injection E as <- _. cbn [quiet] in Hq. cbv zeta in Hq.
                 fold pending' in Hq. rewrite G in Hq. cbn [negb] in Hq.
                 rewrite andb_false_r in Hq. discriminate.
        -- destruct (IH (fst (fst step)) (snd (fst step)) pending' s')
             as (taken & e & s1 & fs & Hends & Htr & Hw & Hin & Hhead).
           exists ((chunk0, now0) :: taken), e, s1,
             (map (PartialUpdateMessage (cm_id cm)) (snd step) ++ fs).
           split; [|split; [|split; [|split]]].
           ++ destruct e as [exit | handed]; cbn [loop_ends] in *;
                destruct Hends as [Hne Hk]; (split; [exact Hne|]);
                intros k; rewrite Hstep; apply Hk.
           ++ rewrite Htr, Htrace. now rewrite <- app_assoc.
           ++ rewrite writes_of_app, writes_of_updates, Hw.
              unfold step. rewrite !absorb_cons. cbv zeta. cbn [absorb fst snd].
              destruct (truthy (chunk_content chunk0)
                        && (now0 - lastUpdateTime >? 1000)%Z); reflexivity.
           ++ constructor; [left; reflexivity|].
              eapply Forall_impl; [|exact Hin]. intros cn H. now right.
           ++ intros before chunk now after E _ Hq Ht Hgap.
              destruct before as [|item before]; cbn [app] in E.
              ** injection E as <- <- <-.
                 rewrite writes_of_app, writes_of_updates, (Hflush Ht Hgap).
                 exists (writes_of fs). reflexivity.
              ** injection E as <- E. cbn [quiet] in Hq. cbv zeta in Hq.
                 fold pending' in Hq.
                 apply andb_true_iff in Hq. destruct Hq as [Hq Hrest].
                 apply andb_true_iff in Hq. destruct Hq as [Hq _].
                 apply negb_true_iff in Hq.
                 rewrite (Hskip Hq) in *. cbn [fst snd] in *.
                 destruct (Hhead before chunk now after E Hab' Hrest Ht Hgap)
                   as [later El].
                 exists later. rewrite writes_of_app. cbn [map writes_of app].
                 exact El.
    + destruct (handleStopGenerating_writes_nothing event s) as (s' & fs0 & E0 & Htr0 & Hw0).
      destruct (IH messageText lastUpdateTime pending s')
        as (taken & e & s1 & fs & Hends & Htr & Hw & Hin & Hhead).
      exists taken, e, s1, (fs0 ++ fs).
      split; [|split; [|split; [|split]]].
      * destruct e as [exit | handed]; cbn [loop_ends] in *;
          destruct Hends as [Hne Hk]; (split; [exact Hne|]);
          intros k; rewrite consume_stop; unfold bind at 1; rewrite E0; apply Hk.
      * rewrite Htr, Htr0. now rewrite <- app_assoc.
      * now rewrite writes_of_app, Hw0, Hw.
      * eapply Forall_impl; [|exact Hin]. intros cn H. now right.
      * intros before chunk now after E Hab Hq Ht Hgap.
        destruct before as [|item before]; cbn [app] in E; [discriminate|].
        injection E as <- E. cbn [quiet] in Hq.
        apply andb_true_iff in Hq. destruct Hq as [Hid Hrest].
        apply negb_true_iff in Hid.
        rewrite handleStopGenerating_ignored in E0 by (now left).
        injection E0 as <-.
        destruct (Hhead before chunk now after E Hab Hrest Ht Hgap) as [later El].
        exists later. now rewrite writes_of_app, Hw0.
    + exists [], (Leaves (Throw error)), s, [].
      split; [|split; [|split; [|split]]].
      * split; [discriminate|]. intros k. reflexivity.
      * now rewrite app_nil_r.
      * reflexivity.
      * constructor.
      * intros before chunk now after E _ Hq.
        destruct before as [|item before]; cbn [app] in E; [discriminate|].
        injection E as <- _. discriminate.
Qed.

Section AnyStream.

Variable JSON_stringify : json -> string.
Variable JSON_parse : string -> option json.
Variable TAVILY_API_KEY : option string.
Variable fetch : nat -> FetchRequest -> FetchOutcome.

(** What a generation writes once its loop is done with the stream: the
    final text after exhaustion or [break], the error's text after an
    exception that is no abort, and whatever the tool round and the next
    generation write after a handoff. *)
Lemma generation_after_loop (cm : ChannelMessage) (stream : list StreamItem)
    (next : ModelScript) (s : State) (e : LoopEnd) (s1 : State) (fs : list Effect) :
  openai s = true ->
  loop_ends (List.length (controllers s)) cm stream "" 0%Z [] (started cm s) e s1 ->
  trace s1 = trace (started cm s) ++ fs ->
  let run := processMessageWithGemini JSON_stringify JSON_parse TAVILY_API_KEY fetch
               (CreateStream stream next) cm in
  match e with
  | Leaves (Ok (Fallthrough messageText)) =>
      writes_of (added s (exec run s)) = writes_of fs ++ [messageText]
  | Leaves (Throw error) =>
      writes_of (added s (exec run s)) =
        writes_of fs ++ (if err_name error =? "AbortError" then [] else [error_text error])
  | Leaves (Ok Returned) => False
  | HandsOver _ =>
      exists later, writes_of (added s (exec run s)) = writes_of fs ++ later
  end.
Proof.
  intros Hopen Hends Htr. cbv zeta.
  assert (Hstart : trace s1 =
                     trace s ++
                     ([SendEvent (AiIndicatorUpdate AI_STATE_GENERATING
                                    (cm_cid cm) (cm_id cm));
                       CreateCompletion (conversationHistory s)] ++ fs)).
  { rewrite Htr. unfold started. cbn [trace]. now rewrite <- app_assoc. }
  clear Htr.
  assert (Hadd : forall s2 l,
            trace s2 = trace s1 ++ l ->
            writes_of (added s s2) = writes_of fs ++ writes_of l).
  { intros s2 l H. erewrite added_app.
    2: { rewrite H, Hstart. rewrite <- !app_assoc. reflexivity. }
    rewrite !writes_of_app. reflexivity. }
  unfold exec. rewrite processMessageWithGemini_stream by exact Hopen.
  destruct e as [[[|messageText]|error] | handed]; cbn [loop_ends] in Hends;
    destruct Hends as [Hne Hk].
  - now apply Hne.
  - unfold try_finally, try_catch. unfold bind at 1. rewrite Hk.
    destruct s1 as [ready1 history1 ts1 active1 cells1 effects1].
    unfold finish. unfold bind at 1. unfold partialUpdateMessage, emit, modify.
    normalise_state.
    unfold bind at 1. unfold push, modify. normalise_state.
    unfold sendEvent, emit, modify. normalise_state.
    unfold retire, modify. normalise_state. cbn [snd].
    erewrite Hadd; [|cbn [trace]; rewrite <- app_assoc; reflexivity].
    reflexivity.
  - unfold try_finally, try_catch. unfold bind at 1. rewrite Hk.
    destruct s1 as [ready1 history1 ts1 active1 cells1 effects1].
    unfold on_error. destruct (err_name error =? "AbortError").
    + cbn [negb]. unfold ret. unfold retire, modify. normalise_state. cbn [snd].
      erewrite Hadd; [|cbn [trace]; rewrite app_nil_r; reflexivity].
      reflexivity.
    + cbn [negb]. unfold handleStreamError. unfold bind at 1.
      unfold sendEvent, partialUpdateMessage, emit, modify. normalise_state.
      unfold retire, modify. normalise_state. cbn [snd].
      erewrite Hadd; [|cbn [trace]; rewrite <- app_assoc; reflexivity].
      reflexivity.
  - set (k := handleToolCalls_then JSON_stringify JSON_parse TAVILY_API_KEY fetch
                (processMessageWithGemini JSON_stringify JSON_parse TAVILY_API_KEY
                   fetch next cm)).
    set (rest := try_finally
                   (try_catch
                      (exit <- (k handed ;; ret Returned) ;;
                       match exit with
                       | Returned => ret tt
                       | Fallthrough messageText => finish cm messageText
                       end)
                      (on_error cm))
                   (retire (List.length (controllers s)))).
    assert (Hsame :
              try_finally
                (try_catch
                   (exit <- consume (List.length (controllers s)) cm k stream "" 0%Z [] ;;
                    match exit with
                    | Returned => ret tt
                    | Fallthrough messageText => finish cm messageText
                    end)
                   (on_error cm))
                (retire (List.length (controllers s))) (started cm s) = rest s1).
    { unfold rest, try_finally, try_catch. unfold bind at 1.
      rewrite Hk. unfold bind at 3. reflexivity. }
    rewrite Hsame.
    assert (Hsteady : steady rest).
    { unfold rest. apply steady_try_finally; [|apply steady_retire].
      apply steady_try_catch; [|intros err; apply steady_on_error].
      apply steady_bind.
      - apply steady_bind; [|intros _; apply steady_ret].
        unfold k. apply steady_handleToolCalls_then.
        apply steady_processMessageWithGemini.
      - intros [|messageText]; [apply steady_ret | apply steady_finish]. }
    destruct (Hsteady s1) as (_ & _ & _ & [effects Heff] & _).
    exists (writes_of effects). now apply Hadd.
Qed.

End AnyStream.

(** ** The handler on any run of events *)

Lemma handler_writes_of_app (t1 t2 : list OpenAIResponseHandler.Effect) :
  handler_writes_of (t1 ++ t2) = handler_writes_of t1 ++ handler_writes_of t2.
Proof.
  induction t1 as [|e t1 IH]; simpl; auto.
  destruct e; simpl; rewrite ?IH; auto.
Qed.

Ltac normalise_handler_in H :=
  lazy beta iota zeta delta
    [OpenAIResponseHandler.with_message_text OpenAIResponseHandler.with_chunk_counter
     OpenAIResponseHandler.with_run_id OpenAIResponseHandler.with_is_done
     OpenAIResponseHandler.with_last_update_time OpenAIResponseHandler.with_trace
     OpenAIResponseHandler.message_text OpenAIResponseHandler.chunk_counter
     OpenAIResponseHandler.run_id OpenAIResponseHandler.is_done
     OpenAIResponseHandler.last_update_time OpenAIResponseHandler.trace] in H.

(** One event: a delta that carries text writes once when more than 1000 ms
    passed since the last write, which it then dates; a completion with a
    content writes once; nothing else writes or moves the date. *)
Lemma handler_event_step (message : OpenAIResponseHandler.MessageResponse)
    (event : OpenAIResponseHandler.AssistantStreamEvent) (now : Z)
    (hs : OpenAIResponseHandler.State) :
  let hs' := exec (OpenAIResponseHandler.handleStreamEvent message event now) hs in
  exists l,
    OpenAIResponseHandler.trace hs' = OpenAIResponseHandler.trace hs ++ l /\
    ((reads_clock event = true /\
      is_completion event = false /\
      List.length (handler_writes_of l) = 1%nat /\
      (1000 < now - OpenAIResponseHandler.last_update_time hs)%Z /\
      OpenAIResponseHandler.last_update_time hs' = now) \/
     (is_completion event = true /\
      List.length (handler_writes_of l) = 1%nat /\
      OpenAIResponseHandler.last_update_time hs' =
        OpenAIResponseHandler.last_update_time hs) \/
     (is_completion event = false /\
      handler_writes_of l = [] /\
      OpenAIResponseHandler.last_update_time hs' =
        OpenAIResponseHandler.last_update_time hs)).
Proof.
  cbv zeta. destruct hs as [mt cc rid done lut tr].
  match goal with
  | |- context [exec ?m ?h] => remember (exec m h) as hs' eqn:E
  end.
  unfold exec, OpenAIResponseHandler.handleStreamEvent in E.
  destruct event as [data_id | [[type [text|]]|] | [c|] | step | other].
  - unfold modify in E. normalise_handler_in E. cbn [snd] in E. subst hs'.
    exists []. normalise_handler. rewrite app_nil_r.
    split; [reflexivity|]. right. right. auto.
  - cbn [reads_clock]. destruct (type =? "text").
    + unfold bind at 1 in E. unfold modify at 1 in E.
      unfold bind at 1 in E. unfold gets at 1 in E. normalise_handler_in E.
      destruct (now - lut >? 1000)%Z eqn:F.
      * apply Z.gtb_lt in F.
        unfold OpenAIResponseHandler.emit, bind, gets, modify in E.
        normalise_handler_in E. cbn [snd] in E. subst hs'.
        eexists. normalise_handler.
        split; [reflexivity|]. left. split; [reflexivity|].
        split; [reflexivity|].
        split; [reflexivity|]. split; [exact F | reflexivity].
      * unfold bind, ret, modify in E. normalise_handler_in E. cbn [snd] in E.
        subst hs'. exists []. normalise_handler. rewrite app_nil_r.
        split; [reflexivity|]. right. right. auto.
    + unfold ret in E. cbn [snd] in E. subst hs'.
      exists []. normalise_handler. rewrite app_nil_r.
      split; [reflexivity|]. right. right. auto.
  - unfold ret in E. cbn [snd] in E. subst hs'.
    exists []. normalise_handler. rewrite app_nil_r.
    split; [reflexivity|]. right. right. auto.
  - unfold ret in E. cbn [snd] in E. subst hs'.
    exists []. normalise_handler. rewrite app_nil_r.
    split; [reflexivity|]. right. right. auto.
  - unfold OpenAIResponseHandler.emit, bind, gets, modify in E.
    normalise_handler_in E. cbn [snd] in E. subst hs'.
    eexists. normalise_handler.
    rewrite <- app_assoc. split; [reflexivity|]. right. left. auto.
  - unfold throw in E. cbn [snd] in E. subst hs'.
    exists []. normalise_handler. rewrite app_nil_r.
    split; [reflexivity|]. right. right. auto.
  - destruct (step =? "message_creation").
    + unfold OpenAIResponseHandler.emit, modify in E. normalise_handler_in E.
      cbn [snd] in E. subst hs'. eexists. normalise_handler.
      split; [reflexivity|]. right. right. auto.
    + unfold ret in E. cbn [snd] in E. subst hs'.
      exists []. normalise_handler. rewrite app_nil_r.
      split; [reflexivity|]. right. right. auto.
  - unfold ret in E. cbn [snd] in E. subst hs'.
    exists []. normalise_handler. rewrite app_nil_r.
    split; [reflexivity|]. right. right. auto.
Qed.

(** Whatever the events, the handler's trace only grows, and its writes
    are one per completion that carries a content and [n] more, which after
    a write at [last_update_time] are more than 1000 ms apart. *)
Lemma handler_run_any (message : OpenAIResponseHandler.MessageResponse)
    (events : list (OpenAIResponseHandler.AssistantStreamEvent * Z)) (lo hi : Z) :
  delta_readings_within lo hi events ->
  forall hs,
  exists fs n,
    OpenAIResponseHandler.trace (handler_run message events hs) =
      OpenAIResponseHandler.trace hs ++ fs /\
    List.length (handler_writes_of fs) = (n + completions events)%nat /\
    (Z.of_nat n = 0 \/
     OpenAIResponseHandler.last_update_time hs + 1001 * Z.of_nat n <= hi)%Z /\
    (Z.of_nat n = 0 \/ lo + 1001 * (Z.of_nat n - 1) <= hi)%Z.
Proof.
  induction 1 as [|[event now] events Hnow Hrest IH]; intros hs.
  - exists [], 0%nat. cbn. rewrite app_nil_r. auto.
  - change (handler_run message ((event, now) :: events) hs)
      with (handler_run message events
              (exec (OpenAIResponseHandler.handleStreamEvent message event now) hs)).
    destruct (handler_event_step message event now hs) as (l & Htr & Hcase).
    cbv zeta in Htr, Hcase.
    destruct (IH (exec (OpenAIResponseHandler.handleStreamEvent message event now) hs))
      as (fs & n & Htr' & Hlen & Hlast & Hwin).
    unfold completions in *. cbn [filter fst snd] in *.
    destruct Hcase as [(Hread & Hc & Hone & Hgap & Hlut)
                      | [(Hc & Hone & Hlut) | (Hc & Hnone & Hlut)]].
    + specialize (Hnow Hread). exists (l ++ fs), (S n). rewrite Hc.
      split; [|split; [|split]].
      * rewrite Htr', Htr. now rewrite <- app_assoc.
      * rewrite handler_writes_of_app, length_app, Hlen, Hone. lia.
      * right. rewrite Hlut in Hlast. destruct Hlast; lia.
      * right. rewrite Hlut in Hlast. destruct Hlast; lia.
    + exists (l ++ fs), n. rewrite Hc. cbn [List.length].
      split; [|split; [|split]].
      * rewrite Htr', Htr. now rewrite <- app_assoc.
      * rewrite handler_writes_of_app, length_app, Hlen, Hone. lia.
      * rewrite Hlut in Hlast. exact Hlast.
      * exact Hwin.
    + exists (l ++ fs), n. rewrite Hc.
      split; [|split; [|split]].
      * rewrite Htr', Htr. now rewrite <- app_assoc.
      * rewrite handler_writes_of_app, length_app, Hlen, Hnone. reflexivity.
      * rewrite Hlut in Hlast. exact Hlast.
      * exact Hwin.
Qed.

(** ** The final text, agent and handler *)

(** The writes of a run of text deltas are prefixes of the text
    accumulated at its end. *)
Lemma handler_run_prefixes (message : OpenAIResponseHandler.MessageResponse)
    (deltas : list (string * Z)) :
  forall hs,
  exists writes,
    OpenAIResponseHandler.trace
      (handler_run message (map (fun d => (text_delta (fst d), snd d)) deltas) hs) =
    OpenAIResponseHandler.trace hs ++
    map (fun w => OpenAIResponseHandler.PartialUpdateMessage
                    (OpenAIResponseHandler.id message) w None) writes /\
    Forall (fun w => exists tail,
              String.append (OpenAIResponseHandler.message_text hs)
                (join (map fst deltas)) = String.append w tail) writes.
Proof.
  induction deltas as [|[v now] deltas IH]; intros hs.
  - exists []. cbn. rewrite app_nil_r. auto.
  - rewrite handler_run_cons.
    pose proof (handler_delta_step message v now hs) as Hstep. cbv zeta in Hstep.
    rewrite Hstep. cbn [snd].
    match goal with
    | |- context [handler_run _ _ ?h] => destruct (IH h) as (ws & Htr & Hpre)
    end.
    cbn [OpenAIResponseHandler.trace OpenAIResponseHandler.message_text] in Htr, Hpre.
    cbn [map fst join fold_right].
    rewrite append_assoc in Hpre.
    destruct (now - OpenAIResponseHandler.last_update_time hs >? 1000)%Z.
    + exists (String.append (OpenAIResponseHandler.message_text hs) v :: ws).
      split.
      * rewrite Htr, <- app_assoc. reflexivity.
      * constructor; [|exact Hpre].
        exists (join (map fst deltas)). now rewrite append_assoc.
    + exists ws. split; [|exact Hpre].
      rewrite Htr, app_nil_r. reflexivity.
Qed.

Lemma handler_writes_of_updates (id : string) (texts : list string) :
  handler_writes_of
    (map (fun w => OpenAIResponseHandler.PartialUpdateMessage id w None) texts) = texts.
Proof. induction texts; simpl; congruence. Qed.

Lemma handler_run_app (message : OpenAIResponseHandler.MessageResponse)
    (a b : list (OpenAIResponseHandler.AssistantStreamEvent * Z))
    (hs : OpenAIResponseHandler.State) :
  handler_run message (a ++ b) hs = handler_run message b (handler_run message a hs).
Proof. unfold handler_run. apply fold_left_app. Qed.

(** C5 (amended): the claim holds of the agent and not of the response
    handler.  Agent: for every run of chunks that does not end in a tool
    round, fed with any clock readings to an initialised agent, the generation
    fulfils, the last text written to the message store is the concatenation
    of all the deltas' texts in arrival order, every earlier (throttled) write
    is a prefix of it, that same text is appended to the history as the new
    assistant turn, and the channel sees generating, then clear.  Handler
    (which keeps no history and appends no turn): after any run of text
    deltas the accumulated text is the concatenation of their values and
    every throttled write is a prefix of it, but the last text written, on
    [thread.message.completed], is the text of the completed message as the
    provider sends it when its first content is text, and the concatenation
    only when that content is of another type. *)
Theorem final_text_is_concatenation
    (JSON_stringify : json -> string) (JSON_parse : string -> option json)
    (TAVILY_API_KEY : option string) (fetch : nat -> FetchRequest -> FetchOutcome)
    (cm : ChannelMessage) (chunks : list (Chunk * Z))
    (next : ModelScript) (s : State) :
  openai s = true ->
  no_tool_round chunks ->
  let run := processMessageWithGemini JSON_stringify JSON_parse TAVILY_API_KEY fetch
               (CreateStream (stream_of chunks) next) cm in
  let full := join (map (fun cn => chunk_text (fst cn)) chunks) in
  (outcome run s = Ok tt /\
   (exists partial,
      writes_of (added s (exec run s)) = partial ++ [full] /\
      Forall (fun w => exists tail, full = String.append w tail) partial) /\
   conversationHistory (exec run s) = conversationHistory s ++ [AssistantMsg full] /\
   events_of (added s (exec run s)) =
     [AiIndicatorUpdate AI_STATE_GENERATING (cm_cid cm) (cm_id cm);
      AiIndicatorClear (Some (cm_cid cm)) (cm_id cm)]) /\
  (forall (message : OpenAIResponseHandler.MessageResponse)
          (deltas : list (string * Z)) (now : Z)
          (completed : OpenAIResponseHandler.MessageContent)
          (hs : OpenAIResponseHandler.State),
     let events :=
       map (fun d => (text_delta (fst d), snd d)) deltas ++
       [(OpenAIResponseHandler.ThreadMessageCompleted (Some completed), now)] in
     let accumulated :=
       String.append (OpenAIResponseHandler.message_text hs) (join (map fst deltas)) in
     let after := handler_run message events hs in
     OpenAIResponseHandler.message_text after = accumulated /\
     exists partial,
       handler_writes_of (handler_added hs after) =
         partial ++ [match completed with
                     | OpenAIResponseHandler.TextContent v => v
                     | OpenAIResponseHandler.OtherContent _ => accumulated
                     end] /\
       Forall (fun w => exists tail, accumulated = String.append w tail) partial).
Proof.
  intros Hopen Hno. cbv zeta. split.
  - apply generation_text_is_concatenation; assumption.
  - intros message deltas now completed hs.
    rewrite handler_run_app.
    pose proof (handler_text_is_concatenation message deltas hs) as Htext.
    destruct (handler_run_prefixes message deltas hs) as (ws & Htr & Hpre).
    set (mid := handler_run message
                  (map (fun d => (text_delta (fst d), snd d)) deltas) hs) in *.
    assert (Hlast :
      handler_run message
        [(OpenAIResponseHandler.ThreadMessageCompleted (Some completed), now)] mid =
      OpenAIResponseHandler.mkState
        (OpenAIResponseHandler.message_text mid)
        (OpenAIResponseHandler.chunk_counter mid)
        (OpenAIResponseHandler.run_id mid) (OpenAIResponseHandler.is_done mid)
        (OpenAIResponseHandler.last_update_time mid)
        (OpenAIResponseHandler.trace mid ++
         [OpenAIResponseHandler.PartialUpdateMessage (OpenAIResponseHandler.id message)
            (match completed with
             | OpenAIResponseHandler.TextContent v => v
             | OpenAIResponseHandler.OtherContent _ =>
                 OpenAIResponseHandler.message_text mid
             end) None;
          OpenAIResponseHandler.SendEvent
            (AiIndicatorClear (Some (OpenAIResponseHandler.cid message))
               (OpenAIResponseHandler.id message))])).
    { destruct mid as [mt cc rid done lut tr].
      unfold handler_run. cbn [fold_left fst snd].
      unfold exec, OpenAIResponseHandler.handleStreamEvent,
        OpenAIResponseHandler.emit, bind, gets, modify.
      normalise_handler. cbn [snd]. now rewrite <- app_assoc. }
    rewrite Hlast. cbn [OpenAIResponseHandler.message_text].
    split; [exact Htext|]. exists ws. split; [|exact Hpre].
    erewrite handler_added_app.
    2: { cbn [OpenAIResponseHandler.trace]. rewrite Htr, <- app_assoc. reflexivity. }
    rewrite handler_writes_of_app, handler_writes_of_updates, Htext.
    reflexivity.
Qed.

Lemma final_text_is_concatenation_witness :
  let run := processMessageWithGemini Sample.stringify Sample.parse Sample.key
               Sample.fetch
               (CreateStream (stream_of Sample.hello) (CreateRejects AbortError))
               Sample.m1 in
  conversationHistory (exec run Sample.ready) = [SystemMsg "prompt"; AssistantMsg "Hello!"].
Proof.
  cbv zeta.
  refine (proj1 (proj2 (proj2 (proj1
    (@final_text_is_concatenation Sample.stringify Sample.parse Sample.key
       Sample.fetch Sample.m1 Sample.hello (CreateRejects AbortError) Sample.ready
       eq_refl _))))).
  unfold no_tool_round, Sample.hello. repeat constructor.
Defined.

(** C5, as stated, fails on the response handler: two deltas spell
    "Hello", of which the throttle lets the first through, and the completed
    message carries another text; the last text written is that one, not the
    concatenation of the deltas. *)
Lemma completed_text_replaces_concatenation :
  let message := OpenAIResponseHandler.mkMessageResponse "m1" "messaging:room" in
  let events :=
    [(text_delta "Hel", 5000%Z); (text_delta "lo", 5400%Z);
     (OpenAIResponseHandler.ThreadMessageCompleted
        (Some (OpenAIResponseHandler.TextContent "Goodbye")), 5500%Z)] in
  let after := handler_run message events OpenAIResponseHandler.construct in
  join ["Hel"; "lo"] = "Hello" /\
  OpenAIResponseHandler.message_text after = "Hello" /\
  handler_writes_of (handler_added OpenAIResponseHandler.construct after) =
    ["Hel"; "Goodbye"].
Proof. cbv zeta. repeat split. Qed.

(** ** The throttle, agent and handler *)

(** C8 (amended): the bound holds of each stream, not of each message.
    Agent: whatever the stream of a generation and however the loop is done
    with it (exhaustion, an abort seen at the next chunk, an exception of the
    stream, or the handoff to the tool round), when every clock reading of
    its chunks lies within a window of T milliseconds the loop writes at most
    max(1, ceil(T / 1000)) partial updates, that is at most ceil(T / 1000)
    when T > 0 and at most one when T = 0; when the clock reads more than
    1000 (as epoch milliseconds do), the first delta that carries text is
    written at once, alone, by the first update, whatever chunks without text
    and ignored stop events came before it; and what an initialised
    agent writes in the whole generation is these updates followed by the
    final text, by the error's text, by nothing (after an abort error), or,
    after a handoff, by what the tool round and the next generation, whose
    throttle starts anew, write.  Handler: whatever the events, the writes
    are one per completion and at most max(1, ceil(T / 1000)) more (at most
    ceil(T / 1000) when T > 0) when the readings of the deltas lie within a
    window of T milliseconds, and a text delta that comes more than 1000 ms
    after the last write is written at once. *)
Theorem partial_flushes_bounded_by_duration
    (JSON_stringify : json -> string) (JSON_parse : string -> option json)
    (TAVILY_API_KEY : option string) (fetch : nat -> FetchRequest -> FetchOutcome)
    (cm : ChannelMessage) (stream : list StreamItem) (next : ModelScript)
    (s : State) (t0 T : Z) :
  readings_within t0 (t0 + T) stream ->
  let run := processMessageWithGemini JSON_stringify JSON_parse TAVILY_API_KEY fetch
               (CreateStream stream next) cm in
  (exists (partial : list string) (e : LoopEnd) (s1 : State),
     loop_ends (List.length (controllers s)) cm stream "" 0%Z [] (started cm s) e s1 /\
     writes_of (added s s1) = partial /\
     (Z.of_nat (List.length partial) <= Z.max 1 (ceil_seconds T))%Z /\
     (0 < T -> Z.of_nat (List.length partial) <= ceil_seconds T)%Z /\
     (forall before chunk now after,
        stream = before ++ SChunk chunk now :: after ->
        quiet before [] = true ->
        truthy (chunk_content chunk) = true ->
        (1000 < now)%Z ->
        exists later, partial = chunk_text chunk :: later) /\
     (openai s = true ->
      match e with
      | Leaves (Ok (Fallthrough messageText)) =>
          writes_of (added s (exec run s)) = partial ++ [messageText]
      | Leaves (Throw error) =>
          writes_of (added s (exec run s)) =
            partial ++ (if err_name error =? "AbortError" then []
                        else [error_text error])
      | Leaves (Ok Returned) => False
      | HandsOver _ =>
          exists later, writes_of (added s (exec run s)) = partial ++ later
      end)) /\
  (forall (message : OpenAIResponseHandler.MessageResponse)
          (events : list (OpenAIResponseHandler.AssistantStreamEvent * Z))
          (hs : OpenAIResponseHandler.State),
     delta_readings_within t0 (t0 + T) events ->
     exists n : nat,
       List.length (handler_writes_of (handler_added hs (handler_run message events hs))) =
         (n + completions events)%nat /\
       (Z.of_nat n <= Z.max 1 (ceil_seconds T))%Z /\
       (0 < T -> Z.of_nat n <= ceil_seconds T)%Z) /\
  (forall (message : OpenAIResponseHandler.MessageResponse) (v : string) (now : Z)
          (hs : OpenAIResponseHandler.State),
     (1000 < now - OpenAIResponseHandler.last_update_time hs)%Z ->
     handler_added hs
       (exec (OpenAIResponseHandler.handleStreamEvent message (text_delta v) now) hs) =
       [OpenAIResponseHandler.PartialUpdateMessage (OpenAIResponseHandler.id message)
          (String.append (OpenAIResponseHandler.message_text hs) v) None]).
Proof.
  intros Hwin. cbv zeta.
  assert (Hbound : forall n : nat,
            (Z.of_nat n = 0 \/ t0 + 1001 * (Z.of_nat n - 1) <= t0 + T)%Z ->
            (Z.of_nat n <= Z.max 1 (ceil_seconds T))%Z /\
            (0 < T -> Z.of_nat n <= ceil_seconds T)%Z).
  { intros n Hn.
    assert (Hmax : (Z.of_nat n <= Z.max 1 (ceil_seconds T))%Z).
    { unfold ceil_seconds. destruct Hn as [Hn|Hn]; [lia|].
      destruct (Z.le_gt_cases (Z.of_nat n) 1) as [Hle|Hgt]; [lia|].
      apply Z.max_le_iff. right. apply Z.div_le_lower_bound; lia. }
    split; [exact Hmax|]. intros HT.
    assert (1 <= ceil_seconds T)%Z.
    { unfold ceil_seconds. apply Z.div_le_lower_bound; lia. }
    lia. }
  split; [|split].
  - destruct (consume_any (List.length (controllers s)) cm stream "" 0%Z []
                (started cm s))
      as (taken & e & s1 & fs & Hends & Htr & Hw & Hin & Hhead).
    assert (Hfresh : aborted (List.length (controllers s)) (started cm s) = false).
    { unfold aborted, started. cbn [controllers]. apply fresh_controller_not_aborted. }
    assert (Hadded : writes_of (added s s1) = writes_of fs).
    { erewrite added_app.
      2: { rewrite Htr. unfold started. cbn [trace]. rewrite <- app_assoc. reflexivity. }
      rewrite writes_of_app. reflexivity. }
    assert (Htaken : Forall (fun cn => truthy (chunk_content (fst cn)) = true ->
                                       (t0 <= snd cn <= t0 + T)%Z) taken).
    { eapply Forall_impl; [|exact Hin]. intros [c n] H. cbn [fst snd] in *.
      unfold readings_within in Hwin. rewrite Forall_forall in Hwin.
      exact (Hwin _ H). }
    exists (writes_of (added s s1)), e, s1.
    split; [exact Hends|]. split; [reflexivity|].
    rewrite Hadded, Hw.
    pose proof (@absorb_count_in_window taken "" 0%Z t0 (t0 + T)%Z Htaken) as Hn.
    cbv zeta in Hn. destruct (Hbound _ Hn) as [H1 H2].
    split; [exact H1|]. split; [exact H2|]. split.
    + intros before chunk now after E Hq Ht Hnow.
      destruct (Hhead before chunk now after E Hfresh Hq Ht) as [later El]; [lia|].
      exists later. rewrite <- Hw. exact El.
    + intros Hopen.
      pose proof (@generation_after_loop JSON_stringify JSON_parse TAVILY_API_KEY fetch
                    cm stream next s e s1 fs Hopen Hends Htr) as H.
      cbv zeta in H. rewrite Hw in H. exact H.
  - intros message events hs He.
    destruct (@handler_run_any message events t0 (t0 + T)%Z He hs)
      as (fs & n & Htr & Hlen & _ & Hn).
    exists n. rewrite (handler_added_app _ _ _ Htr). split; [exact Hlen|].
    apply Hbound. exact Hn.
  - intros message v now hs Hgap. apply handler_added_app.
    pose proof (handler_delta_step message v now hs) as Hstep. cbv zeta in Hstep.
    unfold exec. rewrite Hstep. cbn [snd OpenAIResponseHandler.trace].
    apply Z.gtb_lt in Hgap. now rewrite Hgap.
Qed.

Lemma partial_flushes_bounded_by_duration_witness :
  let stream := stream_of Sample.hello ++
                [SThrow (mkError "APIError" (Some "overloaded"))] in
  exists (partial : list string) (e : LoopEnd) (s1 : State),
    loop_ends 0 Sample.m1 stream "" 0%Z [] (started Sample.m1 Sample.ready) e s1 /\
    writes_of (added Sample.ready s1) = partial /\
    (Z.of_nat (List.length partial) <= 2)%Z /\
    exists later, partial = "Hel" :: later.
Proof.
  cbv zeta.
  destruct (proj1 (@partial_flushes_bounded_by_duration Sample.stringify Sample.parse
              Sample.key Sample.fetch Sample.m1
              (stream_of Sample.hello ++
               [SThrow (mkError "APIError" (Some "overloaded"))])
              (CreateRejects AbortError) Sample.ready 5000%Z 2000%Z
              ltac:(repeat constructor; simpl; lia)))
    as (partial & e & s1 & Hends & Hw & _ & Hbound & Hfirst & _).
  exists partial, e, s1. split; [exact Hends|]. split; [exact Hw|]. split.
  - apply Hbound. lia.
  - apply (Hfirst [] (text_chunk "Hel") 5000%Z
             [SChunk (text_chunk "lo") 5400%Z; SChunk (text_chunk "!") 7000%Z;
              SThrow (mkError "APIError" (Some "overloaded"))]).
    + reflexivity.
    + reflexivity.
    + reflexivity.
    + lia.
Defined.

(** C8, as stated, fails twice.  A generation whose only delta arrives at
    the very reading the run starts and ends with (T = 0) makes one partial
    update, and ceil(0 / 1000) = 0.  And the bound, even with that
    correction, does not hold of a message: when the model asks for a tool
    after one delta and answers with another one millisecond later, the two
    generations of the message make one partial update each, two within one
    millisecond, before the final one. *)
Lemma partial_flushes_exceed_bound :
  let run := processMessageWithGemini Sample.stringify Sample.parse Sample.key
               Sample.fetch
               (CreateStream (stream_of Sample.hi) (CreateRejects AbortError))
               Sample.m1 in
  let asks := [SChunk (text_chunk "a") 5000%Z;
               SChunk (Sample.tool_chunk "calculator" "{}") 5000%Z] in
  let answers := [SChunk (text_chunk "b") 5001%Z] in
  let round := processMessageWithGemini Sample.stringify Sample.parse Sample.key
                 Sample.fetch
                 (CreateStream asks (CreateStream answers (CreateRejects AbortError)))
                 Sample.m1 in
  (readings_within 5000 (5000 + 0) (stream_of Sample.hi) /\
   writes_of (added Sample.ready (exec run Sample.ready)) = ["Hi"] ++ ["Hi"] /\
   ceil_seconds 0 = 0%Z) /\
  (readings_within 5000 (5000 + 1) (asks ++ answers) /\
   writes_of (added Sample.ready (exec round Sample.ready)) = ["a"; "b"] ++ ["b"] /\
   Z.max 1 (ceil_seconds 1) = 1%Z).
Proof.
  cbv zeta. split; (split; [repeat constructor; simpl; lia | split; reflexivity]).
Qed.
